(** * Genesis E-commerce: support tickets and the customer support bot

    A shallow embedding of
      - [genesis_ecommerce/db/schema.py]                 (Orders, Tickets),
      - [genesis_ecommerce/customer_support_bot/bot.py]   (CustomerSupportBot),
      - [genesis_ecommerce/api/v1/support.py]             (create_ticket,
        update_ticket_status)
    together with the properties of the support subsystem.

    Python code runs in a state-and-exception monad [M] over a [World] that
    holds the database tables, the SQLAlchemy session, the wall clock and the
    log.  Strings are sequences of ASCII characters. *)

From Stdlib Require Import ZArith String Ascii List Lia.
From stdpp Require Import base option list strings pretty gmap.

Local Open Scope string_scope.
Local Open Scope Z_scope.

(** ** Python built-ins used by the code *)

(** The newline character of the Python literals ["\n"]. *)
Definition nl : string := String "010"%char "".

(** [str(n)] for an [int]. *)
Definition str_int (n : Z) : string := pretty n.

(** [str(x)] for an [Optional[int]]. *)
Definition str_opt_int (o : option Z) : string :=
  match o with
  | Some n => str_int n
  | None => "None"
  end.

(** [sep.join(l)]. *)
Fixpoint join (sep : string) (l : list string) : string :=
  match l with
  | [] => ""
  | [x] => x
  | x :: rest => x +:+ sep +:+ join sep rest
  end.

Definition is_lower (c : ascii) : bool :=
  (97 <=? nat_of_ascii c)%nat && (nat_of_ascii c <=? 122)%nat.

Definition is_upper (c : ascii) : bool :=
  (65 <=? nat_of_ascii c)%nat && (nat_of_ascii c <=? 90)%nat.

Definition upper_char (c : ascii) : ascii :=
  if is_lower c then ascii_of_nat (nat_of_ascii c - 32) else c.

Definition lower_char (c : ascii) : ascii :=
  if is_upper c then ascii_of_nat (nat_of_ascii c + 32) else c.

Fixpoint lower (s : string) : string :=
  match s with
  | "" => ""
  | String c rest => String (lower_char c) (lower rest)
  end.

(** [s.capitalize()]: first character upper-cased, the others lower-cased. *)
Definition capitalize (s : string) : string :=
  match s with
  | "" => ""
  | String c rest => String (upper_char c) (lower rest)
  end.

(** [s[:n]]. *)
Definition str_prefix (n : nat) (s : string) : string := substring 0 n s.

(** [l[start:]], with Python's treatment of a negative start. *)
Definition slice_from {A} (start : Z) (l : list A) : list A :=
  let len := Z.of_nat (length l) in
  let start := if start <? 0 then Z.max 0 (len + start) else start in
  drop (Z.to_nat start) l.

(** Truthiness of an [Optional[int]]: [None] and [0] are false. *)
Definition truthy_int (o : option Z) : bool :=
  match o with
  | Some n => negb (n =? 0)
  | None => false
  end.

(** Truthiness of an [Optional[list]]: [None] and [[]] are false. *)
Definition truthy_list {A} (o : option (list A)) : bool :=
  match o with
  | Some (_ :: _) => true
  | _ => false
  end.

(** ** Exceptions

    The exceptions the code raises or meets, all of them subclasses of
    [Exception]. *)

Inductive exn :=
| HTTPException (status_code : Z) (detail : string)
| SQLAlchemyError (what : string)
| GenerationError (what : string)
| KeyError (key : string)
| ValueError (what : string)
| OSError (what : string)
| ReferenceError.

(** [str(e)]. *)
Definition str_exn (e : exn) : string :=
  match e with
  | HTTPException c d => str_int c +:+ ": " +:+ d
  | SQLAlchemyError w => w
  | GenerationError w => w
  | KeyError k => "'" +:+ k +:+ "'"
  | ValueError w => w
  | OSError w => w
  | ReferenceError => "weakly-referenced object no longer exists"
  end.

Inductive result (A : Type) :=
| Ok (a : A)
| Raise (e : exn).
Arguments Ok {A} a.
Arguments Raise {A} e.

(** ** [str.format] with keyword arguments

    The template is scanned left to right.  [field] is [None] outside a
    replacement field and [Some name] while the name of a field is being
    read.  Doubled braces are literal braces; a replacement field is
    replaced by the keyword argument of that name, which is not scanned
    again. *)

Definition kwarg (kwargs : list (string * string)) (name : string)
  : option string :=
  snd <$> find (fun kv => String.eqb (fst kv) name) kwargs.

Fixpoint format_from (tmpl : string) (field : option string)
    (kwargs : list (string * string)) : result string :=
  let cons c r :=
    match r with
    | Ok s => Ok (String c s)
    | Raise e => Raise e
    end in
  match field, tmpl with
  | None, "" => Ok ""
  | Some _, "" => Raise (ValueError "expected '}' before end of string")
  | Some name, String c rest =>
      if Ascii.eqb c "}" then
        match kwarg kwargs name with
        | Some v =>
            match format_from rest None kwargs with
            | Ok s => Ok (v +:+ s)
            | Raise e => Raise e
            end
        | None => Raise (KeyError name)
        end
      else format_from rest (Some (name +:+ String c "")) kwargs
  | None, String "{" (String "{" rest) =>
      cons "{"%char (format_from rest None kwargs)
  | None, String "{" rest => format_from rest (Some "") kwargs
  | None, String "}" (String "}" rest) =>
      cons "}"%char (format_from rest None kwargs)
  | None, String "}" _ =>
      Raise (ValueError "Single '}' encountered in format string")
  | None, String c rest => cons c (format_from rest None kwargs)
  end.

Definition str_format (tmpl : string) (kwargs : list (string * string))
  : result string :=
  format_from tmpl None kwargs.

(** ** [datetime] *)

Record datetime := {
  year : nat; month : nat; day : nat;
  hour : nat; minute : nat; second : nat;
  microsecond : nat
}.

(** [str(n).zfill(width)] for a natural number. *)
Definition zfill (width : nat) (n : nat) : string :=
  let s := pretty n in
  string_of_list_ascii (replicate (width - String.length s) "0"%char) +:+ s.

(** [str(d)]: ISO format with a space separator; the fraction is printed
    only when the microsecond is not zero. *)
Definition str_datetime (d : datetime) : string :=
  zfill 4 (year d) +:+ "-" +:+ zfill 2 (month d) +:+ "-" +:+ zfill 2 (day d)
  +:+ " " +:+ zfill 2 (hour d) +:+ ":" +:+ zfill 2 (minute d)
  +:+ ":" +:+ zfill 2 (second d)
  +:+ (if (microsecond d =? 0)%nat then ""
       else "." +:+ zfill 6 (microsecond d)).

(** ** Database rows ([db/schema.py]) *)

Module Orders.
Record t := {
  id : option Z;
  user_id : Z;
  items : list string;
  status : string;
  created_at : datetime;
  updated_at : datetime
}.
End Orders.

Module Tickets.
Record t := {
  id : option Z;
  order_id : Z;
  issue_description : string;
  status : string;
  created_at : datetime;
  updated_at : datetime
}.

Definition set_id (v : option Z) (x : t) : t :=
  {| id := v; order_id := order_id x;
     issue_description := issue_description x; status := status x;
     created_at := created_at x; updated_at := updated_at x |}.

Definition set_status (v : string) (x : t) : t :=
  {| id := id x; order_id := order_id x;
     issue_description := issue_description x; status := v;
     created_at := created_at x; updated_at := updated_at x |}.

Definition set_updated_at (v : datetime) (x : t) : t :=
  {| id := id x; order_id := order_id x;
     issue_description := issue_description x; status := status x;
     created_at := created_at x; updated_at := v |}.
End Tickets.

(** ** The world a request runs in *)

Inductive level := INFO | WARNING | ERROR.

(** A reference to a [Tickets] instance in memory (Python object identity). *)
Abbreviation ref := nat.

Record World := {
  (** the database: the rows of each table, and the [tickets.id] sequence *)
  orders_table : list Orders.t;
  tickets_table : list Tickets.t;
  tickets_seq : Z;
  (** the [Tickets] instances in memory and those the session tracks *)
  heap : list Tickets.t;
  attached : list ref;
  (** for each coming database round trip, whether it fails *)
  faults : list (option string);
  (** the coming readings of [datetime.now()] *)
  clock : nat -> datetime;
  (** the records written by [logger] *)
  log : list (level * string)
}.

Definition set_tickets_table (v : list Tickets.t) (w : World) : World :=
  {| orders_table := orders_table w; tickets_table := v;
     tickets_seq := tickets_seq w; heap := heap w; attached := attached w;
     faults := faults w; clock := clock w; log := log w |}.

Definition set_tickets_seq (v : Z) (w : World) : World :=
  {| orders_table := orders_table w; tickets_table := tickets_table w;
     tickets_seq := v; heap := heap w; attached := attached w;
     faults := faults w; clock := clock w; log := log w |}.

Definition set_heap (v : list Tickets.t) (w : World) : World :=
  {| orders_table := orders_table w; tickets_table := tickets_table w;
     tickets_seq := tickets_seq w; heap := v; attached := attached w;
     faults := faults w; clock := clock w; log := log w |}.

Definition set_attached (v : list ref) (w : World) : World :=
  {| orders_table := orders_table w; tickets_table := tickets_table w;
     tickets_seq := tickets_seq w; heap := heap w; attached := v;
     faults := faults w; clock := clock w; log := log w |}.

Definition set_faults (v : list (option string)) (w : World) : World :=
  {| orders_table := orders_table w; tickets_table := tickets_table w;
     tickets_seq := tickets_seq w; heap := heap w; attached := attached w;
     faults := v; clock := clock w; log := log w |}.

Definition set_clock (v : nat -> datetime) (w : World) : World :=
  {| orders_table := orders_table w; tickets_table := tickets_table w;
     tickets_seq := tickets_seq w; heap := heap w; attached := attached w;
     faults := faults w; clock := v; log := log w |}.

Definition set_log (v : list (level * string)) (w : World) : World :=
  {| orders_table := orders_table w; tickets_table := tickets_table w;
     tickets_seq := tickets_seq w; heap := heap w; attached := attached w;
     faults := faults w; clock := clock w; log := v |}.

(** ** The monad of Python code: state, and exceptions that keep the state *)

Definition M (A : Type) : Type := World -> result A * World.

Definition ret {A} (a : A) : M A := fun w => (Ok a, w).

Definition raise {A} (e : exn) : M A := fun w => (Raise e, w).

Definition bind {A B} (m : M A) (k : A -> M B) : M B :=
  fun w =>
    match m w with
    | (Ok a, w') => k a w'
    | (Raise e, w') => (Raise e, w')
    end.

(** [try: body  except ... as e: handler e]. *)
Definition try_except {A} (body : M A) (handler : exn -> M A) : M A :=
  fun w =>
    match body w with
    | (Ok a, w') => (Ok a, w')
    | (Raise e, w') => handler e w'
    end.

(** A pure computation that may raise. *)
Definition lift {A} (r : result A) : M A := fun w => (r, w).

Declare Scope py_scope.
Delimit Scope py_scope with py.
Notation "x <- m ;; k" := (bind m (fun x => k))
  (at level 100, m at next level, right associativity) : py_scope.
Notation "m ;; k" := (bind m (fun _ => k))
  (at level 100, right associativity) : py_scope.
Local Open Scope py_scope.

(** ** [logger] and [datetime.now()] *)

Definition logger (lvl : level) (msg : string) : M unit :=
  fun w => (Ok tt, set_log (log w ++ [(lvl, msg)]) w).

Definition datetime_now : M datetime :=
  fun w => (Ok (clock w 0%nat), set_clock (fun n => clock w (S n)) w).

(** ** The SQLAlchemy session

    Every round trip to the database consumes one entry of [faults] and
    raises when that entry says so.  [session.get] is a primary-key query
    (a session lives for one request, its identity map starts empty).  A
    [Tickets] instance loaded or added is tracked by the session;
    [session.commit] writes every tracked instance and commits, or raises
    and writes nothing. *)

Definition db_round_trip : M unit :=
  fun w =>
    match faults w with
    | [] => (Ok tt, w)
    | None :: fs => (Ok tt, set_faults fs w)
    | Some what :: fs => (Raise (SQLAlchemyError what), set_faults fs w)
    end.

Definition find_order (k : Z) (rows : list Orders.t) : option Orders.t :=
  find (fun row => bool_decide (Orders.id row = Some k)) rows.

Definition find_ticket (k : Z) (rows : list Tickets.t) : option Tickets.t :=
  find (fun row => bool_decide (Tickets.id row = Some k)) rows.

(** [Tickets(...)]: a new instance in memory. *)
Definition new_Tickets (x : Tickets.t) : M ref :=
  fun w => (Ok (length (heap w)), set_heap (heap w ++ [x]) w).

(** Reading the attributes of an instance. *)
Definition getattr (r : ref) : M Tickets.t :=
  fun w =>
    match heap w !! r with
    | Some x => (Ok x, w)
    | None => (Raise ReferenceError, w)
    end.

(** Assigning to an attribute of an instance. *)
Definition setattr (r : ref) (f : Tickets.t -> Tickets.t) : M unit :=
  fun w =>
    match heap w !! r with
    | Some x => (Ok tt, set_heap (<[r := f x]> (heap w)) w)
    | None => (Raise ReferenceError, w)
    end.

(** [session.get(Orders, k)]. *)
Definition session_get_Orders (k : Z) : M (option Orders.t) :=
  db_round_trip ;;
  fun w => (Ok (find_order k (orders_table w)), w).

(** [session.add(r)]. *)
Definition session_add (r : ref) : M unit :=
  fun w =>
    (Ok tt, if bool_decide (r ∈ attached w) then w
            else set_attached (attached w ++ [r]) w).

(** [session.get(Tickets, k)]. *)
Definition session_get_Tickets (k : Z) : M (option ref) :=
  db_round_trip ;;
  row <- (fun w => (Ok (find_ticket k (tickets_table w)), w)) ;;
  match row with
  | None => ret None
  | Some x => r <- new_Tickets x ;; session_add r ;; ret (Some r)
  end.

(** [session.exec(select(Orders).where(Orders.user_id == uid)).all()]. *)
Definition session_exec_Orders_by_user (uid : Z) : M (list Orders.t) :=
  db_round_trip ;;
  fun w =>
    (Ok (filter (fun row => Orders.user_id row = uid) (orders_table w)), w).

(** Writing one tracked instance: INSERT with the next id of the sequence
    when it has none, UPDATE of the rows with its id otherwise. *)
Definition flush (w : World) (r : ref) : World :=
  match heap w !! r with
  | None => w
  | Some x =>
      match Tickets.id x with
      | None =>
          let x' := Tickets.set_id (Some (tickets_seq w)) x in
          set_heap (<[r := x']> (heap w))
            (set_tickets_seq (tickets_seq w + 1)
               (set_tickets_table (tickets_table w ++ [x']) w))
      | Some k =>
          set_tickets_table
            (map (fun row =>
                    if bool_decide (Tickets.id row = Some k) then x else row)
                 (tickets_table w)) w
      end
  end.

(** [session.commit()]. *)
Definition session_commit : M unit :=
  db_round_trip ;;
  fun w => (Ok tt, foldl flush w (attached w)).

(** Loading the attributes of an instance from its row. *)
Definition reload (w : World) (r : ref) : option World :=
  x ← heap w !! r;
  k ← Tickets.id x;
  row ← find_ticket k (tickets_table w);
  Some (set_heap (<[r := row]> (heap w)) w).

(** [session.refresh(r)]. *)
Definition session_refresh (r : ref) : M unit :=
  db_round_trip ;;
  fun w =>
    match reload w r with
    | Some w' => (Ok tt, w')
    | None => (Raise (SQLAlchemyError "Could not refresh instance"), w)
    end.

(** [session.rollback()]: instances never written are dropped from the
    session, the others are loaded again from their rows. *)
Definition session_rollback : M unit :=
  fun w =>
    let kept :=
      filter (fun r => is_Some (heap w !! r ≫= Tickets.id)) (attached w) in
    (Ok tt,
     foldl (fun w r => default w (reload w r)) (set_attached kept w) kept).

(** ** [customer_support_bot/bot.py] *)

(** The response object of Gemini: reading [response.text] may raise. *)
Record GenerateContentResponse := { text : result string }.

(** A [CustomerSupportBot]: [self.model.generate_content] and
    [self.documents]. *)
Record CustomerSupportBot := {
  generate_content : string -> result GenerateContentResponse;
  documents : string
}.

(** [self.system_prompt], line by line. *)
Definition system_prompt : string :=
  String.concat nl [
    "You are a helpful customer support assistant for Genesis E-commerce.";
    "";
    "Your responsibilities:";
    "1. Answer questions about orders, shipping, returns, and refunds";
    "2. Provide information from our Terms and Conditions and Support Guide";
    "3. Help customers understand our policies and procedures";
    "4. Be polite, professional, and concise";
    "5. If you cannot find specific information in the provided context, be honest about it";
    "";
    "Context Information:";
    "{context}";
    "";
    "Important Guidelines:";
    "- Always be courteous and empathetic";
    "- Provide accurate information based on the context";
    "- If discussing specific orders or tickets, use the provided database information";
    "- Cite relevant policy sections when applicable";
    "- Keep responses concise but complete";
    "- If you don't know something, suggest contacting human support";
    ""
  ].

(** What [_load_documents] finds for a document file. *)
Inductive document_file :=
| Missing
| Readable (content : string)
| Unreadable (what : string).

Definition read_document (title : string) (loaded : string)
    (f : document_file) (combined_text : string) : M string :=
  match f with
  | Missing => ret combined_text
  | Unreadable what => raise (OSError what)
  | Readable content =>
      logger INFO loaded ;;
      ret (combined_text +:+ title +:+ nl +:+ content +:+ nl +:+ nl)
  end.

Definition _load_documents (terms_file support_file : document_file)
  : M string :=
  let combined_text := "" in
  try_except
    (combined_text <-
       read_document "=== TERMS AND CONDITIONS ==="
         "Loaded terms and conditions document" terms_file combined_text ;;
     combined_text <-
       read_document "=== SUPPORT GUIDE ==="
         "Loaded support guide document" support_file combined_text ;;
     if String.eqb combined_text "" then
       logger WARNING "No support documents found" ;;
       ret "No additional documentation available."
     else ret combined_text)
    (fun e =>
       logger ERROR ("Error loading documents: " +:+ str_exn e) ;;
       ret "Error loading support documents.").

Definition order_info (order : Orders.t) : string :=
  nl +:+ "Order Information:" +:+ nl
  +:+ "- Order ID: " +:+ str_opt_int (Orders.id order) +:+ nl
  +:+ "- User ID: " +:+ str_int (Orders.user_id order) +:+ nl
  +:+ "- Items: " +:+ join ", " (Orders.items order) +:+ nl
  +:+ "- Status: " +:+ Orders.status order +:+ nl
  +:+ "- Created: " +:+ str_datetime (Orders.created_at order) +:+ nl
  +:+ "- Last Updated: " +:+ str_datetime (Orders.updated_at order) +:+ nl.

Definition _get_order_context (order_id : Z) : M string :=
  try_except
    (order <- session_get_Orders order_id ;;
     match order with
     | None => ret ("Order #" +:+ str_int order_id +:+ " not found in system.")
     | Some order => ret (order_info order)
     end)
    (fun e =>
       logger ERROR ("Error fetching order " +:+ str_int order_id +:+ ": "
                     +:+ str_exn e) ;;
       ret ("Error retrieving order #" +:+ str_int order_id
            +:+ " information.")).

Definition ticket_info (ticket : Tickets.t) (order_status : string) : string :=
  nl +:+ "Support Ticket Information:" +:+ nl
  +:+ "- Ticket ID: " +:+ str_opt_int (Tickets.id ticket) +:+ nl
  +:+ "- Order ID: " +:+ str_int (Tickets.order_id ticket) +:+ nl
  +:+ "- Order Status: " +:+ order_status +:+ nl
  +:+ "- Issue: " +:+ Tickets.issue_description ticket +:+ nl
  +:+ "- Ticket Status: " +:+ Tickets.status ticket +:+ nl
  +:+ "- Created: " +:+ str_datetime (Tickets.created_at ticket) +:+ nl
  +:+ "- Last Updated: " +:+ str_datetime (Tickets.updated_at ticket) +:+ nl.

Definition _get_ticket_context (ticket_id : Z) : M string :=
  try_except
    (ticket <- session_get_Tickets ticket_id ;;
     match ticket with
     | None =>
         ret ("Ticket #" +:+ str_int ticket_id +:+ " not found in system.")
     | Some ticket =>
         ticket <- getattr ticket ;;
         order <- session_get_Orders (Tickets.order_id ticket) ;;
         let order_status :=
           match order with
           | Some order => Orders.status order
           | None => "Unknown"
           end in
         ret (ticket_info ticket order_status)
     end)
    (fun e =>
       logger ERROR ("Error fetching ticket " +:+ str_int ticket_id +:+ ": "
                     +:+ str_exn e) ;;
       ret ("Error retrieving ticket #" +:+ str_int ticket_id
            +:+ " information.")).

Definition user_order_line (order : Orders.t) : string :=
  nl +:+ "- Order #" +:+ str_opt_int (Orders.id order) +:+ ": "
  +:+ Orders.status order +:+ " - "
  +:+ str_int (Z.of_nat (length (Orders.items order))) +:+ " item(s) - Created: "
  +:+ str_datetime (Orders.created_at order).

Definition _get_user_orders_context (user_id : Z) : M string :=
  try_except
    (orders <- session_exec_Orders_by_user user_id ;;
     match orders with
     | [] => ret ("No orders found for user #" +:+ str_int user_id +:+ ".")
     | _ =>
         let orders_info :=
           "User #" +:+ str_int user_id +:+ " has "
           +:+ str_int (Z.of_nat (length orders)) +:+ " order(s):" +:+ nl in
         ret (fold_left (fun orders_info order =>
                           orders_info +:+ user_order_line order)
                orders orders_info)
     end)
    (fun e =>
       logger ERROR ("Error fetching orders for user " +:+ str_int user_id
                     +:+ ": " +:+ str_exn e) ;;
       ret ("Error retrieving orders for user #" +:+ str_int user_id +:+ ".")).

(** A message of the conversation history: a [dict] from keys to strings. *)
Abbreviation msg := (gmap string string).

(** [if x: context_parts.append(get(x, session))] for an [Optional[int]]. *)
Definition append_if (x : option Z) (get : Z -> M string)
    (context_parts : list string) : M (list string) :=
  match x with
  | Some id =>
      if truthy_int x then
        part <- get id ;; ret (context_parts ++ [part])%list
      else ret context_parts
  | None => ret context_parts
  end.

(** [chat], lines 212-222: the sections of the context, in order. *)
Definition context_parts (self : CustomerSupportBot)
    (order_id ticket_id user_id : option Z) : M (list string) :=
  let context_parts := [documents self] in
  context_parts <- append_if order_id _get_order_context context_parts ;;
  context_parts <- append_if ticket_id _get_ticket_context context_parts ;;
  append_if user_id _get_user_orders_context context_parts.

(** [chat], line 224: the context. *)
Definition chat_context (self : CustomerSupportBot)
    (order_id ticket_id user_id : option Z) : M string :=
  context_parts <- context_parts self order_id ticket_id user_id ;;
  ret (join (nl +:+ nl) context_parts).

(** [chat], lines 227-238: the prompt. *)
Definition chat_prompt (context message : string)
    (conversation_history : option (list msg)) : result string :=
  match str_format system_prompt [("context", context)] with
  | Raise e => Raise e
  | Ok full_prompt =>
      let full_prompt :=
        match conversation_history with
        | Some history =>
            if truthy_list conversation_history then
              fold_left
                (fun full_prompt (m : msg) =>
                   let role := default "user" (m !! "role") in
                   let content := default "" (m !! "content") in
                   full_prompt +:+ capitalize role +:+ ": " +:+ content +:+ nl)
                (slice_from (-5) history)
                (full_prompt +:+ nl +:+ nl +:+ "Conversation History:" +:+ nl)
            else full_prompt
        | None => full_prompt
        end in
      Ok (full_prompt +:+ nl +:+ nl +:+ "User: " +:+ message
          +:+ nl +:+ nl +:+ "Assistant:")
  end.

Definition apology : string :=
  "I apologize, but I'm experiencing technical difficulties. Please try again or contact our support team directly at support@genesis-ecommerce.com".

Definition chat (self : CustomerSupportBot) (message : string)
    (order_id ticket_id user_id : option Z)
    (conversation_history : option (list msg)) : M string :=
  try_except
    (context <- chat_context self order_id ticket_id user_id ;;
     full_prompt <- lift (chat_prompt context message conversation_history) ;;
     logger INFO ("Generating response for message: "
                  +:+ str_prefix 50 message +:+ "...") ;;
     response <- lift (generate_content self full_prompt) ;;
     bot_response <- lift (text response) ;;
     logger INFO "Successfully generated response" ;;
     ret bot_response)
    (fun e =>
       logger ERROR ("Error generating chat response: " +:+ str_exn e) ;;
       ret apology).

(** ** [api/v1/support.py] *)

Module CreateTicketRequest.
Record t := { order_id : Z; issue_description : string }.
End CreateTicketRequest.

Module UpdateTicketStatusRequest.
Record t := { status : string }.
End UpdateTicketStatusRequest.

(** The dictionary [{"message": ..., "ticket": ...}] an endpoint returns;
    the ticket is the state of the instance when the endpoint returns. *)
Record TicketResponse := { message : string; ticket : Tickets.t }.

(** [except HTTPException: raise] followed by [except Exception as e]. *)
Definition reraise_http {A} (handler : exn -> M A) (e : exn) : M A :=
  match e with
  | HTTPException _ _ => raise e
  | _ => handler e
  end.

Definition create_ticket (ticket_request : CreateTicketRequest.t)
  : M TicketResponse :=
  logger INFO ("Creating ticket for order_id: "
               +:+ str_int (CreateTicketRequest.order_id ticket_request)) ;;
  try_except
    (order <- session_get_Orders (CreateTicketRequest.order_id ticket_request) ;;
     match order with
     | None =>
         logger WARNING
           ("Order not found: "
            +:+ str_int (CreateTicketRequest.order_id ticket_request)) ;;
         raise (HTTPException 404 "Order not found")
     | Some _ =>
         created_at <- datetime_now ;;
         updated_at <- datetime_now ;;
         new_ticket <-
           new_Tickets
             {| Tickets.id := None;
                Tickets.order_id :=
                  CreateTicketRequest.order_id ticket_request;
                Tickets.issue_description :=
                  CreateTicketRequest.issue_description ticket_request;
                Tickets.status := "open";
                Tickets.created_at := created_at;
                Tickets.updated_at := updated_at |} ;;
         session_add new_ticket ;;
         session_commit ;;
         session_refresh new_ticket ;;
         created <- getattr new_ticket ;;
         logger INFO
           ("Created ticket " +:+ str_opt_int (Tickets.id created)
            +:+ " for order "
            +:+ str_int (CreateTicketRequest.order_id ticket_request)) ;;
         ret {| message := "Ticket created successfully"; ticket := created |}
     end)
    (reraise_http (fun e =>
       logger ERROR ("Error creating ticket: " +:+ str_exn e) ;;
       session_rollback ;;
       raise (HTTPException 500 "Failed to create ticket"))).

Definition valid_statuses : list string :=
  ["open"; "in_progress"; "resolved"; "closed"].

Definition update_ticket_status (ticket_id : Z)
    (status_request : UpdateTicketStatusRequest.t) : M TicketResponse :=
  logger INFO ("Updating ticket " +:+ str_int ticket_id +:+ " status to: "
               +:+ UpdateTicketStatusRequest.status status_request) ;;
  try_except
    (ticket <- session_get_Tickets ticket_id ;;
     match ticket with
     | None =>
         logger WARNING ("Ticket not found: " +:+ str_int ticket_id) ;;
         raise (HTTPException 404 "Ticket not found")
     | Some ticket =>
         if negb (bool_decide
                    (UpdateTicketStatusRequest.status status_request
                     ∈ valid_statuses)) then
           logger WARNING
             ("Invalid status: "
              +:+ UpdateTicketStatusRequest.status status_request) ;;
           raise (HTTPException 400
                    ("Invalid status. Must be one of: "
                     +:+ join ", " valid_statuses))
         else
           before <- getattr ticket ;;
           let old_status := Tickets.status before in
           setattr ticket
             (Tickets.set_status
                (UpdateTicketStatusRequest.status status_request)) ;;
           now <- datetime_now ;;
           setattr ticket (Tickets.set_updated_at now) ;;
           session_add ticket ;;
           session_commit ;;
           session_refresh ticket ;;
           updated <- getattr ticket ;;
           logger INFO
             ("Updated ticket " +:+ str_int ticket_id +:+ " status from "
              +:+ old_status +:+ " to " +:+ Tickets.status updated) ;;
           ret {| message := "Ticket status updated successfully";
                  ticket := updated |}
     end)
    (reraise_http (fun e =>
       logger ERROR ("Error updating ticket " +:+ str_int ticket_id +:+ ": "
                     +:+ str_exn e) ;;
       session_rollback ;;
       raise (HTTPException 500 "Failed to update ticket status"))).

(** [chat_with_bot] turns each [ChatMessage] of the request into a [dict]. *)
Module ChatMessage.
Record t := { role : string; content : string }.
End ChatMessage.

Definition to_dict (m : ChatMessage.t) : msg :=
  {[ "role" := ChatMessage.role m; "content" := ChatMessage.content m ]}.

(** ** Sample data for the examples *)

Definition at_second (s us : nat) : datetime :=
  {| year := 2025; month := 1; day := 15; hour := 10; minute := 30;
     second := s; microsecond := us |}.

Definition order7 : Orders.t :=
  {| Orders.id := Some 7; Orders.user_id := 3;
     Orders.items := ["Laptop"; "Mouse"]; Orders.status := "shipped";
     Orders.created_at := at_second 0 0; Orders.updated_at := at_second 1 0 |}.

Definition ticket1 (st : string) : Tickets.t :=
  {| Tickets.id := Some 1; Tickets.order_id := 7;
     Tickets.issue_description := "item broken"; Tickets.status := st;
     Tickets.created_at := at_second 2 0;
     Tickets.updated_at := at_second 2 0 |}.

(** A ticket whose order is not in the orders table. *)
Definition ticket2 : Tickets.t :=
  {| Tickets.id := Some 2; Tickets.order_id := 99;
     Tickets.issue_description := "late"; Tickets.status := "open";
     Tickets.created_at := at_second 3 0;
     Tickets.updated_at := at_second 3 0 |}.

(** A clock that advances by one microsecond at every reading. *)
Definition ticking (n : nat) : datetime := at_second 5 (10 + n).

(** A clock that stands still. *)
Definition frozen (n : nat) : datetime := at_second 5 10.

Definition world0 (st : string) (clk : nat -> datetime)
    (fs : list (option string)) : World :=
  {| orders_table := [order7]; tickets_table := [ticket1 st; ticket2];
     tickets_seq := 3; heap := []; attached := []; faults := fs;
     clock := clk; log := [] |}.

Definition echo_bot : CustomerSupportBot :=
  {| generate_content := fun prompt => Ok {| text := Ok prompt |};
     documents := "POLICY" |}.

Definition failing_bot : CustomerSupportBot :=
  {| generate_content := fun _ => Raise (GenerationError "deadline exceeded");
     documents := "POLICY" |}.

(** ** Vocabulary of the properties *)

Definition order_not_found (order_id : Z) : string :=
  "Order #" +:+ str_int order_id +:+ " not found in system.".

Definition order_error (order_id : Z) : string :=
  "Error retrieving order #" +:+ str_int order_id +:+ " information.".

(** The next [n] round trips to the database succeed. *)
Definition succeeds (n : nat) (w : World) : bool :=
  forallb (fun f => bool_decide (f = None)) (take n (faults w)).

(** The world after one round trip. *)
Definition next (w : World) : World := set_faults (tail (faults w)) w.

(** The world after [session.get(Tickets, k)] has loaded the row [x]. *)
Definition loaded (x : Tickets.t) (w : World) : World :=
  let w1 := set_heap (heap w ++ [x]) (next w) in
  if bool_decide (length (heap w) ∈ attached w) then w1
  else set_attached (attached w ++ [length (heap w)]) w1.

Definition ticket_error (ticket_id : Z) : string :=
  "Error retrieving ticket #" +:+ str_int ticket_id +:+ " information.".

Definition user_orders_error (user_id : Z) : string :=
  "Error retrieving orders for user #" +:+ str_int user_id +:+ ".".

(** Each section after the first follows a blank line. *)
Fixpoint after_blank_lines (sections : list string) : string :=
  match sections with
  | [] => ""
  | s :: rest => nl +:+ nl +:+ s +:+ after_blank_lines rest
  end.

(** The section of an id: none when the id is absent or zero, otherwise
    what its lookup returns. *)
Inductive section_of (get : Z -> M string)
  : option Z -> World -> list string -> World -> Prop :=
| section_absent w : section_of get None w [] w
| section_zero w : section_of get (Some 0) w [] w
| section_present id w s w1 :
    id <> 0 -> get id w = (Ok s, w1) -> section_of get (Some id) w [s] w1.

(** An id of zero read as no id. *)
Definition absent_if_zero (x : option Z) : option Z :=
  match x with
  | Some 0 => None
  | _ => x
  end.

(** The system prompt before and after its placeholder. *)
Definition prompt_head : string :=
  String.concat nl [
    "You are a helpful customer support assistant for Genesis E-commerce.";
    "";
    "Your responsibilities:";
    "1. Answer questions about orders, shipping, returns, and refunds";
    "2. Provide information from our Terms and Conditions and Support Guide";
    "3. Help customers understand our policies and procedures";
    "4. Be polite, professional, and concise";
    "5. If you cannot find specific information in the provided context, be honest about it";
    "";
    "Context Information:";
    ""
  ].

Definition prompt_tail : string :=
  String.concat nl [
    "";
    "";
    "Important Guidelines:";
    "- Always be courteous and empathetic";
    "- Provide accurate information based on the context";
    "- If discussing specific orders or tickets, use the provided database information";
    "- Cite relevant policy sections when applicable";
    "- Keep responses concise but complete";
    "- If you don't know something, suggest contacting human support";
    ""
  ].

Definition no_brace (s : string) : bool :=
  forallb (fun c => negb (Ascii.eqb c "{" || Ascii.eqb c "}"))
    (list_ascii_of_string s).

(** Strings one after the other. *)
Fixpoint cat (l : list string) : string :=
  match l with
  | [] => ""
  | s :: rest => s +:+ cat rest
  end.

(** The last [k] elements of a list, in their order. *)
Definition last_turns {A} (k : nat) (l : list A) : list A :=
  drop (length l - Nat.min k (length l)) l.

(** The line of a message. *)
Definition msg_line (m : msg) : string :=
  capitalize (default "user" (m !! "role")) +:+ ": "
  +:+ default "" (m !! "content") +:+ nl.

(** The block of the conversation history in the prompt. *)
Definition history_block (conversation_history : option (list msg)) : string :=
  match conversation_history with
  | None | Some [] => ""
  | Some history =>
      nl +:+ nl +:+ "Conversation History:" +:+ nl
      +:+ cat (map msg_line (last_turns 5 history))
  end.


(** The answer of the completion service to a prompt. *)
Definition completion (self : CustomerSupportBot) (prompt : string)
  : result string :=
  match generate_content self prompt with
  | Ok response => text response
  | Raise e => Raise e
  end.

(** The database of [w'] is that of [w]. *)
Definition same_db (w w' : World) : Prop :=
  orders_table w' = orders_table w
  /\ tickets_table w' = tickets_table w
  /\ tickets_seq w' = tickets_seq w.

(** [UPDATE tickets SET ... WHERE id = k]. *)
Definition replace_rows (k : Z) (x : Tickets.t) (rows : list Tickets.t)
  : list Tickets.t :=
  map (fun row => if bool_decide (Tickets.id row = Some k) then x else row) rows.

Ltac proj :=
  cbn [orders_table tickets_table tickets_seq heap attached faults clock log
       set_tickets_table set_tickets_seq set_heap set_attached set_faults
       set_clock set_log next].

Ltac name_body body msg failure :=
  lazymatch goal with
  | |- context [try_except ?b
                  (reraise_http (fun e => logger ERROR (@?m e) ;; _ ;;
                                          raise (HTTPException 500 ?f))) _] =>
      set (body := b); pose (msg := m); pose (failure := f)
  end.

Definition invalid_status : exn :=
  HTTPException 400
    "Invalid status. Must be one of: open, in_progress, resolved, closed".

(** The ticket [create_ticket] writes for a request. *)
Definition created_ticket (ticket_request : CreateTicketRequest.t) (w : World)
  : Tickets.t :=
  {| Tickets.id := Some (tickets_seq w);
     Tickets.order_id := CreateTicketRequest.order_id ticket_request;
     Tickets.issue_description :=
       CreateTicketRequest.issue_description ticket_request;
     Tickets.status := "open";
     Tickets.created_at := clock w 0%nat;
     Tickets.updated_at := clock w 1%nat |}.

Definition bogus : UpdateTicketStatusRequest.t :=
  {| UpdateTicketStatusRequest.status := "bogus" |}.

Definition closed : UpdateTicketStatusRequest.t :=
  {| UpdateTicketStatusRequest.status := "closed" |}.

Definition request7 : CreateTicketRequest.t :=
  {| CreateTicketRequest.order_id := 7;
     CreateTicketRequest.issue_description := "item broken" |}.

Definition eight_turns : list ChatMessage.t :=
  map (fun n => {| ChatMessage.role := if Nat.even n then "USER" else "assistant";
                   ChatMessage.content := "m" +:+ pretty n |})
    (seq 1 8).

(** ** More of [customer_support_bot/bot.py] *)

(** [CustomerSupportBot()]: the model and the documents loaded from the
    two files. *)
Definition CustomerSupportBot__init__
    (model : string -> result GenerateContentResponse)
    (terms_file support_file : document_file) : M CustomerSupportBot :=
  documents <- _load_documents terms_file support_file ;;
  ret {| generate_content := model; documents := documents |}.

(** [get_chatbot], with the global [_bot_instance] passed in and returned:
    [construct] is [CustomerSupportBot()]. *)
Definition get_chatbot (construct : M CustomerSupportBot)
    (_bot_instance : option CustomerSupportBot)
  : M (CustomerSupportBot * option CustomerSupportBot) :=
  match _bot_instance with
  | None =>
      bot <- construct ;;
      logger INFO "Initialized customer support chatbot" ;;
      ret (bot, Some bot)
  | Some bot => ret (bot, Some bot)
  end.

(** ** More of the session *)

(** [Depends(get_session)]: the endpoint runs in a session of its own,
    closed when it returns or raises. *)
Definition with_session {A} (endpoint : M A) : M A :=
  fun w =>
    let (r, w') := endpoint (set_attached [] w) in
    (r, set_attached [] w').

(** The instances of the rows a query returns, tracked by the session. *)
Fixpoint load_all (rows : list Tickets.t) : M (list ref) :=
  match rows with
  | [] => ret []
  | x :: rest =>
      r <- new_Tickets x ;;
      session_add r ;;
      rs <- load_all rest ;;
      ret (r :: rs)
  end.

(** [session.exec(select(Tickets).where(...)).all()]. *)
Definition session_exec_Tickets (where_ : Tickets.t -> bool) : M (list ref) :=
  db_round_trip ;;
  rows <- (fun w => (Ok (List.filter where_ (tickets_table w)), w)) ;;
  load_all rows.

(** The tickets of a response, read from their instances when the
    endpoint returns. *)
Fixpoint getattrs (refs : list ref) : M (list Tickets.t) :=
  match refs with
  | [] => ret []
  | r :: rest => x <- getattr r ;; xs <- getattrs rest ;; ret (x :: xs)
  end.

(** ** More of [api/v1/support.py] *)

(** [except HTTPException: raise] and [except Exception as e] of the
    endpoints that only read: log and raise the 500 error. *)
Definition fail_with {A} (what : exn -> string) (detail : string) (e : exn)
  : M A :=
  logger ERROR (what e) ;;
  raise (HTTPException 500 detail).

Definition get_ticket (ticket_id : Z) : M Tickets.t :=
  logger INFO ("Fetching ticket: " +:+ str_int ticket_id) ;;
  try_except
    (ticket <- session_get_Tickets ticket_id ;;
     match ticket with
     | None =>
         logger WARNING ("Ticket not found: " +:+ str_int ticket_id) ;;
         raise (HTTPException 404 "Ticket not found")
     | Some ticket =>
         ticket <- getattr ticket ;;
         logger INFO ("Retrieved ticket " +:+ str_int ticket_id
                      +:+ " with status: " +:+ Tickets.status ticket) ;;
         ret ticket
     end)
    (reraise_http
       (fail_with (fun e => "Error fetching ticket " +:+ str_int ticket_id
                            +:+ ": " +:+ str_exn e)
          "Failed to fetch ticket")).

(** [{"order_id": ..., "ticket_count": ..., "tickets": ...}]. *)
Module OrderTickets.
Record t := { order_id : Z; ticket_count : Z; tickets : list Tickets.t }.
End OrderTickets.

Definition get_tickets_by_order (order_id : Z) : M OrderTickets.t :=
  logger INFO ("Fetching tickets for order_id: " +:+ str_int order_id) ;;
  try_except
    (order <- session_get_Orders order_id ;;
     match order with
     | None =>
         logger WARNING ("Order not found: " +:+ str_int order_id) ;;
         raise (HTTPException 404 "Order not found")
     | Some _ =>
         tickets <-
           session_exec_Tickets
             (fun row => bool_decide (Tickets.order_id row = order_id)) ;;
         logger INFO ("Found " +:+ str_int (Z.of_nat (length tickets))
                      +:+ " tickets for order_id: " +:+ str_int order_id) ;;
         rows <- getattrs tickets ;;
         ret {| OrderTickets.order_id := order_id;
                OrderTickets.ticket_count := Z.of_nat (length tickets);
                OrderTickets.tickets := rows |}
     end)
    (reraise_http
       (fail_with (fun e => "Error fetching tickets for order "
                            +:+ str_int order_id +:+ ": " +:+ str_exn e)
          "Failed to fetch tickets")).

(** [{"user_id": ..., "ticket_count": ..., "tickets": ...}]. *)
Module UserTickets.
Record t := { user_id : Z; ticket_count : Z; tickets : list Tickets.t }.
End UserTickets.

Definition get_tickets_by_user (user_id : Z) : M UserTickets.t :=
  logger INFO ("Fetching all tickets for user_id: " +:+ str_int user_id) ;;
  try_except
    (orders <- session_exec_Orders_by_user user_id ;;
     match orders with
     | [] =>
         logger INFO ("No orders found for user_id: " +:+ str_int user_id) ;;
         ret {| UserTickets.user_id := user_id;
                UserTickets.ticket_count := 0;
                UserTickets.tickets := [] |}
     | _ =>
         let order_ids := map Orders.id orders in
         tickets <-
           session_exec_Tickets
             (fun row => bool_decide (Some (Tickets.order_id row) ∈ order_ids)) ;;
         logger INFO ("Found " +:+ str_int (Z.of_nat (length tickets))
                      +:+ " tickets for user_id: " +:+ str_int user_id) ;;
         rows <- getattrs tickets ;;
         ret {| UserTickets.user_id := user_id;
                UserTickets.ticket_count := Z.of_nat (length tickets);
                UserTickets.tickets := rows |}
     end)
    (fail_with (fun e => "Error fetching tickets for user "
                         +:+ str_int user_id +:+ ": " +:+ str_exn e)
       "Failed to fetch user tickets").

(** Truthiness of an [Optional[str]]: [None] and [""] are false. *)
Definition truthy_str (o : option string) : bool :=
  match o with
  | Some (String _ _) => true
  | _ => false
  end.

(** [{"ticket_count": ..., "tickets": ..., "filter": ...}]; the filter is
    [{"status": status}] or [None]. *)
Module AllTickets.
Record t := {
  ticket_count : Z;
  tickets : list Tickets.t;
  filter : option string
}.
End AllTickets.

Definition get_all_tickets (status : option string) : M AllTickets.t :=
  logger INFO ("Fetching all tickets"
               +:+ match status with
                   | Some s =>
                       if truthy_str status then " with status: " +:+ s
                       else ""
                   | None => ""
                   end) ;;
  try_except
    (let statement : Tickets.t -> bool := fun _ => true in
     let statement : Tickets.t -> bool :=
       match status with
       | Some s =>
           if truthy_str status then
             fun row => statement row && bool_decide (Tickets.status row = s)
           else statement
       | None => statement
       end in
     tickets <- session_exec_Tickets statement ;;
     logger INFO ("Found " +:+ str_int (Z.of_nat (length tickets))
                  +:+ " tickets") ;;
     rows <- getattrs tickets ;;
     ret {| AllTickets.ticket_count := Z.of_nat (length tickets);
            AllTickets.tickets := rows;
            AllTickets.filter := if truthy_str status then status else None |})
    (fail_with (fun e => "Error fetching tickets: " +:+ str_exn e)
       "Failed to fetch tickets").

Module ChatRequest.
Record t := {
  message : string;
  order_id : option Z;
  ticket_id : option Z;
  user_id : option Z;
  conversation_history : option (list ChatMessage.t)
}.
End ChatRequest.

Module ChatResponse.
Record t := { response : string; conversation_id : option string }.
End ChatResponse.

(** The chat endpoints call [get_chatbot()]; [chatbot] is that call in the
    state the process is in. *)
Definition chat_with_bot (chatbot : M CustomerSupportBot)
    (chat_request : ChatRequest.t) : M ChatResponse.t :=
  logger INFO
    ("Chat request: " +:+ str_prefix 50 (ChatRequest.message chat_request)
     +:+ "... " +:+ "(order_id="
     +:+ str_opt_int (ChatRequest.order_id chat_request) +:+ ", "
     +:+ "ticket_id=" +:+ str_opt_int (ChatRequest.ticket_id chat_request)
     +:+ ", " +:+ "user_id="
     +:+ str_opt_int (ChatRequest.user_id chat_request) +:+ ")") ;;
  try_except
    (bot <- chatbot ;;
     let history :=
       match ChatRequest.conversation_history chat_request with
       | Some l =>
           if truthy_list (ChatRequest.conversation_history chat_request)
           then Some (map to_dict l)
           else None
       | None => None
       end in
     response <-
       chat bot (ChatRequest.message chat_request)
         (ChatRequest.order_id chat_request)
         (ChatRequest.ticket_id chat_request)
         (ChatRequest.user_id chat_request) history ;;
     logger INFO "Successfully generated chat response" ;;
     ret {| ChatResponse.response := response;
            ChatResponse.conversation_id := None |})
    (fail_with (fun e => "Error processing chat request: " +:+ str_exn e)
       "Failed to process chat request. Please try again or contact support.").

Definition chat_about_order (chatbot : M CustomerSupportBot)
    (order_id : Z) (message : string) : M ChatResponse.t :=
  logger INFO ("Order-specific chat: order_id=" +:+ str_int order_id
               +:+ ", message=" +:+ str_prefix 50 message +:+ "...") ;;
  try_except
    (order <- session_get_Orders order_id ;;
     match order with
     | None =>
         logger WARNING ("Order not found: " +:+ str_int order_id) ;;
         raise (HTTPException 404 "Order not found")
     | Some _ =>
         bot <- chatbot ;;
         response <- chat bot message (Some order_id) None None None ;;
         logger INFO ("Successfully generated response for order "
                      +:+ str_int order_id) ;;
         ret {| ChatResponse.response := response;
                ChatResponse.conversation_id := None |}
     end)
    (reraise_http
       (fail_with (fun e => "Error processing order chat request: "
                            +:+ str_exn e)
          "Failed to process chat request.")).

Definition chat_about_ticket (chatbot : M CustomerSupportBot)
    (ticket_id : Z) (message : string) : M ChatResponse.t :=
  logger INFO ("Ticket-specific chat: ticket_id=" +:+ str_int ticket_id
               +:+ ", message=" +:+ str_prefix 50 message +:+ "...") ;;
  try_except
    (ticket <- session_get_Tickets ticket_id ;;
     match ticket with
     | None =>
         logger WARNING ("Ticket not found: " +:+ str_int ticket_id) ;;
         raise (HTTPException 404 "Ticket not found")
     | Some _ =>
         bot <- chatbot ;;
         response <- chat bot message None (Some ticket_id) None None ;;
         logger INFO ("Successfully generated response for ticket "
                      +:+ str_int ticket_id) ;;
         ret {| ChatResponse.response := response;
                ChatResponse.conversation_id := None |}
     end)
    (reraise_http
       (fail_with (fun e => "Error processing ticket chat request: "
                            +:+ str_exn e)
          "Failed to process chat request.")).

(** ** [api/v1/orders.py] *)

(** [{"user_id": ..., "order_count": ..., "orders": ...}]. *)
Module UserOrders.
Record t := { user_id : Z; order_count : Z; orders : list Orders.t }.
End UserOrders.

Definition fetch_user_orders (user_id : Z) : M UserOrders.t :=
  logger INFO ("Fetching orders for user_id: " +:+ str_int user_id) ;;
  try_except
    (orders <- session_exec_Orders_by_user user_id ;;
     logger INFO ("Found " +:+ str_int (Z.of_nat (length orders))
                  +:+ " orders for user_id: " +:+ str_int user_id) ;;
     ret {| UserOrders.user_id := user_id;
            UserOrders.order_count := Z.of_nat (length orders);
            UserOrders.orders := orders |})
    (fail_with (fun e => "Error fetching orders for user_id "
                         +:+ str_int user_id +:+ ": " +:+ str_exn e)
       "Failed to fetch orders").

(** ** Vocabulary of the further properties *)

(** A computation that leaves the database as it is, whatever it returns
    or raises. *)
Definition reads_only {A} (m : M A) : Prop :=
  forall w, same_db w (snd (m w)).

(** The tickets table is well formed: every row has an id below the next
    id of the sequence, and no two rows have the same id. *)
Definition tickets_wf (w : World) : Prop :=
  Forall (fun row => exists k, Tickets.id row = Some k /\ k < tickets_seq w)
    (tickets_table w)
  /\ NoDup (map Tickets.id (tickets_table w)).

(** One step through monadic code, given the lemmas for [bind] and
    [try_except]. *)
Ltac reads_only_with Hbind Htry :=
  first
    [ solve [eauto with reads_only]
    | apply Hbind; [|intros ?]
    | apply Htry; [|intros ?]
    | match goal with
      | |- reads_only (match ?x with Some _ => _ | None => _ end) =>
          destruct x
      | |- reads_only (match ?x with [] => _ | _ :: _ => _ end) =>
          destruct x
      | |- reads_only (if ?b then _ else _) => destruct b
      end
    | solve [eauto with reads_only] ].

(** What [_load_documents] adds for a file that it reads. *)
Definition document_section (title : string) (f : document_file) : string :=
  match f with
  | Readable content => title +:+ nl +:+ content +:+ nl +:+ nl
  | _ => ""
  end.

(** The answer of [chat] for a context and a history. *)
Definition answer_for (bot : CustomerSupportBot) (context message : string)
    (history : option (list msg)) : string :=
  match
    completion bot
      (prompt_head +:+ context +:+ prompt_tail +:+ history_block history
       +:+ nl +:+ nl +:+ "User: " +:+ message +:+ nl +:+ nl +:+ "Assistant:")
  with
  | Ok answer => answer
  | Raise _ => apology
  end.

(** The status [_get_ticket_context] reports for the order of a ticket. *)
Definition order_status_of (order_id : Z) (w : World) : string :=
  match find_order order_id (orders_table w) with
  | Some order => Orders.status order
  | None => "Unknown"
  end.

(** What a request has done to the tickets: nothing, or the update of the
    rows of one ticket, or one new row. *)
Inductive tickets_change (w w' : World) : Prop :=
| tickets_unchanged :
    tickets_table w' = tickets_table w ->
    tickets_seq w' = tickets_seq w ->
    tickets_change w w'
| tickets_updated k x x' :
    find_ticket k (tickets_table w) = Some x ->
    Tickets.id x' = Some k ->
    tickets_table w' = replace_rows k x' (tickets_table w) ->
    tickets_seq w' = tickets_seq w ->
    tickets_change w w'
| tickets_added x :
    Tickets.id x = Some (tickets_seq w) ->
    tickets_table w' = (tickets_table w ++ [x])%list ->
    tickets_seq w' = tickets_seq w + 1 ->
    tickets_change w w'.

(** * Properties *)

(** ** Running monadic code *)

Lemma bind_ok {A B} (m : M A) (k : A -> M B) w a w1 :
  m w = (Ok a, w1) -> bind m k w = k a w1.
Proof. unfold bind. intros ->. reflexivity. Qed.

Lemma bind_raise {A B} (m : M A) (k : A -> M B) w e w1 :
  m w = (Raise e, w1) -> bind m k w = (Raise e, w1).
Proof. unfold bind. intros ->. reflexivity. Qed.

Lemma try_ok {A} (m : M A) h w a w1 :
  m w = (Ok a, w1) -> try_except m h w = (Ok a, w1).
Proof. unfold try_except. intros ->. reflexivity. Qed.

Lemma try_raise {A} (m : M A) h w e w1 :
  m w = (Raise e, w1) -> try_except m h w = h e w1.
Proof. unfold try_except. intros ->. reflexivity. Qed.

(** ** The three lookups of the context *)

Lemma _get_order_context_found order_id w w1 order :
  session_get_Orders order_id w = (Ok (Some order), w1) ->
  _get_order_context order_id w = (Ok (order_info order), w1).
Proof.
  intros H. unfold _get_order_context.
  erewrite try_ok; [reflexivity|]. erewrite bind_ok by exact H. reflexivity.
Qed.

Lemma _get_order_context_absent order_id w w1 :
  session_get_Orders order_id w = (Ok None, w1) ->
  _get_order_context order_id w = (Ok (order_not_found order_id), w1).
Proof.
  intros H. unfold _get_order_context.
  erewrite try_ok; [reflexivity|]. erewrite bind_ok by exact H. reflexivity.
Qed.

Lemma _get_order_context_failed order_id w w1 e :
  session_get_Orders order_id w = (Raise e, w1) ->
  _get_order_context order_id w
  = (Ok (order_error order_id),
     set_log (log w1 ++ [(ERROR, "Error fetching order " +:+ str_int order_id
                                 +:+ ": " +:+ str_exn e)]) w1).
Proof.
  intros H. unfold _get_order_context.
  erewrite try_raise; [reflexivity|]. erewrite bind_raise by exact H. reflexivity.
Qed.

Lemma db_round_trip_succeeds n w :
  succeeds (S n) w = true ->
  db_round_trip w = (Ok tt, next w) /\ succeeds n (next w) = true.
Proof.
  unfold succeeds, db_round_trip, next.
  destruct w as [ot tk sq hp at_ fs ck lg]; cbn.
  destruct fs as [|[what|] fs]; cbn; intros H; try discriminate.
  - split; [reflexivity|]. destruct n; reflexivity.
  - split; [reflexivity|exact H].
Qed.

Lemma db_round_trip_fails what fs w :
  faults w = Some what :: fs ->
  db_round_trip w = (Raise (SQLAlchemyError what), next w).
Proof.
  unfold db_round_trip, next. intros ->. reflexivity.
Qed.

Lemma session_get_Orders_succeeds n k w :
  succeeds (S n) w = true ->
  session_get_Orders k w = (Ok (find_order k (orders_table w)), next w)
  /\ succeeds n (next w) = true.
Proof.
  intros H. destruct (db_round_trip_succeeds _ _ H) as [E S].
  split; [|exact S]. unfold session_get_Orders.
  erewrite bind_ok by exact E. reflexivity.
Qed.

Lemma session_get_Orders_fails k what fs w :
  faults w = Some what :: fs ->
  session_get_Orders k w = (Raise (SQLAlchemyError what), next w).
Proof.
  intros H. unfold session_get_Orders.
  erewrite bind_raise by (eapply db_round_trip_fails; exact H). reflexivity.
Qed.

Lemma session_get_Tickets_succeeds n k w :
  succeeds (S n) w = true ->
  session_get_Tickets k w
  = match find_ticket k (tickets_table w) with
    | Some x => (Ok (Some (length (heap w))), loaded x w)
    | None => (Ok None, next w)
    end
  /\ succeeds n (next w) = true.
Proof.
  intros H. destruct (db_round_trip_succeeds _ _ H) as [E S].
  split; [|exact S]. unfold session_get_Tickets.
  erewrite bind_ok by exact E.
  unfold bind at 1. cbn [next set_faults tickets_table].
  destruct (find_ticket k (tickets_table w)) as [x|]; reflexivity.
Qed.

Lemma loaded_heap x w : heap (loaded x w) !! length (heap w) = Some x.
Proof.
  unfold loaded. cbn. case_bool_decide; cbn; apply list_lookup_middle; reflexivity.
Qed.

Lemma loaded_frame x w :
  orders_table (loaded x w) = orders_table w
  /\ tickets_table (loaded x w) = tickets_table w
  /\ tickets_seq (loaded x w) = tickets_seq w
  /\ faults (loaded x w) = tail (faults w)
  /\ clock (loaded x w) = clock w
  /\ log (loaded x w) = log w.
Proof. unfold loaded. case_bool_decide; cbn; repeat split. Qed.

Lemma succeeds_loaded n x w : succeeds n (loaded x w) = succeeds n (next w).
Proof. unfold succeeds, loaded. case_bool_decide; reflexivity. Qed.

Lemma getattr_loaded x w :
  getattr (length (heap w)) (loaded x w) = (Ok x, loaded x w).
Proof. unfold getattr. rewrite loaded_heap. reflexivity. Qed.

(** A [try] whose handler returns always returns. *)
Lemma try_except_returns {A} (body : M A) (handler : exn -> M A) :
  (forall e w, exists a w', handler e w = (Ok a, w')) ->
  forall w, exists a w', try_except body handler w = (Ok a, w').
Proof.
  intros Hh w. unfold try_except.
  destruct (body w) as [[a|e] w1]; [eauto|apply Hh].
Qed.

Lemma _get_order_context_returns order_id w :
  exists s w', _get_order_context order_id w = (Ok s, w').
Proof.
  apply try_except_returns. intros e w0. eexists _, _. reflexivity.
Qed.

Lemma _get_ticket_context_returns ticket_id w :
  exists s w', _get_ticket_context ticket_id w = (Ok s, w').
Proof.
  apply try_except_returns. intros e w0. eexists _, _. reflexivity.
Qed.

Lemma _get_user_orders_context_returns user_id w :
  exists s w', _get_user_orders_context user_id w = (Ok s, w').
Proof.
  apply try_except_returns. intros e w0. eexists _, _. reflexivity.
Qed.

(** ** The context *)

Lemma append_assoc (a b c : string) : (a +:+ b) +:+ c = a +:+ b +:+ c.
Proof.
  induction a as [|x a IH]; [reflexivity|].
  change (String x ((a +:+ b) +:+ c) = String x (a +:+ b +:+ c)).
  rewrite IH. reflexivity.
Qed.

Lemma append_empty_r (a : string) : a +:+ "" = a.
Proof.
  induction a as [|x a IH]; [reflexivity|].
  change (String x (a +:+ "") = String x a). rewrite IH. reflexivity.
Qed.

Lemma join_blank_lines (first : string) (sections : list string) :
  join (nl +:+ nl) (first :: sections) = first +:+ after_blank_lines sections.
Proof.
  revert first. induction sections as [|s rest IH]; intros first.
  - cbn. rewrite append_empty_r. reflexivity.
  - change (join (nl +:+ nl) (first :: s :: rest))
      with (first +:+ (nl +:+ nl) +:+ join (nl +:+ nl) (s :: rest)).
    rewrite IH. reflexivity.
Qed.

Lemma append_if_None get parts w : append_if None get parts w = (Ok parts, w).
Proof. reflexivity. Qed.

Lemma append_if_zero get parts w :
  append_if (Some 0) get parts w = (Ok parts, w).
Proof. reflexivity. Qed.

Lemma append_if_nonzero get parts id w s w1 :
  id <> 0 -> get id w = (Ok s, w1) ->
  append_if (Some id) get parts w = (Ok (parts ++ [s])%list, w1).
Proof.
  intros Hid Hget. unfold append_if, truthy_int.
  destruct (Z.eqb_spec id 0) as [|_]; [contradiction|]. cbn.
  erewrite bind_ok by exact Hget. reflexivity.
Qed.

Lemma append_if_section get (returns : forall id w, exists s w', get id w = (Ok s, w'))
    x parts w :
  exists sec w1,
    section_of get x w sec w1
    /\ append_if x get parts w = (Ok (parts ++ sec)%list, w1).
Proof.
  destruct x as [id|].
  - destruct (Z.eq_dec id 0) as [->|Hid].
    + exists [], w. split; [constructor|]. rewrite app_nil_r. reflexivity.
    + destruct (returns id w) as (s & w1 & Hget).
      exists [s], w1. split; [constructor; assumption|].
      apply append_if_nonzero; assumption.
  - exists [], w. split; [constructor|]. rewrite app_nil_r. reflexivity.
Qed.

Lemma context_parts_sections self oid tid uid w :
  exists so st su w1 w2 w3,
    section_of _get_order_context oid w so w1
    /\ section_of _get_ticket_context tid w1 st w2
    /\ section_of _get_user_orders_context uid w2 su w3
    /\ context_parts self oid tid uid w
       = (Ok (documents self :: so ++ st ++ su)%list, w3).
Proof.
  destruct (append_if_section _ _get_order_context_returns oid
              [documents self] w) as (so & w1 & So & Eo).
  destruct (append_if_section _ _get_ticket_context_returns tid
              ([documents self] ++ so)%list w1) as (st & w2 & St & Et).
  destruct (append_if_section _ _get_user_orders_context_returns uid
              (([documents self] ++ so) ++ st)%list w2) as (su & w3 & Su & Eu).
  exists so, st, su, w1, w2, w3. repeat split; try assumption.
  unfold context_parts. erewrite bind_ok by exact Eo.
  erewrite bind_ok by exact Et. rewrite Eu. cbn. rewrite <- app_assoc.
  reflexivity.
Qed.

Lemma append_if_absent_if_zero x get parts w :
  append_if x get parts w = append_if (absent_if_zero x) get parts w.
Proof. destruct x as [[| |]|]; reflexivity. Qed.

Lemma context_parts_absent_if_zero self oid tid uid w :
  context_parts self oid tid uid w
  = context_parts self (absent_if_zero oid) (absent_if_zero tid)
      (absent_if_zero uid) w.
Proof.
  unfold context_parts, bind.
  rewrite (append_if_absent_if_zero oid).
  destruct (append_if (absent_if_zero oid) _ _ w) as [[p1|e] w1]; [|reflexivity].
  rewrite (append_if_absent_if_zero tid).
  destruct (append_if (absent_if_zero tid) _ _ w1) as [[p2|e] w2]; [|reflexivity].
  apply append_if_absent_if_zero.
Qed.

(** C10: an id supplied as 0 is treated exactly as an id that is absent:
    the sections of the context, the world after assembling them (no
    lookup is made, nothing is logged) and the answer of [chat] are those
    obtained without that id; with all three ids 0 the context is the
    documents alone. *)
Theorem chat_zero_id_is_absent self message oid tid uid history w :
  context_parts self oid tid uid w
  = context_parts self (absent_if_zero oid) (absent_if_zero tid)
      (absent_if_zero uid) w
  /\ chat self message oid tid uid history w
     = chat self message (absent_if_zero oid) (absent_if_zero tid)
         (absent_if_zero uid) history w
  /\ context_parts self (Some 0) (Some 0) (Some 0) w
     = context_parts self None None None w
  /\ chat_context self (Some 0) (Some 0) (Some 0) w = (Ok (documents self), w).
Proof.
  split; [apply context_parts_absent_if_zero|].
  split; [|split; reflexivity].
  unfold chat, try_except, chat_context, bind.
  rewrite context_parts_absent_if_zero. reflexivity.
Qed.

(** C6: the context is the documents, always first, followed by the order
    section, the ticket section and the user-orders section in this order,
    each one present only for its id (when supplied and not zero) and each
    after a blank line; without ids the context is the documents alone. *)
Theorem context_sections_in_order self oid tid uid w :
  (exists so st su w1 w2 w3,
     section_of _get_order_context oid w so w1
     /\ section_of _get_ticket_context tid w1 st w2
     /\ section_of _get_user_orders_context uid w2 su w3
     /\ chat_context self oid tid uid w
        = (Ok (documents self +:+ after_blank_lines (so ++ st ++ su)), w3))
  /\ chat_context self None None None w = (Ok (documents self), w).
Proof.
  split; [|reflexivity].
  destruct (context_parts_sections self oid tid uid w)
    as (so & st & su & w1 & w2 & w3 & So & St & Su & E).
  exists so, st, su, w1, w2, w3. repeat split; try assumption.
  unfold chat_context. erewrite bind_ok by exact E.
  unfold ret. rewrite join_blank_lines. reflexivity.
Qed.

Lemma append_if_parts x get parts w :
  append_if x get parts w
  = match append_if x get [] w with
    | (Ok sec, w1) => (Ok (parts ++ sec)%list, w1)
    | (Raise e, w1) => (Raise e, w1)
    end.
Proof.
  unfold append_if. destruct x as [id|]; [|cbn; rewrite app_nil_r; reflexivity].
  destruct (truthy_int (Some id)); [|cbn; rewrite app_nil_r; reflexivity].
  unfold bind. destruct (get id w) as [[s|e] w1]; reflexivity.
Qed.

(** With a non-zero order id, the sections after the order section are
    those assembled without an order id from the world the order lookup
    leaves. *)
Lemma context_parts_order_first self order_id tid uid w s w1 :
  order_id <> 0 ->
  _get_order_context order_id w = (Ok s, w1) ->
  exists rest w',
    context_parts self None tid uid w1 = (Ok (documents self :: rest), w')
    /\ context_parts self (Some order_id) tid uid w
       = (Ok (documents self :: s :: rest), w').
Proof.
  intros Hid Hget.
  destruct (append_if_section _ _get_ticket_context_returns tid [] w1)
    as (st & w2 & _ & Et).
  destruct (append_if_section _ _get_user_orders_context_returns uid [] w2)
    as (su & w3 & _ & Eu).
  cbn [app] in Et, Eu.
  exists (st ++ su)%list, w3. unfold context_parts. split.
  - erewrite bind_ok by apply append_if_None. unfold bind.
    rewrite append_if_parts, Et, append_if_parts, Eu. reflexivity.
  - erewrite bind_ok by (apply append_if_nonzero; eassumption). unfold bind.
    rewrite append_if_parts, Et, append_if_parts, Eu.
    reflexivity.
Qed.

Lemma _get_ticket_context_fails ticket_id what fs w :
  faults w = Some what :: fs ->
  exists w', _get_ticket_context ticket_id w = (Ok (ticket_error ticket_id), w').
Proof.
  intros H. unfold _get_ticket_context, session_get_Tickets.
  erewrite try_raise.
  2:{ erewrite bind_raise; [reflexivity|]. erewrite bind_raise; [reflexivity|].
      eapply db_round_trip_fails. exact H. }
  eexists. reflexivity.
Qed.

Lemma _get_user_orders_context_fails user_id what fs w :
  faults w = Some what :: fs ->
  exists w',
    _get_user_orders_context user_id w = (Ok (user_orders_error user_id), w').
Proof.
  intros H. unfold _get_user_orders_context, session_exec_Orders_by_user.
  erewrite try_raise.
  2:{ erewrite bind_raise; [reflexivity|]. erewrite bind_raise; [reflexivity|].
      eapply db_round_trip_fails. exact H. }
  eexists. reflexivity.
Qed.

(** C4: [_get_order_context] never raises; when the order lookup returns no
    record the section is exactly "Order #<id> not found in system."; when
    a lookup raises, its own section is an error sentinel; and with a
    non-zero order id the other sections are assembled as they are without
    it, after the order section, which for an absent order is that
    sentinel. *)
Theorem order_lookup_contained order_id w :
  (exists s w', _get_order_context order_id w = (Ok s, w'))
  /\ (forall w1,
        session_get_Orders order_id w = (Ok None, w1) ->
        _get_order_context order_id w
        = (Ok ("Order #" +:+ str_int order_id +:+ " not found in system."), w1))
  /\ (forall e w1,
        session_get_Orders order_id w = (Raise e, w1) ->
        exists w',
          _get_order_context order_id w
          = (Ok ("Error retrieving order #" +:+ str_int order_id
                 +:+ " information."), w'))
  /\ (forall id what fs,
        faults w = Some what :: fs ->
        exists w2 w3,
          _get_ticket_context id w
          = (Ok ("Error retrieving ticket #" +:+ str_int id
                 +:+ " information."), w2)
          /\ _get_user_orders_context id w
             = (Ok ("Error retrieving orders for user #" +:+ str_int id
                    +:+ "."), w3))
  /\ (forall self tid uid,
        order_id <> 0 ->
        exists s w1 rest w',
          _get_order_context order_id w = (Ok s, w1)
          /\ context_parts self None tid uid w1
             = (Ok (documents self :: rest), w')
          /\ context_parts self (Some order_id) tid uid w
             = (Ok (documents self :: s :: rest), w'))
  /\ (forall self tid uid w1,
        order_id <> 0 ->
        session_get_Orders order_id w = (Ok None, w1) ->
        exists rest w',
          context_parts self (Some order_id) tid uid w
          = (Ok (documents self
                 :: ("Order #" +:+ str_int order_id +:+ " not found in system.")
                 :: rest), w')).
Proof.
  split; [apply _get_order_context_returns|].
  split; [intros w1 H; apply _get_order_context_absent; exact H|].
  split.
  { intros e w1 H. eexists. apply _get_order_context_failed. exact H. }
  split.
  { intros id what fs H.
    destruct (_get_ticket_context_fails id _ _ _ H) as [w2 E2].
    destruct (_get_user_orders_context_fails id _ _ _ H) as [w3 E3].
    exists w2, w3. split; assumption. }
  split.
  { intros self tid uid Hid.
    destruct (_get_order_context_returns order_id w) as (s & w1 & Hget).
    destruct (context_parts_order_first self order_id tid uid w s w1 Hid Hget)
      as (rest & w' & E1 & E2).
    exists s, w1, rest, w'. repeat split; assumption. }
  intros self tid uid w1 Hid Hnone.
  pose proof (_get_order_context_absent order_id w w1 Hnone) as Hget.
  destruct (context_parts_order_first self order_id tid uid w _ w1 Hid Hget)
    as (rest & w' & _ & E2).
  exists rest, w'. exact E2.
Qed.

(** C8: when the ticket lookup finds the ticket and the lookup of its
    order finds nothing, [_get_ticket_context] returns the ticket section,
    with "Unknown" as the order status; with a non-zero ticket id this
    section is the one of the context. *)
Theorem ticket_section_order_unknown ticket_id t w :
  succeeds 2 w = true ->
  find_ticket ticket_id (tickets_table w) = Some t ->
  find_order (Tickets.order_id t) (orders_table w) = None ->
  let section :=
    nl +:+ "Support Ticket Information:" +:+ nl
    +:+ "- Ticket ID: " +:+ str_opt_int (Tickets.id t) +:+ nl
    +:+ "- Order ID: " +:+ str_int (Tickets.order_id t) +:+ nl
    +:+ "- Order Status: Unknown" +:+ nl
    +:+ "- Issue: " +:+ Tickets.issue_description t +:+ nl
    +:+ "- Ticket Status: " +:+ Tickets.status t +:+ nl
    +:+ "- Created: " +:+ str_datetime (Tickets.created_at t) +:+ nl
    +:+ "- Last Updated: " +:+ str_datetime (Tickets.updated_at t) +:+ nl in
  exists w',
    _get_ticket_context ticket_id w = (Ok section, w')
    /\ (forall self,
          ticket_id <> 0 ->
          context_parts self None (Some ticket_id) None w
          = (Ok [documents self; section], w')).
Proof.
  intros Hs Ht Ho section.
  destruct (session_get_Tickets_succeeds 1 ticket_id w Hs) as [Eg Hs1].
  rewrite Ht in Eg.
  rewrite <- (succeeds_loaded 1 t w) in Hs1.
  destruct (session_get_Orders_succeeds 0 (Tickets.order_id t) _ Hs1)
    as [Eo _].
  destruct (loaded_frame t w) as (Hot & _). rewrite Hot, Ho in Eo.
  assert (E : _get_ticket_context ticket_id w
              = (Ok section, next (loaded t w))).
  { unfold _get_ticket_context. erewrite try_ok; [reflexivity|].
    erewrite bind_ok by exact Eg. cbn beta iota.
    erewrite bind_ok by apply getattr_loaded.
    erewrite bind_ok by exact Eo. reflexivity. }
  exists (next (loaded t w)). split; [exact E|].
  intros self Hid. unfold context_parts.
  erewrite bind_ok by apply append_if_None.
  erewrite bind_ok by (apply append_if_nonzero; eassumption).
  reflexivity.
Qed.

Lemma ticket_section_order_unknown_witness :
  let w := world0 "open" frozen [] in
  succeeds 2 w = true
  /\ find_ticket 2 (tickets_table w) = Some ticket2
  /\ find_order (Tickets.order_id ticket2) (orders_table w) = None
  /\ exists w',
       _get_ticket_context 2 w = (Ok (ticket_info ticket2 "Unknown"), w')
       /\ context_parts echo_bot None (Some 2) None w
          = (Ok ["POLICY"; ticket_info ticket2 "Unknown"], w').
Proof.
  intros w. repeat (split; [reflexivity|]).
  destruct (ticket_section_order_unknown 2 ticket2 w eq_refl eq_refl eq_refl)
    as (w' & E & Hctx).
  exists w'. split; [exact E|]. apply (Hctx echo_bot). discriminate.
Defined.

(** ** The prompt *)

Lemma system_prompt_placeholder :
  system_prompt = prompt_head +:+ "{context}" +:+ prompt_tail
  /\ no_brace prompt_head = true /\ no_brace prompt_tail = true.
Proof. repeat split; vm_compute; reflexivity. Qed.

Lemma format_system_prompt (context : string) :
  str_format system_prompt [("context", context)]
  = Ok (prompt_head +:+ context +:+ prompt_tail).
Proof. reflexivity. Qed.

Lemma fold_left_append {A} (f : A -> string) (l : list A) (init : string) :
  fold_left (fun acc x => acc +:+ f x) l init = init +:+ cat (map f l).
Proof.
  revert init. induction l as [|x l IH]; intros init; cbn [fold_left map cat].
  - rewrite append_empty_r. reflexivity.
  - rewrite IH, append_assoc. reflexivity.
Qed.

Lemma slice_from_last {A} (l : list A) : slice_from (-5) l = last_turns 5 l.
Proof.
  unfold slice_from, last_turns. cbn [Z.ltb Z.compare]. f_equal. lia.
Qed.



Lemma chat_prompt_parts context message conversation_history :
  chat_prompt context message conversation_history
  = Ok (prompt_head +:+ context +:+ prompt_tail
        +:+ history_block conversation_history
        +:+ nl +:+ nl +:+ "User: " +:+ message +:+ nl +:+ nl +:+ "Assistant:").
Proof.
  unfold chat_prompt. rewrite format_system_prompt. f_equal.
  destruct conversation_history as [[|m history]|].
  - cbn [truthy_list history_block]. rewrite !append_assoc. reflexivity.
  - cbn [truthy_list history_block].
    rewrite slice_from_last.
    rewrite (fold_left_append msg_line). rewrite !append_assoc. reflexivity.
  - cbn [history_block]. rewrite !append_assoc. reflexivity.
Qed.






(** ** [chat] *)

Lemma chat_context_returns self oid tid uid w :
  exists context w1, chat_context self oid tid uid w = (Ok context, w1).
Proof.
  destruct (context_parts_sections self oid tid uid w)
    as (so & st & su & w1 & w2 & w3 & _ & _ & _ & E).
  unfold chat_context. erewrite bind_ok by exact E. eexists _, _. reflexivity.
Qed.

Lemma chat_answer self message oid tid uid history w context w1 prompt :
  chat_context self oid tid uid w = (Ok context, w1) ->
  chat_prompt context message history = Ok prompt ->
  fst (chat self message oid tid uid history w)
  = Ok match completion self prompt with
       | Ok answer => answer
       | Raise _ => apology
       end.
Proof.
  intros Ec Ep. unfold chat, try_except, completion.
  erewrite bind_ok by exact Ec. rewrite Ep.
  unfold bind, lift, logger, ret.
  destruct (generate_content self prompt) as [response|e]; [|reflexivity].
  destruct (text response) as [answer|e]; reflexivity.
Qed.

(** C2: whatever the message, the ids and the history, [chat] returns a
    string and never raises; when the completion call made with the prompt
    raises (in [generate_content] or in reading [response.text]) that
    string is the fixed apology, which names the support address. *)
Theorem chat_contains_completion_failure self message oid tid uid history w :
  exists context w1 prompt,
    chat_context self oid tid uid w = (Ok context, w1)
    /\ chat_prompt context message history = Ok prompt
    /\ fst (chat self message oid tid uid history w)
       = Ok match completion self prompt with
            | Ok answer => answer
            | Raise _ =>
                "I apologize, but I'm experiencing technical difficulties. Please try again or contact our support team directly at support@genesis-ecommerce.com"
            end.
Proof.
  destruct (chat_context_returns self oid tid uid w) as (context & w1 & Ec).
  exists context, w1. eexists. split; [exact Ec|].
  split; [apply chat_prompt_parts|].
  eapply chat_answer; [exact Ec|apply chat_prompt_parts].
Qed.

(** C7: the prompt passed to the completion service is, in this order, the
    system prompt with the context in the place of its one placeholder,
    the history block under "Conversation History:" when the history is
    not empty, the line "User: <message>" and last the cue "Assistant:". *)
Theorem prompt_parts_in_order self message oid tid uid history w :
  system_prompt = prompt_head +:+ "{context}" +:+ prompt_tail
  /\ no_brace prompt_head = true
  /\ no_brace prompt_tail = true
  /\ exists context w1,
       chat_context self oid tid uid w = (Ok context, w1)
       /\ let prompt :=
            prompt_head +:+ context +:+ prompt_tail
            +:+ match history with
                | None | Some [] => ""
                | Some turns =>
                    nl +:+ nl +:+ "Conversation History:" +:+ nl
                    +:+ cat (map msg_line (last_turns 5 turns))
                end
            +:+ nl +:+ nl +:+ "User: " +:+ message
            +:+ nl +:+ nl +:+ "Assistant:" in
          chat_prompt context message history = Ok prompt
          /\ fst (chat self message oid tid uid history w)
             = Ok match completion self prompt with
                  | Ok answer => answer
                  | Raise _ => apology
                  end.
Proof.
  destruct system_prompt_placeholder as (E & Hh & Ht).
  repeat (split; [assumption|]).
  destruct (chat_context_returns self oid tid uid w) as (context & w1 & Ec).
  exists context, w1. split; [exact Ec|]. intros prompt.
  split; [apply chat_prompt_parts|].
  eapply chat_answer; [exact Ec|apply chat_prompt_parts].
Qed.

(** ** Tickets *)

Lemma same_db_refl w : same_db w w.
Proof. repeat split. Qed.

Lemma same_db_trans w1 w2 w3 : same_db w1 w2 -> same_db w2 w3 -> same_db w1 w3.
Proof.
  unfold same_db. intros (A1 & A2 & A3) (B1 & B2 & B3).
  repeat split; congruence.
Qed.

Lemma reload_same_db w r : same_db w (default w (reload w r)).
Proof.
  unfold reload. destruct (heap w !! r) as [x|]; [|apply same_db_refl].
  cbn. destruct (Tickets.id x) as [k|]; [|apply same_db_refl].
  cbn. destruct (find_ticket k (tickets_table w)); [|apply same_db_refl].
  cbn. repeat split.
Qed.

Lemma foldl_reload_same_db l w :
  same_db w (foldl (fun w r => default w (reload w r)) w l).
Proof.
  revert w. induction l as [|r l IH]; intros w; [apply same_db_refl|].
  cbn [foldl]. eapply same_db_trans; [apply reload_same_db|apply IH].
Qed.

Lemma session_rollback_same_db w :
  exists w', session_rollback w = (Ok tt, w') /\ same_db w w'.
Proof.
  unfold session_rollback. eexists. split; [reflexivity|].
  eapply same_db_trans; [|apply foldl_reload_same_db]. repeat split.
Qed.

Lemma db_round_trip_next w :
  db_round_trip w = (Ok tt, next w)
  \/ exists what, db_round_trip w = (Raise (SQLAlchemyError what), next w).
Proof.
  unfold db_round_trip, next. destruct w as [ot tk sq hp at_ fs ck lg]; cbn.
  destruct fs as [|[what|] fs]; cbn; eauto.
Qed.

Lemma session_get_Tickets_next k w :
  session_get_Tickets k w
  = match find_ticket k (tickets_table w) with
    | Some x => (Ok (Some (length (heap w))), loaded x w)
    | None => (Ok None, next w)
    end
  \/ exists what,
       session_get_Tickets k w = (Raise (SQLAlchemyError what), next w).
Proof.
  unfold session_get_Tickets.
  destruct (db_round_trip_next w) as [E|[what E]].
  - left. erewrite bind_ok by exact E. unfold bind at 1.
    cbn [next set_faults tickets_table].
    destruct (find_ticket k (tickets_table w)) as [x|]; reflexivity.
  - right. exists what. erewrite bind_raise by exact E. reflexivity.
Qed.

Lemma find_ticket_id k rows x : find_ticket k rows = Some x -> Tickets.id x = Some k.
Proof.
  unfold find_ticket. intros H. apply find_some in H as [_ H].
  apply bool_decide_eq_true in H. exact H.
Qed.

Lemma find_ticket_replace_rows k x x' rows :
  find_ticket k rows = Some x -> Tickets.id x' = Some k ->
  find_ticket k (replace_rows k x' rows) = Some x'.
Proof.
  unfold find_ticket, replace_rows. intros H Hid.
  induction rows as [|row rows IH]; [discriminate|].
  cbn [find map] in *.
  destruct (bool_decide (Tickets.id row = Some k)) eqn:E.
  - rewrite Hid, bool_decide_eq_true_2 by reflexivity. reflexivity.
  - rewrite E. apply IH. exact H.
Qed.

Lemma replace_rows_status k x' rows row :
  Tickets.id x' = Some k ->
  row ∈ replace_rows k x' rows -> Tickets.id row = Some k -> row = x'.
Proof.
  unfold replace_rows. intros Hid Hin Hrow.
  apply list_elem_of_In, in_map_iff in Hin as (r0 & E & _).
  destruct (bool_decide (Tickets.id r0 = Some k)) eqn:B; [congruence|].
  subst r0. apply bool_decide_eq_false in B. contradiction.
Qed.

Lemma loaded_fresh x w :
  attached w = [] ->
  loaded x w
  = set_attached [length (heap w)] (set_heap (heap w ++ [x]) (next w)).
Proof.
  intros H. unfold loaded. rewrite H.
  rewrite bool_decide_eq_false_2 by apply not_elem_of_nil. reflexivity.
Qed.

Lemma insert_last {A} (l : list A) (x y : A) :
  <[length l := y]> (l ++ [x])%list = (l ++ [y])%list.
Proof.
  rewrite insert_app_r_alt by lia. rewrite Nat.sub_diag. reflexivity.
Qed.

Lemma getattr_at r x w : heap w !! r = Some x -> getattr r w = (Ok x, w).
Proof. unfold getattr. intros ->. reflexivity. Qed.

Lemma setattr_at r x f w :
  heap w !! r = Some x ->
  setattr r f w = (Ok tt, set_heap (<[r := f x]> (heap w)) w).
Proof. unfold setattr. intros ->. reflexivity. Qed.

Lemma session_commit_next w :
  session_commit w = (Ok tt, foldl flush (next w) (attached w))
  \/ exists what, session_commit w = (Raise (SQLAlchemyError what), next w).
Proof.
  unfold session_commit. destruct (db_round_trip_next w) as [E|[what E]].
  - left. erewrite bind_ok by exact E. reflexivity.
  - right. exists what. erewrite bind_raise by exact E. reflexivity.
Qed.

Lemma session_refresh_next r w :
  session_refresh r w
  = match reload (next w) r with
    | Some w' => (Ok tt, w')
    | None => (Raise (SQLAlchemyError "Could not refresh instance"), next w)
    end
  \/ exists what, session_refresh r w = (Raise (SQLAlchemyError what), next w).
Proof.
  unfold session_refresh. destruct (db_round_trip_next w) as [E|[what E]].
  - left. erewrite bind_ok by exact E. reflexivity.
  - right. exists what. erewrite bind_raise by exact E. reflexivity.
Qed.

(** A [try] with the handler of the endpoints, around a body that
    returns. *)
Lemma try_reraise_http_ok {A} (body : M A) handler w a w1 :
  body w = (Ok a, w1) ->
  try_except body (reraise_http handler) w = (Ok a, w1).
Proof. unfold try_except. intros ->. reflexivity. Qed.

(** Around a body that raises: an [HTTPException] passes as it is; after
    any other exception the database is as the body left it. *)
Lemma try_reraise_http_raises {A} (body : M A) msg failure w e w1 :
  body w = (Raise e, w1) ->
  exists e' w',
    try_except body
      (reraise_http (fun e =>
         logger ERROR (msg e) ;;
         session_rollback ;;
         raise (HTTPException 500 failure))) w
    = (Raise e', w')
    /\ same_db w1 w'
    /\ (forall c d, e = HTTPException c d -> e' = e /\ w' = w1).
Proof.
  intros Eb. unfold try_except. rewrite Eb.
  destruct e as [c d|what|what|key|what|what|]; cbn [reraise_http].
  1:{ exists (HTTPException c d), w1. split; [reflexivity|].
      split; [apply same_db_refl|]. intros; split; reflexivity. }
  all: unfold bind at 1; cbn [logger];
    match goal with |- context [set_log ?l ?w0] => set (w2 := set_log l w0) end;
    destruct (session_rollback_same_db w2) as (w' & E & S);
    exists (HTTPException 500 failure), w';
    (split; [erewrite bind_ok by exact E; reflexivity|]);
    (split; [eapply same_db_trans; [|exact S]; repeat split|]);
    intros c d; discriminate.
Qed.

Lemma loaded_heap_app x w : heap (loaded x w) = (heap w ++ [x])%list.
Proof. unfold loaded. case_bool_decide; reflexivity. Qed.

(** [update_ticket_status] with a status that is not valid: it raises and
    has written nothing; when the lookup finds the ticket, it raises the
    400 error and the instance in memory is the row as loaded. *)
Lemma update_ticket_status_invalid id req w :
  UpdateTicketStatusRequest.status req ∉ valid_statuses ->
  exists e w',
    update_ticket_status id req w = (Raise e, w')
    /\ same_db w w'
    /\ (forall x,
          succeeds 1 w = true ->
          find_ticket id (tickets_table w) = Some x ->
          e = invalid_status /\ heap w' = (heap w ++ [x])%list).
Proof.
  intros Hs. unfold update_ticket_status.
  erewrite bind_ok by reflexivity.
  match goal with |- context [set_log ?l w] => set (wa := set_log l w) end.
  name_body body errmsg failure.
  assert (Eb : exists e w1,
            body wa = (Raise e, w1)
            /\ same_db w w1
            /\ (forall x,
                  succeeds 1 w = true ->
                  find_ticket id (tickets_table w) = Some x ->
                  e = invalid_status /\ heap w1 = (heap w ++ [x])%list)).
  { destruct (session_get_Tickets_next id wa) as [Eg|[what Eg]].
    2:{ exists (SQLAlchemyError what), (next wa).
        split; [unfold body; erewrite bind_raise by exact Eg; reflexivity|].
        split; [repeat split|]. intros x H1 _. exfalso.
        destruct (session_get_Tickets_succeeds 0 id wa H1) as [E' _].
        rewrite Eg in E'.
        destruct (find_ticket id (tickets_table wa)); discriminate. }
    change (tickets_table wa) with (tickets_table w) in Eg.
    destruct (find_ticket id (tickets_table w)) as [x|] eqn:Hx.
    2:{ eexists _, _.
        split; [unfold body; erewrite bind_ok by exact Eg; reflexivity|].
        split; [repeat split|]. intros x H1 [=]. }
    eexists _, _. split.
    { unfold body. erewrite bind_ok by exact Eg. cbn beta iota.
      rewrite bool_decide_eq_false_2 by exact Hs. reflexivity. }
    split.
    { destruct (loaded_frame x wa) as (A & B & C & _).
      repeat split; assumption. }
    intros x0 _ [= <-]. split; [reflexivity|]. exact (loaded_heap_app x wa). }
  destruct Eb as (e & w1 & Eb & Hdb & Hfound).
  destruct (try_reraise_http_raises body errmsg failure wa e w1 Eb)
    as (e' & w' & Et & Hdb' & Hhttp).
  exists e', w'. split; [exact Et|].
  split; [eapply same_db_trans; eassumption|].
  intros x H1 Hx. destruct (Hfound x H1 Hx) as [-> Hheap].
  destruct (Hhttp _ _ eq_refl) as [-> ->]. split; [reflexivity|exact Hheap].
Qed.

(** [update_ticket_status] with a valid status in a fresh session: it
    raises, or it returns the ticket it has written, with the requested
    status and the time of the update. *)
Lemma update_ticket_status_valid id req w :
  attached w = [] ->
  let s := UpdateTicketStatusRequest.status req in
  s ∈ valid_statuses ->
  (exists e w', update_ticket_status id req w = (Raise e, w'))
  \/ (exists x w',
        let x' :=
          Tickets.set_updated_at (clock w 0%nat) (Tickets.set_status s x) in
        find_ticket id (tickets_table w) = Some x
        /\ update_ticket_status id req w
           = (Ok {| message := "Ticket status updated successfully";
                    ticket := x' |}, w')
        /\ tickets_table w' = replace_rows id x' (tickets_table w)
        /\ log w'
           = (log w
              ++ [(INFO, "Updating ticket " +:+ str_int id +:+ " status to: "
                         +:+ s);
                  (INFO, "Updated ticket " +:+ str_int id +:+ " status from "
                         +:+ Tickets.status x +:+ " to " +:+ s)])%list).
Proof.
  intros Hatt s Hv. unfold update_ticket_status.
  erewrite bind_ok by reflexivity.
  match goal with |- context [set_log ?l w] => set (wa := set_log l w) end.
  name_body body errmsg failure.
  assert (Hwa : attached wa = []) by exact Hatt.
  assert (Raises : forall e w1,
            body wa = (Raise e, w1) ->
            exists e w',
              try_except body
                (reraise_http (fun e =>
                   logger ERROR ("Error updating ticket " +:+ str_int id
                                 +:+ ": " +:+ str_exn e) ;;
                   session_rollback ;;
                   raise (HTTPException 500 "Failed to update ticket status")))
                wa = (Raise e, w')).
  { intros e w1 Eb.
    destruct (try_reraise_http_raises body errmsg failure wa e w1 Eb)
      as (e' & w' & Et & _).
    exists e', w'. exact Et. }
  destruct (session_get_Tickets_next id wa) as [Eg|[what Eg]].
  2:{ left. apply (Raises (SQLAlchemyError what) (next wa)).
      unfold body. erewrite bind_raise by exact Eg. reflexivity. }
  change (tickets_table wa) with (tickets_table w) in Eg.
  destruct (find_ticket id (tickets_table w)) as [x|] eqn:Hx.
  2:{ left. eapply (Raises _ _).
      unfold body. erewrite bind_ok by exact Eg. reflexivity. }
  pose proof (find_ticket_id _ _ _ Hx) as Hid.
  set (r := length (heap w)).
  set (x' := Tickets.set_updated_at (clock w 0%nat) (Tickets.set_status s x)).
  assert (Hid' : Tickets.id x' = Some id) by exact Hid.
  (* the body up to [session.commit()] *)
  set (w4 := set_heap (heap w ++ [x'])%list
               (set_clock (fun n => clock w (S n))
                  (set_attached [r]
                     (set_heap (heap w ++ [x])%list (next wa))))).
  assert (Hlook : forall y, (heap w ++ [y])%list !! r = Some y)
    by (intros y; apply list_lookup_middle; reflexivity).
  assert (Hpre :
            body wa
            = (session_commit ;;
               session_refresh r ;;
               updated <- getattr r ;;
               logger INFO
                 ("Updated ticket " +:+ str_int id +:+ " status from "
                  +:+ Tickets.status x +:+ " to " +:+ Tickets.status updated) ;;
               ret {| message := "Ticket status updated successfully";
                      ticket := updated |}) w4).
  { unfold body. erewrite bind_ok by exact Eg. cbn beta iota.
    fold s. rewrite bool_decide_eq_true_2 by exact Hv. cbn [negb].
    rewrite loaded_fresh by exact Hwa.
    erewrite bind_ok by (apply getattr_at; apply Hlook).
    erewrite bind_ok by (apply setattr_at; apply Hlook).
    proj. rewrite insert_last.
    erewrite bind_ok by reflexivity.
    erewrite bind_ok by (apply setattr_at; apply Hlook).
    proj. rewrite insert_last.
    erewrite bind_ok by reflexivity. proj.
    rewrite bool_decide_eq_true_2 by apply list_elem_of_here.
    reflexivity. }
  destruct (session_commit_next w4) as [Ec|[what Ec]].
  2:{ left. eapply (Raises _ _).
      rewrite Hpre. erewrite bind_raise by exact Ec. reflexivity. }
  set (w5 := set_tickets_table (replace_rows id x' (tickets_table w)) (next w4)).
  assert (Ec' : session_commit w4 = (Ok tt, w5)).
  { rewrite Ec. f_equal. subst w4. proj. cbn [foldl]. unfold flush. proj.
    rewrite Hlook, Hid'. reflexivity. }
  clear Ec.
  destruct (session_refresh_next r w5) as [Er|[what Er]].
  2:{ left. eapply (Raises _ _).
      rewrite Hpre. erewrite bind_ok by exact Ec'.
      erewrite bind_raise by exact Er. reflexivity. }
  set (w6 := set_heap (heap w ++ [x'])%list (next w5)).
  assert (Er' : session_refresh r w5 = (Ok tt, w6)).
  { rewrite Er. unfold reload. subst w5 w4. proj. rewrite Hlook.
    cbn [mbind option_bind]. rewrite Hid'. cbn [mbind option_bind].
    rewrite (find_ticket_replace_rows _ _ _ _ Hx Hid').
    cbn [mbind option_bind]. unfold r. rewrite insert_last. reflexivity. }
  clear Er.
  right. exists x. eexists. cbv zeta. split; [reflexivity|]. fold x'.
  split.
  { apply try_reraise_http_ok. rewrite Hpre.
    erewrite bind_ok by exact Ec'. erewrite bind_ok by exact Er'.
    erewrite bind_ok by (apply getattr_at; apply Hlook).
    reflexivity. }
  split; [reflexivity|].
  proj. subst w6 w5 w4 wa. proj. rewrite <- app_assoc. reflexivity.
Qed.

Lemma find_ticket_app_new k rows x :
  find_ticket k rows = None -> Tickets.id x = Some k ->
  find_ticket k (rows ++ [x]) = Some x.
Proof.
  unfold find_ticket. intros Hnone Hid.
  induction rows as [|row rows IH]; cbn [app find] in *.
  - rewrite bool_decide_eq_true_2 by exact Hid. reflexivity.
  - destruct (bool_decide (Tickets.id row = Some k)); [discriminate|].
    apply IH. exact Hnone.
Qed.

(** [create_ticket] for an order that is not in the table: it raises and
    has written nothing; when the lookup succeeds, it raises the 404
    error. *)
Lemma create_ticket_order_absent req w :
  find_order (CreateTicketRequest.order_id req) (orders_table w) = None ->
  exists e w',
    create_ticket req w = (Raise e, w')
    /\ same_db w w'
    /\ (succeeds 1 w = true -> e = HTTPException 404 "Order not found").
Proof.
  intros Ho. unfold create_ticket.
  erewrite bind_ok by reflexivity.
  match goal with |- context [set_log ?l w] => set (wa := set_log l w) end.
  name_body body errmsg failure.
  assert (Eb : exists e w1,
            body wa = (Raise e, w1)
            /\ same_db w w1
            /\ (succeeds 1 w = true ->
                e = HTTPException 404 "Order not found")).
  { destruct (db_round_trip_next wa) as [Ed|[what Ed]].
    - assert (Eg : session_get_Orders (CreateTicketRequest.order_id req) wa
                   = (Ok (find_order (CreateTicketRequest.order_id req)
                            (orders_table w)), next wa)).
      { unfold session_get_Orders. erewrite bind_ok by exact Ed.
        reflexivity. }
      rewrite Ho in Eg. eexists _, _. split.
      { unfold body. erewrite bind_ok by exact Eg. reflexivity. }
      split; [repeat split|]. intros _. reflexivity.
    - exists (SQLAlchemyError what), (next wa). split.
      { unfold body, session_get_Orders.
        erewrite bind_raise; [reflexivity|].
        erewrite bind_raise by exact Ed. reflexivity. }
      split; [repeat split|]. intros H1. exfalso.
      destruct (db_round_trip_succeeds 0 wa H1) as [E' _].
      rewrite Ed in E'. discriminate. }
  destruct Eb as (e & w1 & Eb & Hdb & H404).
  destruct (try_reraise_http_raises body errmsg failure wa e w1 Eb)
    as (e' & w' & Et & Hdb' & Hhttp).
  exists e', w'. split; [exact Et|].
  split; [eapply same_db_trans; eassumption|].
  intros H1. pose proof (H404 H1) as E404.
  destruct (Hhttp _ _ E404) as [-> _]. exact E404.
Qed.


(** C1: an update with a status outside the four legal values is rejected
    and the tickets table is what it was, so the stored ticket keeps its
    status and its [updated_at]; when the lookup finds the ticket the
    failure is the 400 "Invalid status" error whose message lists the four
    values, and the instance in memory is the row as loaded.  After a
    successful update (in a fresh session) the requested status is legal
    and is the status of every row of that ticket. *)
Theorem update_rejects_invalid_status ticket_id status_request w r w' :
  update_ticket_status ticket_id status_request w = (r, w') ->
  let s := UpdateTicketStatusRequest.status status_request in
  (s ∉ valid_statuses ->
   (exists e, r = Raise e)
   /\ tickets_table w' = tickets_table w
   /\ (forall x,
         succeeds 1 w = true ->
         find_ticket ticket_id (tickets_table w) = Some x ->
         r = Raise (HTTPException 400
                      "Invalid status. Must be one of: open, in_progress, resolved, closed")
         /\ find_ticket ticket_id (tickets_table w') = Some x
         /\ heap w' = (heap w ++ [x])%list))
  /\ (attached w = [] ->
      forall response,
        r = Ok response ->
        s ∈ valid_statuses
        /\ find_ticket ticket_id (tickets_table w') = Some (ticket response)
        /\ Tickets.status (ticket response) = s
        /\ (forall row,
              row ∈ tickets_table w' ->
              Tickets.id row = Some ticket_id ->
              Tickets.status row ∈ valid_statuses)).
Proof.
  intros E s.
  assert (Hbad : s ∉ valid_statuses ->
                 exists e, r = Raise e
                   /\ same_db w w'
                   /\ (forall x,
                         succeeds 1 w = true ->
                         find_ticket ticket_id (tickets_table w) = Some x ->
                         e = invalid_status /\ heap w' = (heap w ++ [x])%list)).
  { intros Hs.
    destruct (update_ticket_status_invalid ticket_id status_request w Hs)
      as (e & w1 & E1 & Hdb & Hfound).
    rewrite E1 in E. injection E as <- <-. exists e.
    split; [reflexivity|]. split; [exact Hdb|exact Hfound]. }
  split.
  - intros Hs. destruct (Hbad Hs) as (e & -> & (_ & Htab & _) & Hfound).
    split; [eexists; reflexivity|]. split; [exact Htab|].
    intros x H1 Hx. destruct (Hfound x H1 Hx) as [-> Hheap].
    rewrite Htab. repeat split; assumption.
  - intros Hatt response ->.
    destruct (decide (s ∈ valid_statuses)) as [Hv|Hs].
    2:{ destruct (Hbad Hs) as (e & [=] & _). }
    destruct (update_ticket_status_valid ticket_id status_request w Hatt Hv)
      as [(e & w1 & E1)|(x & w1 & Hx & E1 & Htab & _)];
      rewrite E1 in E; [discriminate|].
    injection E as <- <-. cbn [ticket].
    set (x' := Tickets.set_updated_at _ _) in *.
    assert (Hid : Tickets.id x' = Some ticket_id)
      by exact (find_ticket_id _ _ _ Hx).
    split; [exact Hv|]. split.
    { rewrite Htab. eapply find_ticket_replace_rows; [exact Hx|exact Hid]. }
    split; [reflexivity|].
    intros row Hrow Hrid. rewrite Htab in Hrow.
    rewrite (replace_rows_status _ _ _ _ Hid Hrow Hrid). exact Hv.
Qed.

Lemma update_rejects_invalid_status_witness :
  let w := world0 "open" ticking [] in
  fst (update_ticket_status 1 bogus w)
  = Raise (HTTPException 400
             "Invalid status. Must be one of: open, in_progress, resolved, closed")
  /\ tickets_table (snd (update_ticket_status 1 bogus w)) = tickets_table w
  /\ exists response,
       fst (update_ticket_status 1 closed w) = Ok response
       /\ Tickets.status (ticket response) = "closed".
Proof.
  intros w.
  destruct (update_rejects_invalid_status 1 bogus w _ _
              (surjective_pairing _)) as [Hbad _].
  destruct Hbad as (_ & Htab & Hfound); [compute_done|].
  destruct (Hfound (ticket1 "open") eq_refl eq_refl) as (E & _).
  split; [exact E|]. split; [exact Htab|].
  destruct (update_rejects_invalid_status 1 closed w _ _
              (surjective_pairing _)) as [_ Hgood].
  eexists. split; [vm_compute; reflexivity|].
  eapply (Hgood eq_refl). vm_compute. reflexivity.
Defined.




(** C9, as stated, fails: the update of ticket 1 to "closed" returns the
    same result whether the ticket was "open" or "in_progress" before, so
    the result does not tell the status held before. *)
Lemma prior_status_not_in_result :
  let was_open := world0 "open" frozen [] in
  let was_in_progress := world0 "in_progress" frozen [] in
  Tickets.status <$> find_ticket 1 (tickets_table was_open) = Some "open"
  /\ Tickets.status <$> find_ticket 1 (tickets_table was_in_progress)
     = Some "in_progress"
  /\ exists response,
       fst (update_ticket_status 1 closed was_open) = Ok response
       /\ fst (update_ticket_status 1 closed was_in_progress) = Ok response.
Proof.
  cbv zeta. split; [reflexivity|]. split; [reflexivity|].
  eexists. split; vm_compute; reflexivity.
Qed.

(** C9, amended: after a successful update in a fresh session, the result
    is the fixed message and the ticket with the new status and the time
    of the update; the status held before is not part of it, and is
    written to the last record of the log, "Updated ticket <id> status
    from <old> to <new>". *)
Theorem update_logs_prior_status ticket_id status_request w response w' :
  attached w = [] ->
  update_ticket_status ticket_id status_request w = (Ok response, w') ->
  let s := UpdateTicketStatusRequest.status status_request in
  exists before,
    find_ticket ticket_id (tickets_table w) = Some before
    /\ message response = "Ticket status updated successfully"
    /\ ticket response
       = Tickets.set_updated_at (clock w 0%nat) (Tickets.set_status s before)
    /\ last (log w')
       = Some (INFO, "Updated ticket " +:+ str_int ticket_id
                     +:+ " status from " +:+ Tickets.status before
                     +:+ " to " +:+ s).
Proof.
  intros Hatt E s.
  destruct (decide (s ∈ valid_statuses)) as [Hv|Hs].
  2:{ destruct (update_ticket_status_invalid ticket_id status_request w Hs)
        as (e & w1 & E1 & _).
      rewrite E1 in E. discriminate. }
  destruct (update_ticket_status_valid ticket_id status_request w Hatt Hv)
    as [(e & w1 & E1)|(x & w1 & Hx & E1 & _ & Hlog)];
    rewrite E1 in E; [discriminate|].
  injection E as <- <-. exists x. split; [exact Hx|].
  split; [reflexivity|]. split; [reflexivity|].
  rewrite Hlog.
  change (?l ++ [?a; ?b])%list with (l ++ [a] ++ [b])%list.
  rewrite (assoc_L (++)). apply last_snoc.
Qed.

Lemma update_logs_prior_status_witness :
  let w := world0 "in_progress" frozen [] in
  attached w = []
  /\ exists response,
       fst (update_ticket_status 1 closed w) = Ok response
       /\ Tickets.status (ticket response) = "closed"
       /\ last (log (snd (update_ticket_status 1 closed w)))
          = Some (INFO, "Updated ticket 1 status from in_progress to closed").
Proof.
  intros w. split; [reflexivity|].
  destruct (update_ticket_status 1 closed w) as [r w'] eqn:E.
  assert (Er : r = fst (update_ticket_status 1 closed w))
    by (rewrite E; reflexivity).
  vm_compute in Er. subst r.
  destruct (update_logs_prior_status 1 closed w _ w' eq_refl E)
    as (before & Hb & _ & Ht & Hl).
  vm_compute in Hb. injection Hb as <-.
  eexists. split; [reflexivity|]. split; [reflexivity|]. exact Hl.
Defined.

Lemma order_lookup_contained_witness :
  let w := world0 "open" frozen [] in
  session_get_Orders 42 w = (Ok None, next w)
  /\ _get_order_context 42 w = (Ok "Order #42 not found in system.", next w)
  /\ exists w',
       context_parts echo_bot (Some 42) (Some 2) None w
       = (Ok ["POLICY"; "Order #42 not found in system.";
              ticket_info ticket2 "Unknown"], w').
Proof.
  intros w.
  destruct (order_lookup_contained 42 w) as (_ & Habsent & _ & _ & Hrest & _).
  split; [reflexivity|]. split; [exact (Habsent _ eq_refl)|].
  destruct (Hrest echo_bot (Some 2) None) as (s & w1 & rest & w' & E1 & E2 & E3);
    [discriminate|].
  rewrite (Habsent _ eq_refl) in E1. injection E1 as <- <-.
  vm_compute in E2. injection E2 as <- <-.
  eexists. exact E3.
Defined.

(** ** The code at work on the sample data *)

Example capitalize_user : capitalize "uSER" = "User".
Proof. reflexivity. Qed.

Example slice_from_8 :
  slice_from (-5) [1; 2; 3; 4; 5; 6; 7; 8] = [4; 5; 6; 7; 8].
Proof. reflexivity. Qed.

Example str_datetime_microseconds :
  str_datetime (at_second 7 120) = "2025-01-15 10:30:07.000120".
Proof. vm_compute. reflexivity. Qed.

Example str_format_braces :
  str_format "a{{b}} {context}!" [("context", "{x}")] = Ok "a{b} {x}!".
Proof. reflexivity. Qed.

Example history_of_eight_turns :
  history_block (Some (map to_dict eight_turns))
  = nl +:+ nl +:+ "Conversation History:" +:+ nl
    +:+ "User: m4" +:+ nl +:+ "Assistant: m5" +:+ nl +:+ "User: m6" +:+ nl
    +:+ "Assistant: m7" +:+ nl +:+ "User: m8" +:+ nl.
Proof. vm_compute. reflexivity. Qed.

Example context_with_absent_order :
  fst (context_parts echo_bot (Some 42) None None (world0 "open" frozen []))
  = Ok ["POLICY"; "Order #42 not found in system."].
Proof. vm_compute. reflexivity. Qed.

Example context_with_failing_order_lookup :
  fst (context_parts echo_bot (Some 7) (Some 2) None
         (world0 "open" frozen [Some "connection lost"]))
  = Ok ["POLICY"; "Error retrieving order #7 information.";
        ticket_info ticket2 "Unknown"].
Proof. vm_compute. reflexivity. Qed.

Example context_with_zero_ids :
  context_parts echo_bot (Some 0) (Some 0) (Some 0) (world0 "open" frozen [])
  = (Ok ["POLICY"], world0 "open" frozen []).
Proof. reflexivity. Qed.

Example chat_with_failing_service :
  fst (chat failing_bot "Where is my order?" (Some 7) (Some 1) (Some 3)
         (Some (map to_dict eight_turns)) (world0 "open" ticking []))
  = Ok apology.
Proof. vm_compute. reflexivity. Qed.

Example create_ticket_for_missing_order :
  fst (create_ticket {| CreateTicketRequest.order_id := 8;
                        CreateTicketRequest.issue_description := "lost" |}
         (world0 "open" ticking []))
  = Raise (HTTPException 404 "Order not found").
Proof. vm_compute. reflexivity. Qed.

Example update_with_failing_commit :
  let after :=
    update_ticket_status 1 closed
      (world0 "open" ticking [None; Some "deadlock detected"]) in
  fst after = Raise (HTTPException 500 "Failed to update ticket status")
  /\ tickets_table (snd after) = [ticket1 "open"; ticket2].
Proof. vm_compute. split; reflexivity. Qed.

Example load_documents_without_files :
  fst (_load_documents Missing Missing (world0 "open" frozen []))
  = Ok "No additional documentation available.".
Proof. vm_compute. reflexivity. Qed.

Example load_documents_unreadable :
  fst (_load_documents (Readable "T") (Unreadable "permission denied")
         (world0 "open" frozen []))
  = Ok "Error loading support documents.".
Proof. vm_compute. reflexivity. Qed.

(** * Further properties *)

(** ** Code that only reads *)

Lemma reads_only_ret {A} (a : A) : reads_only (ret a).
Proof. intros w. apply same_db_refl. Qed.

Lemma reads_only_raise {A} e : reads_only (@raise A e).
Proof. intros w. apply same_db_refl. Qed.

Lemma reads_only_lift {A} (r : result A) : reads_only (lift r).
Proof. intros w. apply same_db_refl. Qed.

Lemma reads_only_logger lvl s : reads_only (logger lvl s).
Proof. intros w. repeat split. Qed.

Lemma reads_only_bind {A B} (m : M A) (k : A -> M B) :
  reads_only m -> (forall a, reads_only (k a)) -> reads_only (bind m k).
Proof.
  intros Hm Hk w. unfold bind. specialize (Hm w).
  destruct (m w) as [[a|e] w1]; cbn [snd] in *; [|exact Hm].
  eapply same_db_trans; [exact Hm|apply Hk].
Qed.

Lemma reads_only_try {A} (body : M A) (handler : exn -> M A) :
  reads_only body -> (forall e, reads_only (handler e)) ->
  reads_only (try_except body handler).
Proof.
  intros Hb Hh w. unfold try_except. specialize (Hb w).
  destruct (body w) as [[a|e] w1]; cbn [snd] in *; [exact Hb|].
  eapply same_db_trans; [exact Hb|apply Hh].
Qed.

Lemma reads_only_db_round_trip : reads_only db_round_trip.
Proof.
  intros w. destruct (db_round_trip_next w) as [->|[what ->]]; repeat split.
Qed.

Lemma reads_only_state {A} (f : World -> A) : reads_only (fun w => (Ok (f w), w)).
Proof. intros w. apply same_db_refl. Qed.

Lemma reads_only_getattr r : reads_only (getattr r).
Proof.
  intros w. unfold getattr. destruct (heap w !! r); apply same_db_refl.
Qed.

Lemma reads_only_new_Tickets x : reads_only (new_Tickets x).
Proof. intros w. repeat split. Qed.

Lemma reads_only_session_add r : reads_only (session_add r).
Proof. intros w. unfold session_add. case_bool_decide; repeat split. Qed.

Ltac reads_only_step := reads_only_with @reads_only_bind @reads_only_try.

Create HintDb reads_only.
#[local] Hint Resolve reads_only_ret reads_only_raise reads_only_lift
  reads_only_logger reads_only_db_round_trip reads_only_getattr
  reads_only_new_Tickets reads_only_session_add : reads_only.

Lemma reads_only_session_get_Orders k : reads_only (session_get_Orders k).
Proof.
  unfold session_get_Orders. reads_only_step; [reads_only_step|].
  apply (reads_only_state (fun w => find_order k (orders_table w))).
Qed.

Lemma reads_only_session_get_Tickets k : reads_only (session_get_Tickets k).
Proof.
  unfold session_get_Tickets. reads_only_step; [reads_only_step|].
  reads_only_step.
  { apply (reads_only_state (fun w => find_ticket k (tickets_table w))). }
  repeat reads_only_step.
Qed.

Lemma reads_only_session_exec_Orders_by_user uid :
  reads_only (session_exec_Orders_by_user uid).
Proof.
  unfold session_exec_Orders_by_user. reads_only_step; [reads_only_step|].
  apply (reads_only_state
           (fun w => filter (fun row => Orders.user_id row = uid)
                       (orders_table w))).
Qed.

Lemma reads_only_load_all rows : reads_only (load_all rows).
Proof.
  induction rows as [|x rows IH]; cbn [load_all]; repeat reads_only_step.
Qed.

Lemma reads_only_session_exec_Tickets p : reads_only (session_exec_Tickets p).
Proof.
  unfold session_exec_Tickets. reads_only_step; [reads_only_step|].
  reads_only_step.
  { apply (reads_only_state (fun w => List.filter p (tickets_table w))). }
  apply reads_only_load_all.
Qed.

Lemma reads_only_getattrs refs : reads_only (getattrs refs).
Proof.
  induction refs as [|r refs IH]; cbn [getattrs]; repeat reads_only_step.
Qed.

Lemma reads_only_fail_with {A} what detail e :
  reads_only (@fail_with A what detail e).
Proof. unfold fail_with. repeat reads_only_step. Qed.

Lemma reads_only_reraise_http {A} (handler : exn -> M A) e :
  (forall e, reads_only (handler e)) -> reads_only (reraise_http handler e).
Proof. intros H. destruct e; cbn [reraise_http]; auto with reads_only. Qed.

#[local] Hint Resolve reads_only_session_get_Orders
  reads_only_session_get_Tickets reads_only_session_exec_Orders_by_user
  reads_only_load_all reads_only_session_exec_Tickets reads_only_getattrs
  reads_only_fail_with : reads_only.

Lemma reads_only_with_session {A} (m : M A) :
  reads_only m -> reads_only (with_session m).
Proof.
  intros H w. unfold with_session. specialize (H (set_attached [] w)).
  destruct (m (set_attached [] w)) as [r w']. exact H.
Qed.

Lemma reads_only__get_order_context id : reads_only (_get_order_context id).
Proof. unfold _get_order_context. repeat reads_only_step. Qed.

Lemma reads_only__get_ticket_context id : reads_only (_get_ticket_context id).
Proof. unfold _get_ticket_context. repeat reads_only_step. Qed.

Lemma reads_only__get_user_orders_context id :
  reads_only (_get_user_orders_context id).
Proof. unfold _get_user_orders_context. repeat reads_only_step. Qed.

#[local] Hint Resolve reads_only__get_order_context
  reads_only__get_ticket_context reads_only__get_user_orders_context
  : reads_only.

Lemma reads_only_append_if x get parts :
  (forall id, reads_only (get id)) -> reads_only (append_if x get parts).
Proof.
  intros H. unfold append_if. destruct x as [id|]; [|auto with reads_only].
  destruct (truthy_int (Some id)); [|auto with reads_only].
  reads_only_step; [apply H|reads_only_step].
Qed.

Lemma reads_only_chat self message oid tid uid history :
  reads_only (chat self message oid tid uid history).
Proof.
  unfold chat, chat_context, context_parts.
  repeat first [apply reads_only_append_if; intros ? | reads_only_step].
Qed.

#[local] Hint Resolve reads_only_chat : reads_only.

(** The endpoints that read tickets and orders never write: whatever the
    arguments, the faults of the database and the outcome, the tables and
    the id sequence are after the request what they were before. *)
Theorem read_endpoints_never_write w :
  (forall ticket_id, same_db w (snd (with_session (get_ticket ticket_id) w)))
  /\ (forall order_id,
        same_db w (snd (with_session (get_tickets_by_order order_id) w)))
  /\ (forall user_id,
        same_db w (snd (with_session (get_tickets_by_user user_id) w)))
  /\ (forall status,
        same_db w (snd (with_session (get_all_tickets status) w)))
  /\ (forall user_id,
        same_db w (snd (with_session (fetch_user_orders user_id) w))).
Proof.
  split; [|split; [|split; [|split]]]; intros x;
    apply reads_only_with_session.
  - unfold get_ticket. repeat reads_only_step.
    apply reads_only_reraise_http. auto with reads_only.
  - unfold get_tickets_by_order. repeat reads_only_step.
    all: apply reads_only_reraise_http; auto with reads_only.
  - unfold get_tickets_by_user. repeat reads_only_step.
  - unfold get_all_tickets. repeat reads_only_step.
  - unfold fetch_user_orders. repeat reads_only_step.
Qed.

(** [chat] and the chat endpoints never write either, when getting the
    chatbot does not. *)
Theorem chat_never_writes w :
  (forall self message oid tid uid history,
     same_db w (snd (chat self message oid tid uid history w)))
  /\ (forall chatbot,
        reads_only chatbot ->
        (forall chat_request,
           same_db w (snd (with_session (chat_with_bot chatbot chat_request) w)))
        /\ (forall order_id message,
              same_db w
                (snd (with_session (chat_about_order chatbot order_id message) w)))
        /\ (forall ticket_id message,
              same_db w
                (snd (with_session
                        (chat_about_ticket chatbot ticket_id message) w)))).
Proof.
  split; [intros; apply reads_only_chat|].
  intros chatbot Hbot. split; [|split]; intros;
    apply reads_only_with_session.
  - unfold chat_with_bot. repeat reads_only_step.
  - unfold chat_about_order. repeat reads_only_step.
    all: apply reads_only_reraise_http; auto with reads_only.
  - unfold chat_about_ticket. repeat reads_only_step.
    all: apply reads_only_reraise_http; auto with reads_only.
Qed.

Lemma chat_never_writes_witness :
  let w := world0 "open" frozen [] in
  reads_only (ret echo_bot)
  /\ same_db w
       (snd (with_session (chat_about_order (ret echo_bot) 7 "where is it?") w)).
Proof.
  intros w. split; [apply reads_only_ret|].
  apply (chat_never_writes w). apply reads_only_ret.
Defined.

(** ** Queries and what the session loads *)

Lemma succeeds_faults n w1 w2 :
  faults w1 = faults w2 -> succeeds n w1 = succeeds n w2.
Proof. unfold succeeds. intros ->. reflexivity. Qed.

Lemma with_session_run {A} (m : M A) w :
  with_session m w
  = (fst (m (set_attached [] w)), set_attached [] (snd (m (set_attached [] w)))).
Proof. unfold with_session. destruct (m (set_attached [] w)); reflexivity. Qed.

Lemma load_all_spec rows w :
  exists w',
    load_all rows w = (Ok (seq (length (heap w)) (length rows)), w')
    /\ heap w' = (heap w ++ rows)%list
    /\ same_db w w'
    /\ faults w' = faults w.
Proof.
  revert w. induction rows as [|x rows IH]; intros w; cbn [load_all].
  - exists w. rewrite app_nil_r. repeat split.
  - erewrite bind_ok by reflexivity.
    set (w1 := set_heap (heap w ++ [x])%list w).
    assert (Hadd : exists w2,
               session_add (length (heap w)) w1 = (Ok tt, w2)
               /\ heap w2 = (heap w ++ [x])%list
               /\ same_db w w2 /\ faults w2 = faults w).
    { unfold session_add. case_bool_decide; eexists; repeat split. }
    destruct Hadd as (w2 & Ea & Hh & Hdb & Hf).
    erewrite bind_ok by exact Ea.
    destruct (IH w2) as (w' & El & Hh' & Hdb' & Hf').
    erewrite bind_ok by exact El. exists w'.
    rewrite Hh, length_app, Nat.add_1_r in *. cbn [length seq].
    split; [reflexivity|]. split; [rewrite Hh', <- app_assoc; reflexivity|].
    split; [eapply same_db_trans; eassumption|congruence].
Qed.

Lemma getattrs_seq h rows rest w :
  heap w = (h ++ rows ++ rest)%list ->
  getattrs (seq (length h) (length rows)) w = (Ok rows, w).
Proof.
  revert h. induction rows as [|x rows IH]; intros h Hh; [reflexivity|].
  cbn [length seq getattrs].
  erewrite bind_ok.
  2:{ apply getattr_at. rewrite Hh. apply list_lookup_middle. reflexivity. }
  specialize (IH (h ++ [x])%list).
  rewrite length_app, Nat.add_1_r in IH.
  erewrite bind_ok; [reflexivity|]. apply IH.
  rewrite Hh, <- app_assoc. reflexivity.
Qed.

(** A query for tickets that succeeds returns instances whose attributes,
    read later in the same session, are the rows selected. *)
Lemma session_exec_Tickets_succeeds n p w :
  succeeds (S n) w = true ->
  exists refs w',
    session_exec_Tickets p w = (Ok refs, w')
    /\ length refs = length (List.filter p (tickets_table w))
    /\ (forall w'',
          heap w'' = heap w' ->
          getattrs refs w'' = (Ok (List.filter p (tickets_table w)), w''))
    /\ same_db w w'
    /\ succeeds n w' = true.
Proof.
  intros H. destruct (db_round_trip_succeeds _ _ H) as [E S].
  unfold session_exec_Tickets. erewrite bind_ok by exact E.
  erewrite bind_ok by reflexivity. proj.
  destruct (load_all_spec (List.filter p (tickets_table w)) (next w))
    as (w' & El & Hh & Hdb & Hf).
  eexists _, w'. split; [exact El|]. split; [apply length_seq|].
  split.
  { intros w'' Hw. apply (getattrs_seq _ _ []).
    rewrite Hw, Hh, app_nil_r. reflexivity. }
  split; [exact Hdb|]. rewrite <- S. apply succeeds_faults. exact Hf.
Qed.

Lemma session_exec_Tickets_fails p what fs w :
  faults w = Some what :: fs ->
  session_exec_Tickets p w = (Raise (SQLAlchemyError what), next w).
Proof.
  intros H. unfold session_exec_Tickets.
  erewrite bind_raise by (eapply db_round_trip_fails; exact H). reflexivity.
Qed.

Lemma session_get_Tickets_fails k what fs w :
  faults w = Some what :: fs ->
  session_get_Tickets k w = (Raise (SQLAlchemyError what), next w).
Proof.
  intros H. unfold session_get_Tickets.
  erewrite bind_raise by (eapply db_round_trip_fails; exact H). reflexivity.
Qed.

Lemma session_exec_Orders_by_user_succeeds n uid w :
  succeeds (S n) w = true ->
  session_exec_Orders_by_user uid w
  = (Ok (filter (fun row => Orders.user_id row = uid) (orders_table w)), next w)
  /\ succeeds n (next w) = true.
Proof.
  intros H. destruct (db_round_trip_succeeds _ _ H) as [E S].
  split; [|exact S]. unfold session_exec_Orders_by_user.
  erewrite bind_ok by exact E. reflexivity.
Qed.

Lemma session_exec_Orders_by_user_fails uid what fs w :
  faults w = Some what :: fs ->
  session_exec_Orders_by_user uid w = (Raise (SQLAlchemyError what), next w).
Proof.
  intros H. unfold session_exec_Orders_by_user.
  erewrite bind_raise by (eapply db_round_trip_fails; exact H). reflexivity.
Qed.

(** A [try] of an endpoint that only reads, around a body that raises
    something other than an [HTTPException]. *)
Lemma try_fail_with {A} (body : M A) what detail w e w1 :
  body w = (Raise e, w1) ->
  fst (try_except body (fail_with what detail) w)
  = Raise (HTTPException 500 detail).
Proof. intros E. unfold try_except. rewrite E. reflexivity. Qed.

Lemma try_reraise_fail_with {A} (body : M A) what detail w e w1 :
  body w = (Raise e, w1) ->
  fst (try_except body (reraise_http (fail_with what detail)) w)
  = Raise match e with
          | HTTPException _ _ => e
          | _ => HTTPException 500 detail
          end.
Proof. intros E. unfold try_except. rewrite E. destruct e; reflexivity. Qed.

Lemma try_except_fst_ok {A} (body : M A) handler w a w1 :
  body w = (Ok a, w1) -> fst (try_except body handler w) = Ok a.
Proof. intros E. unfold try_except. rewrite E. reflexivity. Qed.

(** ** [get_ticket] *)

(** [get_ticket] returns the stored ticket of that id; it fails with the
    404 "Ticket not found" error when there is none, and with the 500
    "Failed to fetch ticket" error when the database fails. *)
Theorem get_ticket_outcomes ticket_id w :
  (forall x,
     succeeds 1 w = true ->
     find_ticket ticket_id (tickets_table w) = Some x ->
     fst (with_session (get_ticket ticket_id) w) = Ok x)
  /\ (succeeds 1 w = true ->
      find_ticket ticket_id (tickets_table w) = None ->
      fst (with_session (get_ticket ticket_id) w)
      = Raise (HTTPException 404 "Ticket not found"))
  /\ (forall what fs,
        faults w = Some what :: fs ->
        fst (with_session (get_ticket ticket_id) w)
        = Raise (HTTPException 500 "Failed to fetch ticket")).
Proof.
  rewrite with_session_run. cbn [fst]. set (w0 := set_attached [] w).
  unfold get_ticket. erewrite bind_ok by reflexivity.
  match goal with |- context [set_log ?l w0] => set (wa := set_log l w0) end.
  split; [|split].
  - intros x Hs Hx.
    destruct (session_get_Tickets_succeeds 0 ticket_id wa Hs) as [Eg _].
    change (tickets_table wa) with (tickets_table w) in Eg. rewrite Hx in Eg.
    eapply try_except_fst_ok. erewrite bind_ok by exact Eg. cbn beta iota.
    erewrite bind_ok by apply getattr_loaded. reflexivity.
  - intros Hs Hx.
    destruct (session_get_Tickets_succeeds 0 ticket_id wa Hs) as [Eg _].
    change (tickets_table wa) with (tickets_table w) in Eg. rewrite Hx in Eg.
    erewrite try_reraise_fail_with
      by (erewrite bind_ok by exact Eg; reflexivity).
    reflexivity.
  - intros what fs Hf.
    erewrite try_reraise_fail_with
      by (erewrite bind_raise
            by exact (session_get_Tickets_fails ticket_id what fs wa Hf);
          reflexivity).
    reflexivity.
Qed.

Lemma get_ticket_outcomes_witness :
  fst (with_session (get_ticket 2) (world0 "open" frozen [])) = Ok ticket2
  /\ fst (with_session (get_ticket 5) (world0 "open" frozen []))
     = Raise (HTTPException 404 "Ticket not found")
  /\ fst (with_session (get_ticket 2) (world0 "open" frozen [Some "timeout"]))
     = Raise (HTTPException 500 "Failed to fetch ticket").
Proof.
  split; [|split].
  - apply (get_ticket_outcomes 2 (world0 "open" frozen [])); reflexivity.
  - apply (get_ticket_outcomes 5 (world0 "open" frozen [])); reflexivity.
  - eapply (get_ticket_outcomes 2 (world0 "open" frozen [Some "timeout"])).
    reflexivity.
Defined.

(** ** The lists of tickets and orders *)

Lemma elem_of_List_filter {A} (p : A -> bool) (l : list A) (x : A) :
  x ∈ List.filter p l <-> x ∈ l /\ p x = true.
Proof. rewrite !list_elem_of_In. apply filter_In. Qed.

Lemma elem_of_map {A B} (f : A -> B) (l : list A) (y : B) :
  y ∈ map f l <-> exists x, f x = y /\ x ∈ l.
Proof.
  rewrite list_elem_of_In, in_map_iff.
  split; intros (x & E & H); exists x; (split; [exact E|]);
    apply list_elem_of_In; exact H.
Qed.

Lemma List_filter_true {A} (l : list A) : List.filter (fun _ => true) l = l.
Proof. induction l as [|x l IH]; cbn; [|rewrite IH]; reflexivity. Qed.

(** [get_tickets_by_order] returns, for an order that exists, exactly the
    stored tickets of that order, in the order of the table, with their
    number; it fails with the 404 "Order not found" error when the order
    does not exist and with the 500 "Failed to fetch tickets" error when
    either query fails. *)
Theorem get_tickets_by_order_outcomes order_id w :
  (forall order,
     succeeds 2 w = true ->
     find_order order_id (orders_table w) = Some order ->
     exists response,
       fst (with_session (get_tickets_by_order order_id) w) = Ok response
       /\ OrderTickets.order_id response = order_id
       /\ OrderTickets.tickets response
          = List.filter
              (fun row => bool_decide (Tickets.order_id row = order_id))
              (tickets_table w)
       /\ (forall t,
             t ∈ OrderTickets.tickets response
             <-> t ∈ tickets_table w /\ Tickets.order_id t = order_id)
       /\ OrderTickets.ticket_count response
          = Z.of_nat (length (OrderTickets.tickets response)))
  /\ (succeeds 1 w = true ->
      find_order order_id (orders_table w) = None ->
      fst (with_session (get_tickets_by_order order_id) w)
      = Raise (HTTPException 404 "Order not found"))
  /\ (forall what fs,
        faults w = Some what :: fs
        \/ (faults w = None :: Some what :: fs
            /\ is_Some (find_order order_id (orders_table w))) ->
        fst (with_session (get_tickets_by_order order_id) w)
        = Raise (HTTPException 500 "Failed to fetch tickets")).
Proof.
  rewrite with_session_run. cbn [fst]. set (w0 := set_attached [] w).
  unfold get_tickets_by_order. erewrite bind_ok by reflexivity.
  match goal with |- context [set_log ?l w0] => set (wa := set_log l w0) end.
  split; [|split].
  - intros order Hs Ho.
    destruct (session_get_Orders_succeeds 1 order_id wa Hs) as [Eg Hs1].
    change (orders_table wa) with (orders_table w) in Eg. rewrite Ho in Eg.
    set (p := fun row => bool_decide (Tickets.order_id row = order_id)).
    destruct (session_exec_Tickets_succeeds 0 p (next wa) Hs1)
      as (refs & w' & Ee & Hlen & Hget & _).
    change (tickets_table (next wa)) with (tickets_table w) in *.
    eexists. split.
    { eapply try_except_fst_ok. erewrite bind_ok by exact Eg. cbn beta iota.
      erewrite bind_ok by exact Ee. erewrite bind_ok by reflexivity.
      erewrite bind_ok by (apply Hget; reflexivity). reflexivity. }
    cbn [OrderTickets.order_id OrderTickets.tickets OrderTickets.ticket_count].
    split; [reflexivity|]. split; [reflexivity|]. split.
    + intros t. rewrite elem_of_List_filter. unfold p.
      rewrite bool_decide_eq_true. reflexivity.
    + rewrite Hlen. reflexivity.
  - intros Hs Ho.
    destruct (session_get_Orders_succeeds 0 order_id wa Hs) as [Eg _].
    change (orders_table wa) with (orders_table w) in Eg. rewrite Ho in Eg.
    erewrite try_reraise_fail_with
      by (erewrite bind_ok by exact Eg; reflexivity).
    reflexivity.
  - intros what fs [Hf|[Hf [order Ho]]].
    + erewrite try_reraise_fail_with
        by (erewrite bind_raise
              by exact (session_get_Orders_fails order_id what fs wa Hf);
            reflexivity).
      reflexivity.
    + assert (Hs : succeeds 1 wa = true)
        by (unfold succeeds; change (faults wa) with (faults w);
            rewrite Hf; reflexivity).
      destruct (session_get_Orders_succeeds 0 order_id wa Hs) as [Eg _].
      change (orders_table wa) with (orders_table w) in Eg. rewrite Ho in Eg.
      assert (Hf1 : faults (next wa) = Some what :: fs)
        by (proj; change (faults wa) with (faults w); rewrite Hf; reflexivity).
      erewrite try_reraise_fail_with
        by (erewrite bind_ok by exact Eg; cbn beta iota;
            erewrite bind_raise
              by exact (session_exec_Tickets_fails _ what fs _ Hf1);
            reflexivity).
      reflexivity.
Qed.

Lemma get_tickets_by_order_outcomes_witness :
  (exists response,
     fst (with_session (get_tickets_by_order 7) (world0 "open" frozen []))
     = Ok response
     /\ OrderTickets.tickets response = [ticket1 "open"])
  /\ fst (with_session (get_tickets_by_order 99) (world0 "open" frozen []))
     = Raise (HTTPException 404 "Order not found")
  /\ fst (with_session (get_tickets_by_order 7)
            (world0 "open" frozen [None; Some "timeout"]))
     = Raise (HTTPException 500 "Failed to fetch tickets").
Proof.
  split; [|split].
  - destruct (get_tickets_by_order_outcomes 7 (world0 "open" frozen []))
      as (Hfound & _).
    destruct (Hfound order7 eq_refl eq_refl) as (response & E & _ & Ht & _).
    exists response. split; [exact E|exact Ht].
  - apply (get_tickets_by_order_outcomes 99 (world0 "open" frozen []));
      reflexivity.
  - eapply (get_tickets_by_order_outcomes 7
              (world0 "open" frozen [None; Some "timeout"])).
    right. split; [reflexivity|]. exists order7. reflexivity.
Defined.

(** [get_tickets_by_user] returns exactly the stored tickets whose order
    is an order of that user, with their number; a user without orders
    (or unknown) gets an empty list and no error; a failing first query
    gives the 500 "Failed to fetch user tickets" error. *)
Theorem get_tickets_by_user_outcomes user_id w :
  (succeeds 2 w = true ->
   exists response,
     fst (with_session (get_tickets_by_user user_id) w) = Ok response
     /\ UserTickets.user_id response = user_id
     /\ (forall t,
           t ∈ UserTickets.tickets response
           <-> t ∈ tickets_table w
               /\ exists order,
                    order ∈ orders_table w
                    /\ Orders.user_id order = user_id
                    /\ Orders.id order = Some (Tickets.order_id t))
     /\ UserTickets.ticket_count response
        = Z.of_nat (length (UserTickets.tickets response)))
  /\ (forall what fs,
        faults w = Some what :: fs ->
        fst (with_session (get_tickets_by_user user_id) w)
        = Raise (HTTPException 500 "Failed to fetch user tickets")).
Proof.
  rewrite with_session_run. cbn [fst]. set (w0 := set_attached [] w).
  unfold get_tickets_by_user. erewrite bind_ok by reflexivity.
  match goal with |- context [set_log ?l w0] => set (wa := set_log l w0) end.
  split.
  - intros Hs.
    destruct (session_exec_Orders_by_user_succeeds 1 user_id wa Hs)
      as [Eo Hs1].
    change (orders_table wa) with (orders_table w) in Eo.
    remember (filter (fun row => Orders.user_id row = user_id)
                (orders_table w)) as found eqn:Hfound.
    assert (Hin : forall order,
               order ∈ found
               <-> order ∈ orders_table w /\ Orders.user_id order = user_id).
    { intros order. rewrite Hfound, list_elem_of_filter. tauto. }
    clear Hfound. destruct found as [|o found].
    + eexists. split.
      { eapply try_except_fst_ok. erewrite bind_ok by exact Eo. reflexivity. }
      cbn [UserTickets.user_id UserTickets.tickets UserTickets.ticket_count].
      split; [reflexivity|]. split; [|reflexivity].
      intros t. split; [intros Ht; inversion Ht|].
      intros (_ & order & Ho & Hu & _).
      assert (order ∈ []) as Hnil by (apply Hin; split; assumption).
      inversion Hnil.
    + set (ids := map Orders.id (o :: found)).
      set (p := fun row => bool_decide (Some (Tickets.order_id row) ∈ ids)).
      destruct (session_exec_Tickets_succeeds 0 p (next wa) Hs1)
        as (refs & w' & Ee & Hlen & Hget & _).
      change (tickets_table (next wa)) with (tickets_table w) in *.
      eexists. split.
      { eapply try_except_fst_ok. erewrite bind_ok by exact Eo.
        cbn beta iota. erewrite bind_ok by exact Ee.
        erewrite bind_ok by reflexivity.
        erewrite bind_ok by (apply Hget; reflexivity). reflexivity. }
      cbn [UserTickets.user_id UserTickets.tickets UserTickets.ticket_count].
      split; [reflexivity|]. split; [|rewrite Hlen; reflexivity].
      intros t. rewrite elem_of_List_filter. unfold p.
      rewrite bool_decide_eq_true. unfold ids.
      rewrite elem_of_map.
      split.
      * intros (Ht & order & Hid & Ho). split; [exact Ht|].
        apply Hin in Ho as [Ho Hu].
        exists order. repeat split; assumption.
      * intros (Ht & order & Ho & Hu & Hid). split; [exact Ht|].
        exists order. split; [exact Hid|].
        apply Hin. split; assumption.
  - intros what fs Hf.
    eapply try_fail_with. erewrite bind_raise; [reflexivity|].
    apply (session_exec_Orders_by_user_fails user_id what fs wa Hf).
Qed.

Lemma get_tickets_by_user_outcomes_witness :
  (exists response,
     fst (with_session (get_tickets_by_user 3) (world0 "open" frozen []))
     = Ok response
     /\ ticket1 "open" ∈ UserTickets.tickets response
     /\ ticket2 ∉ UserTickets.tickets response)
  /\ fst (with_session (get_tickets_by_user 3)
            (world0 "open" frozen [Some "timeout"]))
     = Raise (HTTPException 500 "Failed to fetch user tickets").
Proof.
  split.
  - destruct (get_tickets_by_user_outcomes 3 (world0 "open" frozen []))
      as (Hok & _).
    destruct (Hok eq_refl) as (response & E & _ & Hin & _).
    exists response. split; [exact E|]. split.
    + apply Hin. split; [apply list_elem_of_here|]. exists order7.
      split; [apply list_elem_of_here|]. split; reflexivity.
    + intros H. apply Hin in H as (_ & order & Ho & _ & Hid).
      apply list_elem_of_singleton in Ho. subst order. discriminate.
  - eapply (get_tickets_by_user_outcomes 3
              (world0 "open" frozen [Some "timeout"])).
    reflexivity.
Defined.

(** [get_all_tickets] treats an empty status as no status: both return
    every stored ticket and report no filter.  With a status that is not
    empty it returns exactly the stored tickets of that status and echoes
    it as the filter; the status is not checked against the legal values,
    so an unknown status gives an empty list and no error.  A failing
    query gives the 500 "Failed to fetch tickets" error. *)
Theorem get_all_tickets_outcomes w :
  get_all_tickets (Some "") w = get_all_tickets None w
  /\ (succeeds 1 w = true ->
      fst (with_session (get_all_tickets None) w)
      = Ok {| AllTickets.ticket_count := Z.of_nat (length (tickets_table w));
              AllTickets.tickets := tickets_table w;
              AllTickets.filter := None |})
  /\ (forall c s,
        succeeds 1 w = true ->
        exists response,
          fst (with_session (get_all_tickets (Some (String c s))) w)
          = Ok response
          /\ AllTickets.filter response = Some (String c s)
          /\ (forall t,
                t ∈ AllTickets.tickets response
                <-> t ∈ tickets_table w /\ Tickets.status t = String c s)
          /\ AllTickets.ticket_count response
             = Z.of_nat (length (AllTickets.tickets response)))
  /\ (forall status what fs,
        faults w = Some what :: fs ->
        fst (with_session (get_all_tickets status) w)
        = Raise (HTTPException 500 "Failed to fetch tickets")).
Proof.
  split; [reflexivity|]. split; [|split].
  - intros Hs. rewrite with_session_run. cbn [fst].
    set (w0 := set_attached [] w).
    unfold get_all_tickets. erewrite bind_ok by reflexivity.
    match goal with |- context [set_log ?l w0] => set (wa := set_log l w0) end.
    destruct (session_exec_Tickets_succeeds 0 (fun _ => true) wa Hs)
      as (refs & w' & Ee & Hlen & Hget & _).
    change (tickets_table wa) with (tickets_table w) in *.
    rewrite List_filter_true in *.
    eapply try_except_fst_ok. cbn zeta. cbn [truthy_str].
    erewrite bind_ok by exact Ee. erewrite bind_ok by reflexivity.
    erewrite bind_ok by (apply Hget; reflexivity).
    rewrite Hlen. reflexivity.
  - intros c s Hs. rewrite with_session_run. cbn [fst].
    set (w0 := set_attached [] w).
    unfold get_all_tickets. erewrite bind_ok by reflexivity.
    match goal with |- context [set_log ?l w0] => set (wa := set_log l w0) end.
    set (p := fun row : Tickets.t =>
                true && bool_decide (Tickets.status row = String c s)).
    destruct (session_exec_Tickets_succeeds 0 p wa Hs)
      as (refs & w' & Ee & Hlen & Hget & _).
    change (tickets_table wa) with (tickets_table w) in *.
    eexists. split.
    { eapply try_except_fst_ok. cbn zeta. cbn [truthy_str].
      erewrite bind_ok by exact Ee. erewrite bind_ok by reflexivity.
      erewrite bind_ok by (apply Hget; reflexivity). reflexivity. }
    cbn [AllTickets.filter AllTickets.tickets AllTickets.ticket_count].
    split; [reflexivity|]. split; [|rewrite Hlen; reflexivity].
    intros t. rewrite elem_of_List_filter. unfold p. cbn [andb].
    rewrite bool_decide_eq_true. reflexivity.
  - intros status what fs Hf. rewrite with_session_run. cbn [fst].
    set (w0 := set_attached [] w).
    unfold get_all_tickets. erewrite bind_ok by reflexivity.
    match goal with |- context [set_log ?l w0] => set (wa := set_log l w0) end.
    eapply try_fail_with. cbn zeta.
    erewrite bind_raise; [reflexivity|].
    apply (session_exec_Tickets_fails _ what fs wa Hf).
Qed.

Lemma get_all_tickets_outcomes_witness :
  (exists response,
     fst (with_session (get_all_tickets (Some "archived"))
            (world0 "open" frozen [])) = Ok response
     /\ AllTickets.tickets response = []
     /\ AllTickets.filter response = Some "archived")
  /\ fst (with_session (get_all_tickets (Some "open"))
            (world0 "open" frozen [Some "timeout"]))
     = Raise (HTTPException 500 "Failed to fetch tickets").
Proof.
  destruct (get_all_tickets_outcomes (world0 "open" frozen []))
    as (_ & _ & Hsome & _).
  destruct (get_all_tickets_outcomes (world0 "open" frozen [Some "timeout"]))
    as (_ & _ & _ & Hfail).
  split; [|exact (Hfail _ _ _ eq_refl)].
  destruct (Hsome "a"%char "rchived" eq_refl) as (response & E & Hf & Hin & _).
  exists response. split; [exact E|]. split; [|exact Hf].
  destruct (AllTickets.tickets response) as [|t ts] eqn:Ht; [reflexivity|].
  exfalso. destruct (proj1 (Hin t) (list_elem_of_here _ _)) as [Hmem Hst].
  cbn in Hmem. rewrite !elem_of_cons in Hmem.
  destruct Hmem as [->|[->|Hnil]]; [discriminate..|inversion Hnil].
Defined.

(** [fetch_user_orders] returns exactly the stored orders of that user,
    in the order of the table, with their number; a user without orders
    (or unknown) gets an empty list and no error; a failing query gives the
    500 "Failed to fetch orders" error. *)
Theorem fetch_user_orders_outcomes user_id w :
  (succeeds 1 w = true ->
   exists response,
     fst (with_session (fetch_user_orders user_id) w) = Ok response
     /\ UserOrders.user_id response = user_id
     /\ (forall order,
           order ∈ UserOrders.orders response
           <-> order ∈ orders_table w /\ Orders.user_id order = user_id)
     /\ UserOrders.orders response `sublist_of` orders_table w
     /\ UserOrders.order_count response
        = Z.of_nat (length (UserOrders.orders response)))
  /\ (forall what fs,
        faults w = Some what :: fs ->
        fst (with_session (fetch_user_orders user_id) w)
        = Raise (HTTPException 500 "Failed to fetch orders")).
Proof.
  rewrite with_session_run. cbn [fst]. set (w0 := set_attached [] w).
  unfold fetch_user_orders. erewrite bind_ok by reflexivity.
  match goal with |- context [set_log ?l w0] => set (wa := set_log l w0) end.
  split.
  - intros Hs.
    destruct (session_exec_Orders_by_user_succeeds 0 user_id wa Hs) as [Eo _].
    change (orders_table wa) with (orders_table w) in Eo.
    eexists. split.
    { eapply try_except_fst_ok. erewrite bind_ok by exact Eo. reflexivity. }
    cbn [UserOrders.user_id UserOrders.orders UserOrders.order_count].
    split; [reflexivity|]. split; [|split; [apply sublist_filter|reflexivity]].
    intros order. rewrite list_elem_of_filter. tauto.
  - intros what fs Hf.
    eapply try_fail_with. erewrite bind_raise; [reflexivity|].
    apply (session_exec_Orders_by_user_fails user_id what fs wa Hf).
Qed.

Lemma fetch_user_orders_outcomes_witness :
  (exists response,
     fst (with_session (fetch_user_orders 3) (world0 "open" frozen []))
     = Ok response
     /\ UserOrders.order_count response = 1)
  /\ (exists response,
        fst (with_session (fetch_user_orders 4) (world0 "open" frozen []))
        = Ok response
        /\ UserOrders.orders response = [])
  /\ fst (with_session (fetch_user_orders 3)
            (world0 "open" frozen [Some "timeout"]))
     = Raise (HTTPException 500 "Failed to fetch orders").
Proof.
  split; [|split].
  - destruct (fetch_user_orders_outcomes 3 (world0 "open" frozen []))
      as (Hok & _).
    destruct (Hok eq_refl) as (response & E & _).
    vm_compute in E. injection E as <-. eexists. split; reflexivity.
  - destruct (fetch_user_orders_outcomes 4 (world0 "open" frozen []))
      as (Hok & _).
    destruct (Hok eq_refl) as (response & E & _).
    vm_compute in E. injection E as <-. eexists. split; reflexivity.
  - eapply (fetch_user_orders_outcomes 3
              (world0 "open" frozen [Some "timeout"])).
    reflexivity.
Defined.

(** The user-orders section of the context agrees with
    [fetch_user_orders]: without orders it is "No orders found for user
    #<id>.", otherwise it is a header with the number of orders the
    endpoint reports, followed by one line for each order it returns, in
    the same order. *)
Theorem user_orders_section_agrees user_id w response :
  fst (fetch_user_orders user_id w) = Ok response ->
  fst (_get_user_orders_context user_id w)
  = Ok match UserOrders.orders response with
       | [] => "No orders found for user #" +:+ str_int user_id +:+ "."
       | orders =>
           "User #" +:+ str_int user_id +:+ " has "
           +:+ str_int (UserOrders.order_count response) +:+ " order(s):"
           +:+ nl +:+ cat (map user_order_line orders)
       end.
Proof.
  unfold fetch_user_orders. erewrite bind_ok by reflexivity.
  match goal with |- context [set_log ?l w] => set (wa := set_log l w) end.
  destruct (succeeds 1 w) eqn:Hs.
  - destruct (session_exec_Orders_by_user_succeeds 0 user_id wa Hs) as [Ea _].
    destruct (session_exec_Orders_by_user_succeeds 0 user_id w Hs) as [Ew _].
    change (orders_table wa) with (orders_table w) in Ea.
    erewrite try_except_fst_ok
      by (erewrite bind_ok by exact Ea; reflexivity).
    intros [= <-]. cbn [UserOrders.orders UserOrders.order_count].
    unfold _get_user_orders_context.
    eapply try_except_fst_ok. erewrite bind_ok by exact Ew.
    destruct (filter _ (orders_table w)) as [|o orders]; [reflexivity|].
    rewrite (fold_left_append user_order_line). rewrite !append_assoc.
    reflexivity.
  - unfold succeeds in Hs.
    destruct (faults w) as [|[what|] fs] eqn:Hf; try discriminate.
    erewrite try_fail_with; [intros [=]|].
    erewrite bind_raise; [reflexivity|].
    apply (session_exec_Orders_by_user_fails user_id what fs wa Hf).
Qed.

Lemma user_orders_section_agrees_witness :
  fst (_get_user_orders_context 3 (world0 "open" frozen []))
  = Ok ("User #3 has 1 order(s):" +:+ nl +:+ nl
        +:+ "- Order #7: shipped - 2 item(s) - Created: 2025-01-15 10:30:00").
Proof.
  rewrite (user_orders_section_agrees 3 (world0 "open" frozen [])
             {| UserOrders.user_id := 3; UserOrders.order_count := 1;
                UserOrders.orders := [order7] |}); [|reflexivity].
  vm_compute. reflexivity.
Defined.

(** ** The documents and the chatbot *)


Lemma load_documents_text terms_file support_file w :
  exists text w',
    _load_documents terms_file support_file w = (Ok text, w') /\ text <> "".
Proof.
  unfold _load_documents, try_except, bind, read_document, logger, ret, raise.
  destruct terms_file as [|t|e1], support_file as [|s|e2];
    eexists _, _; (split; [reflexivity|]); discriminate.
Qed.

(** [_load_documents] never raises and never returns an empty text: the
    sections of the files that exist; the placeholder "No additional
    documentation available." when neither exists; and "Error loading
    support documents." alone when reading a file fails, also when the
    other file was read. *)
Theorem load_documents_never_empty terms_file support_file w :
  exists text w',
    _load_documents terms_file support_file w = (Ok text, w')
    /\ text <> ""
    /\ text
       = match terms_file, support_file with
         | Unreadable _, _ | _, Unreadable _ =>
             "Error loading support documents."
         | Missing, Missing => "No additional documentation available."
         | _, _ =>
             document_section "=== TERMS AND CONDITIONS ===" terms_file
             +:+ document_section "=== SUPPORT GUIDE ===" support_file
         end.
Proof.
  unfold _load_documents, try_except, bind, read_document, logger, ret, raise.
  destruct terms_file as [|t|e1], support_file as [|s|e2];
    cbn [document_section]; eexists _, _;
    (split; [reflexivity|]); (split; [discriminate|]);
    rewrite ?append_empty_r; reflexivity.
Qed.

(** The first call of [get_chatbot] builds a bot whose documents are not
    empty and keeps it; every later call returns that bot as it is,
    without building or loading anything; a construction that raises
    leaves nothing behind, so the next call builds again. *)
Theorem get_chatbot_singleton model terms_file support_file w :
  let construct := CustomerSupportBot__init__ model terms_file support_file in
  (exists bot w1,
     get_chatbot construct None w = (Ok (bot, Some bot), w1)
     /\ documents bot <> ""
     /\ generate_content bot = model
     /\ last (log w1) = Some (INFO, "Initialized customer support chatbot")
     /\ forall construct' w2,
          get_chatbot construct' (Some bot) w2 = (Ok (bot, Some bot), w2))
  /\ (forall failing e w1,
        failing w = (Raise e, w1) ->
        get_chatbot failing None w = (Raise e, w1)).
Proof.
  intros construct. split.
  - destruct (load_documents_text terms_file support_file w)
      as (text & w' & E & Hne).
    eexists _, _. split.
    { unfold get_chatbot, construct, CustomerSupportBot__init__.
      erewrite bind_ok; [reflexivity|]. erewrite bind_ok by exact E.
      reflexivity. }
    cbn [documents generate_content]. split; [exact Hne|].
    split; [reflexivity|]. split; [|reflexivity].
    proj. apply last_snoc.
  - intros failing e w1 E. unfold get_chatbot.
    erewrite bind_raise by exact E. reflexivity.
Qed.

Lemma get_chatbot_singleton_witness :
  let w := world0 "open" frozen [] in
  let failing : M CustomerSupportBot := raise (OSError "no key") in
  failing w = (Raise (OSError "no key"), w)
  /\ get_chatbot failing None w = (Raise (OSError "no key"), w).
Proof.
  intros w failing. split; [reflexivity|].
  apply (get_chatbot_singleton (generate_content echo_bot) Missing Missing w).
  reflexivity.
Defined.

(** ** The chat endpoints *)

Lemma bind_ok_fst {A B} (m : M A) (k : A -> M B) w a :
  fst (m w) = Ok a -> bind m k w = k a (snd (m w)).
Proof. unfold bind. destruct (m w) as [r w1]. cbn. intros ->. reflexivity. Qed.

Lemma chat_answer_for bot message oid tid uid history w context w1 :
  chat_context bot oid tid uid w = (Ok context, w1) ->
  fst (chat bot message oid tid uid history w)
  = Ok (answer_for bot context message history).
Proof.
  intros E. eapply chat_answer; [exact E|apply chat_prompt_parts].
Qed.

(** [chat_with_bot] with the chatbot at hand never fails: its response is
    the answer of [chat] for the request, so a failure of the completion
    service is answered with the apology and no error; an empty history
    is the same request as no history.  When the chatbot cannot be got the
    endpoint fails with the 500 error. *)
Theorem chat_with_bot_outcomes bot chat_request w :
  let history := ChatRequest.conversation_history chat_request in
  (exists context w' w'',
     chat_context bot (ChatRequest.order_id chat_request)
       (ChatRequest.ticket_id chat_request)
       (ChatRequest.user_id chat_request) w' = (Ok context, w'')
     /\ same_db w w'
     /\ faults w' = faults w
     /\ fst (with_session (chat_with_bot (ret bot) chat_request) w)
        = Ok {| ChatResponse.response :=
                  answer_for bot context (ChatRequest.message chat_request)
                    (match history with
                     | None | Some [] => None
                     | Some turns => Some (map to_dict turns)
                     end);
                ChatResponse.conversation_id := None |})
  /\ (history = Some [] ->
      forall chatbot,
        chat_with_bot chatbot chat_request w
        = chat_with_bot chatbot
            {| ChatRequest.message := ChatRequest.message chat_request;
               ChatRequest.order_id := ChatRequest.order_id chat_request;
               ChatRequest.ticket_id := ChatRequest.ticket_id chat_request;
               ChatRequest.user_id := ChatRequest.user_id chat_request;
               ChatRequest.conversation_history := None |} w)
  /\ (forall e,
        fst (with_session (chat_with_bot (raise e) chat_request) w)
        = Raise (HTTPException 500
                   "Failed to process chat request. Please try again or contact support.")).
Proof.
  intros history. split; [|split].
  - rewrite with_session_run. cbn [fst]. set (w0 := set_attached [] w).
    unfold chat_with_bot. erewrite bind_ok by reflexivity.
    match goal with |- context [set_log ?l w0] => set (wa := set_log l w0) end.
    destruct (chat_context_returns bot (ChatRequest.order_id chat_request)
                (ChatRequest.ticket_id chat_request)
                (ChatRequest.user_id chat_request) wa)
      as (context & w'' & Ec).
    exists context, wa, w''. split; [exact Ec|].
    split; [repeat split|]. split; [reflexivity|].
    eapply try_except_fst_ok. erewrite bind_ok by reflexivity.
    erewrite bind_ok_fst by (eapply chat_answer_for; exact Ec).
    erewrite bind_ok by reflexivity. unfold ret. do 3 f_equal.
    fold history. destruct history as [[|t turns]|]; reflexivity.
  - intros H chatbot. unfold chat_with_bot. fold history. rewrite H.
    reflexivity.
  - intros e. rewrite with_session_run. cbn [fst].
    unfold chat_with_bot. erewrite bind_ok by reflexivity.
    eapply try_fail_with. reflexivity.
Qed.

Lemma chat_with_bot_outcomes_witness :
  fst (with_session
         (chat_with_bot (ret failing_bot)
            {| ChatRequest.message := "Where is my order?";
               ChatRequest.order_id := Some 7;
               ChatRequest.ticket_id := None;
               ChatRequest.user_id := None;
               ChatRequest.conversation_history := Some [] |})
         (world0 "open" frozen [Some "timeout"]))
  = Ok {| ChatResponse.response := apology;
          ChatResponse.conversation_id := None |}.
Proof.
  destruct (chat_with_bot_outcomes failing_bot
              {| ChatRequest.message := "Where is my order?";
                 ChatRequest.order_id := Some 7;
                 ChatRequest.ticket_id := None;
                 ChatRequest.user_id := None;
                 ChatRequest.conversation_history := Some [] |}
              (world0 "open" frozen [Some "timeout"]))
    as ((context & w' & w'' & _ & _ & _ & E) & _).
  rewrite E. reflexivity.
Defined.

Lemma chat_context_order self order_id s w w1 :
  order_id <> 0 ->
  _get_order_context order_id w = (Ok s, w1) ->
  chat_context self (Some order_id) None None w
  = (Ok (documents self +:+ nl +:+ nl +:+ s), w1).
Proof.
  intros Hid E. unfold chat_context.
  erewrite bind_ok.
  2:{ unfold context_parts.
      erewrite bind_ok by (apply append_if_nonzero; eassumption).
      reflexivity. }
  reflexivity.
Qed.

Lemma chat_context_ticket self ticket_id s w w1 :
  ticket_id <> 0 ->
  _get_ticket_context ticket_id w = (Ok s, w1) ->
  chat_context self None (Some ticket_id) None w
  = (Ok (documents self +:+ nl +:+ nl +:+ s), w1).
Proof.
  intros Hid E. unfold chat_context.
  erewrite bind_ok.
  2:{ unfold context_parts. erewrite bind_ok by apply append_if_None.
      erewrite bind_ok by (apply append_if_nonzero; eassumption).
      reflexivity. }
  reflexivity.
Qed.

Lemma _get_ticket_context_found ticket_id t w :
  succeeds 2 w = true ->
  find_ticket ticket_id (tickets_table w) = Some t ->
  exists w',
    _get_ticket_context ticket_id w
    = (Ok (ticket_info t (order_status_of (Tickets.order_id t) w)), w').
Proof.
  intros Hs Ht.
  destruct (session_get_Tickets_succeeds 1 ticket_id w Hs) as [Eg Hs1].
  rewrite Ht in Eg. rewrite <- (succeeds_loaded 1 t w) in Hs1.
  destruct (session_get_Orders_succeeds 0 (Tickets.order_id t) _ Hs1)
    as [Eo _].
  destruct (loaded_frame t w) as (Hot & _). rewrite Hot in Eo.
  eexists. unfold _get_ticket_context. erewrite try_ok; [reflexivity|].
  erewrite bind_ok by exact Eg. cbn beta iota.
  erewrite bind_ok by apply getattr_loaded.
  erewrite bind_ok by exact Eo. unfold order_status_of.
  destruct (find_order _ _); reflexivity.
Qed.

(** [chat_about_order] for an order that does not exist fails with the 404
    "Order not found" error whatever the chatbot is (it is not asked); for
    an order that exists, it answers from a context made of the documents
    and the section of that order, or of the documents alone when the id
    is 0; a failing lookup of the order gives the 500 error. *)
Theorem chat_about_order_outcomes bot order_id message w :
  (succeeds 1 w = true ->
   find_order order_id (orders_table w) = None ->
   forall chatbot,
     fst (with_session (chat_about_order chatbot order_id message) w)
     = Raise (HTTPException 404 "Order not found")
     /\ with_session (chat_about_order chatbot order_id message) w
        = with_session (chat_about_order (ret bot) order_id message) w)
  /\ (forall order,
        succeeds 2 w = true ->
        find_order order_id (orders_table w) = Some order ->
        fst (with_session (chat_about_order (ret bot) order_id message) w)
        = Ok {| ChatResponse.response :=
                  answer_for bot
                    (documents bot
                     +:+ (if order_id =? 0 then ""
                          else nl +:+ nl +:+ order_info order))
                    message None;
                ChatResponse.conversation_id := None |})
  /\ (forall what fs chatbot,
        faults w = Some what :: fs ->
        fst (with_session (chat_about_order chatbot order_id message) w)
        = Raise (HTTPException 500 "Failed to process chat request.")).
Proof.
  split; [|split].
  - intros Hs Ho chatbot. rewrite !with_session_run. cbn [fst].
    set (w0 := set_attached [] w).
    unfold chat_about_order. erewrite !bind_ok by reflexivity.
    match goal with |- context [set_log ?l w0] => set (wa := set_log l w0) end.
    destruct (session_get_Orders_succeeds 0 order_id wa Hs) as [Eg _].
    change (orders_table wa) with (orders_table w) in Eg. rewrite Ho in Eg.
    unfold try_except. erewrite !bind_ok by exact Eg. split; reflexivity.
  - intros order Hs Ho. rewrite with_session_run. cbn [fst].
    set (w0 := set_attached [] w).
    unfold chat_about_order. erewrite bind_ok by reflexivity.
    match goal with |- context [set_log ?l w0] => set (wa := set_log l w0) end.
    destruct (session_get_Orders_succeeds 1 order_id wa Hs) as [Eg Hs1].
    change (orders_table wa) with (orders_table w) in Eg. rewrite Ho in Eg.
    eapply try_except_fst_ok. erewrite bind_ok by exact Eg. cbn beta iota.
    erewrite bind_ok by reflexivity.
    assert (Ec : exists w1,
               chat_context bot (Some order_id) None None (next wa)
               = (Ok (documents bot
                      +:+ (if order_id =? 0 then ""
                           else nl +:+ nl +:+ order_info order)), w1)).
    { destruct (Z.eqb_spec order_id 0) as [->|Hid].
      - eexists. rewrite append_empty_r. reflexivity.
      - destruct (session_get_Orders_succeeds 0 order_id (next wa) Hs1)
          as [Eg' _].
        change (orders_table (next wa)) with (orders_table w) in Eg'.
        rewrite Ho in Eg'. eexists.
        apply chat_context_order; [exact Hid|].
        apply _get_order_context_found. exact Eg'. }
    destruct Ec as [w1 Ec].
    erewrite bind_ok_fst by (eapply chat_answer_for; exact Ec).
    erewrite bind_ok by reflexivity. reflexivity.
  - intros what fs chatbot Hf. rewrite with_session_run. cbn [fst].
    set (w0 := set_attached [] w).
    unfold chat_about_order. erewrite bind_ok by reflexivity.
    match goal with |- context [set_log ?l w0] => set (wa := set_log l w0) end.
    erewrite try_reraise_fail_with
      by (erewrite bind_raise
            by exact (session_get_Orders_fails order_id what fs wa Hf);
          reflexivity).
    reflexivity.
Qed.

Lemma chat_about_order_outcomes_witness :
  fst (with_session (chat_about_order (ret failing_bot) 42 "Where is it?")
         (world0 "open" frozen []))
  = Raise (HTTPException 404 "Order not found")
  /\ fst (with_session (chat_about_order (ret echo_bot) 7 "Where is it?")
            (world0 "open" frozen []))
     = Ok {| ChatResponse.response :=
               answer_for echo_bot ("POLICY" +:+ nl +:+ nl +:+ order_info order7)
                 "Where is it?" None;
             ChatResponse.conversation_id := None |}
  /\ fst (with_session (chat_about_order (ret echo_bot) 7 "Where is it?")
            (world0 "open" frozen [Some "timeout"]))
     = Raise (HTTPException 500 "Failed to process chat request.").
Proof.
  split; [|split].
  - apply (chat_about_order_outcomes failing_bot 42 "Where is it?"
             (world0 "open" frozen [])); reflexivity.
  - apply (chat_about_order_outcomes echo_bot 7 "Where is it?"
             (world0 "open" frozen [])); reflexivity.
  - eapply (chat_about_order_outcomes echo_bot 7 "Where is it?"
              (world0 "open" frozen [Some "timeout"])).
    reflexivity.
Defined.

(** [chat_about_ticket] for a ticket that does not exist fails with the
    404 "Ticket not found" error whatever the chatbot is; for a ticket that
    exists, it answers from a context made of the documents and the
    section of that ticket, with the status of its order or "Unknown", or
    of the documents alone when the id is 0; a failing lookup of the ticket
    gives the 500 error. *)
Theorem chat_about_ticket_outcomes bot ticket_id message w :
  (succeeds 1 w = true ->
   find_ticket ticket_id (tickets_table w) = None ->
   forall chatbot,
     fst (with_session (chat_about_ticket chatbot ticket_id message) w)
     = Raise (HTTPException 404 "Ticket not found")
     /\ with_session (chat_about_ticket chatbot ticket_id message) w
        = with_session (chat_about_ticket (ret bot) ticket_id message) w)
  /\ (forall t,
        succeeds 3 w = true ->
        find_ticket ticket_id (tickets_table w) = Some t ->
        fst (with_session (chat_about_ticket (ret bot) ticket_id message) w)
        = Ok {| ChatResponse.response :=
                  answer_for bot
                    (documents bot
                     +:+ (if ticket_id =? 0 then ""
                          else nl +:+ nl
                               +:+ ticket_info t
                                     (order_status_of (Tickets.order_id t) w)))
                    message None;
                ChatResponse.conversation_id := None |})
  /\ (forall what fs chatbot,
        faults w = Some what :: fs ->
        fst (with_session (chat_about_ticket chatbot ticket_id message) w)
        = Raise (HTTPException 500 "Failed to process chat request.")).
Proof.
  split; [|split].
  - intros Hs Ht chatbot. rewrite !with_session_run. cbn [fst].
    set (w0 := set_attached [] w).
    unfold chat_about_ticket. erewrite !bind_ok by reflexivity.
    match goal with |- context [set_log ?l w0] => set (wa := set_log l w0) end.
    destruct (session_get_Tickets_succeeds 0 ticket_id wa Hs) as [Eg _].
    change (tickets_table wa) with (tickets_table w) in Eg. rewrite Ht in Eg.
    unfold try_except. erewrite !bind_ok by exact Eg. split; reflexivity.
  - intros t Hs Ht. rewrite with_session_run. cbn [fst].
    set (w0 := set_attached [] w).
    unfold chat_about_ticket. erewrite bind_ok by reflexivity.
    match goal with |- context [set_log ?l w0] => set (wa := set_log l w0) end.
    destruct (session_get_Tickets_succeeds 2 ticket_id wa Hs) as [Eg Hs1].
    change (tickets_table wa) with (tickets_table w) in Eg. rewrite Ht in Eg.
    rewrite <- (succeeds_loaded 2 t wa) in Hs1.
    destruct (loaded_frame t wa) as (Hot & Htt & _).
    eapply try_except_fst_ok. erewrite bind_ok by exact Eg. cbn beta iota.
    erewrite bind_ok by reflexivity.
    assert (Ec : exists w1,
               chat_context bot None (Some ticket_id) None (loaded t wa)
               = (Ok (documents bot
                      +:+ (if ticket_id =? 0 then ""
                           else nl +:+ nl
                                +:+ ticket_info t
                                      (order_status_of (Tickets.order_id t) w))),
                  w1)).
    { destruct (Z.eqb_spec ticket_id 0) as [->|Hid].
      - eexists. rewrite append_empty_r. reflexivity.
      - destruct (_get_ticket_context_found ticket_id t (loaded t wa) Hs1)
          as (w1 & E1); [rewrite Htt; exact Ht|].
        exists w1. apply chat_context_ticket; [exact Hid|].
        rewrite E1. unfold order_status_of. rewrite Hot. reflexivity. }
    destruct Ec as [w1 Ec].
    erewrite bind_ok_fst by (eapply chat_answer_for; exact Ec).
    erewrite bind_ok by reflexivity. reflexivity.
  - intros what fs chatbot Hf. rewrite with_session_run. cbn [fst].
    set (w0 := set_attached [] w).
    unfold chat_about_ticket. erewrite bind_ok by reflexivity.
    match goal with |- context [set_log ?l w0] => set (wa := set_log l w0) end.
    erewrite try_reraise_fail_with
      by (erewrite bind_raise
            by exact (session_get_Tickets_fails ticket_id what fs wa Hf);
          reflexivity).
    reflexivity.
Qed.

Lemma chat_about_ticket_outcomes_witness :
  fst (with_session (chat_about_ticket (ret failing_bot) 9 "Any news?")
         (world0 "open" frozen []))
  = Raise (HTTPException 404 "Ticket not found")
  /\ fst (with_session (chat_about_ticket (ret echo_bot) 1 "Any news?")
            (world0 "open" frozen []))
     = Ok {| ChatResponse.response :=
               answer_for echo_bot
                 ("POLICY" +:+ nl +:+ nl
                  +:+ ticket_info (ticket1 "open") "shipped")
                 "Any news?" None;
             ChatResponse.conversation_id := None |}
  /\ fst (with_session (chat_about_ticket (ret echo_bot) 1 "Any news?")
            (world0 "open" frozen [Some "timeout"]))
     = Raise (HTTPException 500 "Failed to process chat request.").
Proof.
  split; [|split].
  - apply (chat_about_ticket_outcomes failing_bot 9 "Any news?"
             (world0 "open" frozen [])); reflexivity.
  - apply (chat_about_ticket_outcomes echo_bot 1 "Any news?"
             (world0 "open" frozen [])); reflexivity.
  - eapply (chat_about_ticket_outcomes echo_bot 1 "Any news?"
              (world0 "open" frozen [Some "timeout"])).
    reflexivity.
Defined.

(** ** Writing tickets: every path *)

Lemma db_round_trip_faults w :
  (succeeds 1 w = true /\ db_round_trip w = (Ok tt, next w))
  \/ (exists what fs,
        faults w = Some what :: fs
        /\ db_round_trip w = (Raise (SQLAlchemyError what), next w)).
Proof.
  unfold db_round_trip, next, succeeds.
  destruct w as [ot tk sq hp at_ fs ck lg]; cbn.
  destruct fs as [|[what|] fs]; cbn; eauto 6.
Qed.

Lemma session_commit_faults w :
  (succeeds 1 w = true
   /\ session_commit w = (Ok tt, foldl flush (next w) (attached w)))
  \/ (exists what fs,
        faults w = Some what :: fs
        /\ session_commit w = (Raise (SQLAlchemyError what), next w)).
Proof.
  unfold session_commit.
  destruct (db_round_trip_faults w) as [[Hs E]|(what & fs & Hf & E)].
  - left. split; [exact Hs|]. erewrite bind_ok by exact E. reflexivity.
  - right. exists what, fs. split; [exact Hf|].
    erewrite bind_raise by exact E. reflexivity.
Qed.

Lemma session_refresh_faults r w :
  (succeeds 1 w = true
   /\ session_refresh r w
      = match reload (next w) r with
        | Some w' => (Ok tt, w')
        | None => (Raise (SQLAlchemyError "Could not refresh instance"), next w)
        end)
  \/ (exists what fs,
        faults w = Some what :: fs
        /\ session_refresh r w = (Raise (SQLAlchemyError what), next w)).
Proof.
  unfold session_refresh.
  destruct (db_round_trip_faults w) as [[Hs E]|(what & fs & Hf & E)].
  - left. split; [exact Hs|]. erewrite bind_ok by exact E. reflexivity.
  - right. exists what, fs. split; [exact Hf|].
    erewrite bind_raise by exact E. reflexivity.
Qed.

Lemma faults_after_success w f fs :
  succeeds 1 w = true -> tail (faults w) = f :: fs ->
  faults w = None :: f :: fs.
Proof.
  unfold succeeds. destruct (faults w) as [|[what|] l]; cbn; try discriminate.
  intros _ ->. reflexivity.
Qed.

Lemma succeeds_S n w :
  succeeds 1 w = true -> succeeds n (next w) = true ->
  succeeds (S n) w = true.
Proof.
  unfold succeeds, next. cbn [faults set_faults].
  destruct (faults w) as [|[what|] l]; cbn; try discriminate; [|auto].
  intros _ _. reflexivity.
Qed.

(** The endpoints that write, outside a [try]: the exception of the body
    other than an [HTTPException] becomes the 500 error, after a rollback
    that leaves the database as the body left it. *)
Lemma try_rollback_raises {A} (body : M A) msg failure w what w1 :
  body w = (Raise (SQLAlchemyError what), w1) ->
  exists w',
    try_except body
      (reraise_http (fun e =>
         logger ERROR (msg e) ;;
         session_rollback ;;
         raise (HTTPException 500 failure))) w
    = (Raise (HTTPException 500 failure), w')
    /\ same_db w1 w'.
Proof.
  intros Eb. unfold try_except. rewrite Eb. cbn [reraise_http].
  unfold bind at 1. cbn [logger].
  match goal with |- context [set_log ?l ?w0] => set (w2 := set_log l w0) end.
  destruct (session_rollback_same_db w2) as (w' & E & S).
  exists w'. split; [erewrite bind_ok by exact E; reflexivity|].
  eapply same_db_trans; [|exact S]. repeat split.
Qed.

(** The paths of [update_ticket_status] for a ticket that the lookup
    finds and a valid status, in a fresh session: the commit fails and
    nothing is written; or the refresh fails after the row is written; or
    the updated ticket is returned. *)
Lemma update_ticket_status_paths id req w x :
  attached w = [] ->
  succeeds 1 w = true ->
  find_ticket id (tickets_table w) = Some x ->
  let s := UpdateTicketStatusRequest.status req in
  s ∈ valid_statuses ->
  let x' := Tickets.set_updated_at (clock w 0%nat) (Tickets.set_status s x) in
  let failed := Raise (HTTPException 500 "Failed to update ticket status") in
  exists w',
    orders_table w' = orders_table w
    /\ tickets_seq w' = tickets_seq w
    /\ ((exists what fs,
           faults w = None :: Some what :: fs
           /\ update_ticket_status id req w = (failed, w')
           /\ tickets_table w' = tickets_table w)
        \/ (exists what fs,
              faults w = None :: None :: Some what :: fs
              /\ update_ticket_status id req w = (failed, w')
              /\ tickets_table w' = replace_rows id x' (tickets_table w))
        \/ (succeeds 3 w = true
            /\ update_ticket_status id req w
               = (Ok {| message := "Ticket status updated successfully";
                        ticket := x' |}, w')
            /\ tickets_table w' = replace_rows id x' (tickets_table w))).
Proof.
  intros Hatt Hs1 Hx s Hv x' failed. unfold update_ticket_status.
  erewrite bind_ok by reflexivity.
  match goal with |- context [set_log ?l w] => set (wa := set_log l w) end.
  name_body body errmsg failure.
  assert (Hwa : attached wa = []) by exact Hatt.
  destruct (session_get_Tickets_succeeds 0 id wa Hs1) as [Eg _].
  change (tickets_table wa) with (tickets_table w) in Eg. rewrite Hx in Eg.
  pose proof (find_ticket_id _ _ _ Hx) as Hid.
  set (r := length (heap w)).
  assert (Hid' : Tickets.id x' = Some id) by exact Hid.
  set (w4 := set_heap (heap w ++ [x'])%list
               (set_clock (fun n => clock w (S n))
                  (set_attached [r]
                     (set_heap (heap w ++ [x])%list (next wa))))).
  assert (Hlook : forall y, (heap w ++ [y])%list !! r = Some y)
    by (intros y; apply list_lookup_middle; reflexivity).
  assert (Hpre :
            body wa
            = (session_commit ;;
               session_refresh r ;;
               updated <- getattr r ;;
               logger INFO
                 ("Updated ticket " +:+ str_int id +:+ " status from "
                  +:+ Tickets.status x +:+ " to " +:+ Tickets.status updated) ;;
               ret {| message := "Ticket status updated successfully";
                      ticket := updated |}) w4).
  { unfold body. erewrite bind_ok by exact Eg. cbn beta iota.
    fold s. rewrite bool_decide_eq_true_2 by exact Hv. cbn [negb].
    rewrite loaded_fresh by exact Hwa.
    erewrite bind_ok by (apply getattr_at; apply Hlook).
    erewrite bind_ok by (apply setattr_at; apply Hlook).
    proj. rewrite insert_last.
    erewrite bind_ok by reflexivity.
    erewrite bind_ok by (apply setattr_at; apply Hlook).
    proj. rewrite insert_last.
    erewrite bind_ok by reflexivity. proj.
    rewrite bool_decide_eq_true_2 by apply list_elem_of_here.
    reflexivity. }
  destruct (session_commit_faults w4) as [[Hs4 Ec]|(what & fs & Hf4 & Ec)].
  2:{ destruct (try_rollback_raises body errmsg failure wa what (next w4))
        as (w' & Et & Hdb).
      { rewrite Hpre. erewrite bind_raise by exact Ec. reflexivity. }
      destruct Hdb as (Ho & Ht & Hq).
      exists w'. split; [exact Ho|]. split; [exact Hq|]. left.
      exists what, fs. split; [apply faults_after_success; assumption|].
      split; [exact Et|exact Ht]. }
  set (w5 := set_tickets_table (replace_rows id x' (tickets_table w)) (next w4)).
  assert (Ec' : session_commit w4 = (Ok tt, w5)).
  { rewrite Ec. f_equal. subst w4. proj. cbn [foldl]. unfold flush. proj.
    rewrite Hlook, Hid'. reflexivity. }
  clear Ec.
  destruct (session_refresh_faults r w5) as [[Hs5 Er]|(what & fs & Hf5 & Er)].
  2:{ destruct (try_rollback_raises body errmsg failure wa what (next w5))
        as (w' & Et & Hdb).
      { rewrite Hpre. erewrite bind_ok by exact Ec'.
        erewrite bind_raise by exact Er. reflexivity. }
      destruct Hdb as (Ho & Ht & Hq).
      exists w'. split; [exact Ho|]. split; [exact Hq|]. right. left.
      exists what, fs. split.
      { apply faults_after_success; [assumption|].
        apply (faults_after_success w4); assumption. }
      split; [exact Et|exact Ht]. }
  set (w6 := set_heap (heap w ++ [x'])%list (next w5)).
  assert (Er' : session_refresh r w5 = (Ok tt, w6)).
  { rewrite Er. unfold reload. subst w5 w4. proj. rewrite Hlook.
    cbn [mbind option_bind]. rewrite Hid'. cbn [mbind option_bind].
    rewrite (find_ticket_replace_rows _ _ _ _ Hx Hid').
    cbn [mbind option_bind]. unfold r. rewrite insert_last. reflexivity. }
  clear Er.
  eexists. split; [|split; [|right; right; split; [|split]]].
  4:{ apply try_reraise_http_ok. rewrite Hpre.
      erewrite bind_ok by exact Ec'. erewrite bind_ok by exact Er'.
      erewrite bind_ok by (apply getattr_at; apply Hlook).
      reflexivity. }
  1,2,4: reflexivity.
  apply succeeds_S; [exact Hs1|]. apply (succeeds_S 1 (next wa)).
  { exact Hs4. }
  exact Hs5.
Qed.

(** The paths of [create_ticket] for an order that the lookup finds, in a
    fresh session, when the id the sequence hands out is not in the
    table. *)
Lemma create_ticket_paths req w order :
  attached w = [] ->
  find_ticket (tickets_seq w) (tickets_table w) = None ->
  succeeds 1 w = true ->
  find_order (CreateTicketRequest.order_id req) (orders_table w) = Some order ->
  let failed := Raise (HTTPException 500 "Failed to create ticket") in
  let added := (tickets_table w ++ [created_ticket req w])%list in
  exists w',
    orders_table w' = orders_table w
    /\ ((exists what fs,
           faults w = None :: Some what :: fs
           /\ create_ticket req w = (failed, w')
           /\ tickets_table w' = tickets_table w
           /\ tickets_seq w' = tickets_seq w)
        \/ (exists what fs,
              faults w = None :: None :: Some what :: fs
              /\ create_ticket req w = (failed, w')
              /\ tickets_table w' = added
              /\ tickets_seq w' = tickets_seq w + 1)
        \/ (succeeds 3 w = true
            /\ create_ticket req w
               = (Ok {| message := "Ticket created successfully";
                        ticket := created_ticket req w |}, w')
            /\ tickets_table w' = added
            /\ tickets_seq w' = tickets_seq w + 1)).
Proof.
  intros Hatt Hseq Hs1 Ho failed added. unfold create_ticket.
  erewrite bind_ok by reflexivity.
  match goal with |- context [set_log ?l w] => set (wa := set_log l w) end.
  name_body body errmsg failure.
  set (oid := CreateTicketRequest.order_id req) in *.
  destruct (session_get_Orders_succeeds 0 oid wa Hs1) as [Eg _].
  change (orders_table wa) with (orders_table w) in Eg. rewrite Ho in Eg.
  set (r := length (heap w)).
  set (t0 := {| Tickets.id := None;
                Tickets.order_id := oid;
                Tickets.issue_description :=
                  CreateTicketRequest.issue_description req;
                Tickets.status := "open";
                Tickets.created_at := clock w 0%nat;
                Tickets.updated_at := clock w 1%nat |}).
  set (w4 := set_attached [r]
               (set_heap (heap w ++ [t0])%list
                  (set_clock (fun n => clock w (S (S n))) (next wa)))).
  assert (Hlook : forall y, (heap w ++ [y])%list !! r = Some y)
    by (intros y; apply list_lookup_middle; reflexivity).
  assert (Hpre :
            body wa
            = (session_commit ;;
               session_refresh r ;;
               created <- getattr r ;;
               logger INFO
                 ("Created ticket " +:+ str_opt_int (Tickets.id created)
                  +:+ " for order " +:+ str_int oid) ;;
               ret {| message := "Ticket created successfully";
                      ticket := created |}) w4).
  { unfold body. erewrite bind_ok by exact Eg. cbn beta iota.
    erewrite bind_ok by reflexivity. erewrite bind_ok by reflexivity.
    erewrite bind_ok by reflexivity. erewrite bind_ok by reflexivity.
    proj. change (attached wa) with (attached w). rewrite Hatt.
    rewrite bool_decide_eq_false_2 by apply not_elem_of_nil. reflexivity. }
  destruct (session_commit_faults w4) as [[Hs4 Ec]|(what & fs & Hf4 & Ec)].
  2:{ destruct (try_rollback_raises body errmsg failure wa what (next w4))
        as (w' & Et & Hdb).
      { rewrite Hpre. erewrite bind_raise by exact Ec. reflexivity. }
      destruct Hdb as (Hot & Ht & Hq).
      exists w'. split; [exact Hot|]. left.
      exists what, fs. split; [apply faults_after_success; assumption|].
      split; [exact Et|]. split; [exact Ht|exact Hq]. }
  set (t1 := created_ticket req w).
  set (w5 := set_heap (heap w ++ [t1])%list
               (set_tickets_seq (tickets_seq w + 1)
                  (set_tickets_table (tickets_table w ++ [t1])%list
                     (next w4)))).
  assert (Ec' : session_commit w4 = (Ok tt, w5)).
  { rewrite Ec. f_equal. subst w4. proj. cbn [foldl]. unfold flush. proj.
    rewrite Hlook. cbn [Tickets.id t0]. unfold r. rewrite insert_last.
    reflexivity. }
  clear Ec.
  destruct (session_refresh_faults r w5) as [[Hs5 Er]|(what & fs & Hf5 & Er)].
  2:{ destruct (try_rollback_raises body errmsg failure wa what (next w5))
        as (w' & Et & Hdb).
      { rewrite Hpre. erewrite bind_ok by exact Ec'.
        erewrite bind_raise by exact Er. reflexivity. }
      destruct Hdb as (Hot & Ht & Hq).
      exists w'. split; [exact Hot|]. right. left.
      exists what, fs. split.
      { apply faults_after_success; [assumption|].
        apply (faults_after_success w4); assumption. }
      split; [exact Et|]. split; [exact Ht|exact Hq]. }
  assert (Er' : session_refresh r w5 = (Ok tt, next w5)).
  { rewrite Er. unfold reload. subst w5 w4. proj. rewrite Hlook.
    cbn [mbind option_bind Tickets.id t1 created_ticket].
    rewrite (find_ticket_app_new _ _ t1 Hseq eq_refl).
    cbn [mbind option_bind]. unfold r. rewrite insert_last. reflexivity. }
  clear Er.
  eexists. split; [|right; right; split; [|split; [|split]]].
  3:{ apply try_reraise_http_ok. rewrite Hpre.
      erewrite bind_ok by exact Ec'. erewrite bind_ok by exact Er'.
      erewrite bind_ok by (apply getattr_at; apply Hlook).
      reflexivity. }
  1,3,4: reflexivity.
  apply succeeds_S; [exact Hs1|]. apply (succeeds_S 1 (next wa)).
  { exact Hs4. }
  exact Hs5.
Qed.

(** A write endpoint whose first lookup fails raises the 500 error and
    writes nothing. *)
Lemma update_ticket_status_lookup_fails id req what fs w :
  faults w = Some what :: fs ->
  exists w',
    update_ticket_status id req w
    = (Raise (HTTPException 500 "Failed to update ticket status"), w')
    /\ same_db w w'.
Proof.
  intros Hf. unfold update_ticket_status. erewrite bind_ok by reflexivity.
  match goal with |- context [set_log ?l w] => set (wa := set_log l w) end.
  name_body body errmsg failure.
  destruct (try_rollback_raises body errmsg failure wa what (next wa))
    as (w' & Et & Hdb).
  { unfold body. erewrite bind_raise; [reflexivity|].
    apply (session_get_Tickets_fails id what fs wa Hf). }
  exists w'. split; [exact Et|]. eapply same_db_trans; [|exact Hdb].
  repeat split.
Qed.

Lemma update_ticket_status_not_found id req w :
  succeeds 1 w = true ->
  find_ticket id (tickets_table w) = None ->
  exists w',
    update_ticket_status id req w
    = (Raise (HTTPException 404 "Ticket not found"), w')
    /\ same_db w w'.
Proof.
  intros Hs Hx. unfold update_ticket_status. erewrite bind_ok by reflexivity.
  match goal with |- context [set_log ?l w] => set (wa := set_log l w) end.
  destruct (session_get_Tickets_succeeds 0 id wa Hs) as [Eg _].
  change (tickets_table wa) with (tickets_table w) in Eg. rewrite Hx in Eg.
  eexists. split.
  { unfold try_except. erewrite bind_ok by exact Eg. reflexivity. }
  repeat split.
Qed.

Lemma create_ticket_lookup_fails req what fs w :
  faults w = Some what :: fs ->
  exists w',
    create_ticket req w
    = (Raise (HTTPException 500 "Failed to create ticket"), w')
    /\ same_db w w'.
Proof.
  intros Hf. unfold create_ticket. erewrite bind_ok by reflexivity.
  match goal with |- context [set_log ?l w] => set (wa := set_log l w) end.
  name_body body errmsg failure.
  destruct (try_rollback_raises body errmsg failure wa what (next wa))
    as (w' & Et & Hdb).
  { unfold body. erewrite bind_raise; [reflexivity|].
    apply (session_get_Orders_fails _ what fs wa Hf). }
  exists w'. split; [exact Et|]. eapply same_db_trans; [|exact Hdb].
  repeat split.
Qed.

Lemma succeeds_or_fails w :
  succeeds 1 w = true \/ exists what fs, faults w = Some what :: fs.
Proof.
  unfold succeeds. destruct (faults w) as [|[what|] fs]; cbn; eauto.
Qed.

Lemma tickets_wf_fresh w :
  tickets_wf w -> find_ticket (tickets_seq w) (tickets_table w) = None.
Proof.
  intros [Hall _]. unfold find_ticket.
  destruct (find _ _) as [row|] eqn:E; [|reflexivity]. exfalso.
  apply find_some in E as [Hin Hid]. apply bool_decide_eq_true in Hid.
  rewrite Forall_forall in Hall. apply list_elem_of_In in Hin.
  destruct (Hall row Hin) as (k & Hk & Hlt). rewrite Hid in Hk.
  injection Hk as <-. lia.
Qed.

(** What [update_ticket_status] can do to the database, in a fresh
    session. *)
Lemma update_ticket_status_changes id req w :
  attached w = [] ->
  let w' := snd (update_ticket_status id req w) in
  orders_table w' = orders_table w
  /\ tickets_seq w' = tickets_seq w
  /\ (tickets_table w' = tickets_table w
      \/ exists x x',
           find_ticket id (tickets_table w) = Some x
           /\ Tickets.id x' = Some id
           /\ tickets_table w' = replace_rows id x' (tickets_table w)).
Proof.
  intros Hatt w'. subst w'.
  destruct (succeeds_or_fails w) as [Hs|(what & fs & Hf)].
  2:{ destruct (update_ticket_status_lookup_fails id req what fs w Hf)
        as (w' & -> & Ho & Ht & Hq).
      split; [exact Ho|]. split; [exact Hq|]. left. exact Ht. }
  destruct (find_ticket id (tickets_table w)) as [x|] eqn:Hx.
  2:{ destruct (update_ticket_status_not_found id req w Hs Hx)
        as (w' & -> & Ho & Ht & Hq).
      split; [exact Ho|]. split; [exact Hq|]. left. exact Ht. }
  destruct (decide (UpdateTicketStatusRequest.status req ∈ valid_statuses))
    as [Hv|Hn].
  2:{ destruct (update_ticket_status_invalid id req w Hn)
        as (e & w' & -> & (Ho & Ht & Hq) & _).
      split; [exact Ho|]. split; [exact Hq|]. left. exact Ht. }
  destruct (update_ticket_status_paths id req w x Hatt Hs Hx Hv)
    as (w' & Ho & Hq & [(what & fs & _ & -> & Ht)
                       |[(what & fs & _ & -> & Ht)|(_ & -> & Ht)]]);
    (split; [exact Ho|]); (split; [exact Hq|]).
  - left. exact Ht.
  - right. eexists x, _. split; [reflexivity|]. split; [|exact Ht].
    exact (find_ticket_id _ _ _ Hx).
  - right. eexists x, _. split; [reflexivity|]. split; [|exact Ht].
    exact (find_ticket_id _ _ _ Hx).
Qed.

(** What [create_ticket] can do to the database, in a fresh session with
    well-formed tickets. *)
Lemma create_ticket_changes req w :
  attached w = [] -> tickets_wf w ->
  orders_table (snd (create_ticket req w)) = orders_table w
  /\ tickets_change w (snd (create_ticket req w)).
Proof.
  intros Hatt Hwf. pose proof (tickets_wf_fresh w Hwf) as Hseq.
  destruct (succeeds_or_fails w) as [Hs|(what & fs & Hf)].
  2:{ destruct (create_ticket_lookup_fails req what fs w Hf)
        as (w' & -> & Ho & Ht & Hq).
      split; [exact Ho|]. apply tickets_unchanged; assumption. }
  destruct (find_order (CreateTicketRequest.order_id req) (orders_table w))
    as [order|] eqn:Hord.
  2:{ destruct (create_ticket_order_absent req w Hord)
        as (e & w' & -> & (Ho & Ht & Hq) & _).
      split; [exact Ho|]. apply tickets_unchanged; assumption. }
  destruct (create_ticket_paths req w order Hatt Hseq Hs Hord)
    as (w' & Ho & [(what & fs & _ & -> & Ht & Hq)
                  |[(what & fs & _ & -> & Ht & Hq)|(_ & -> & Ht & Hq)]]);
    (split; [exact Ho|]).
  - apply tickets_unchanged; assumption.
  - eapply tickets_added; [|exact Ht|exact Hq]. reflexivity.
  - eapply tickets_added; [|exact Ht|exact Hq]. reflexivity.
Qed.

(** ** The write endpoints, each in a session of its own *)

Lemma with_session_inv {A} (m : M A) w (r : result A) w' :
  with_session m w = (r, w') ->
  exists w1, m (set_attached [] w) = (r, w1) /\ w' = set_attached [] w1.
Proof.
  rewrite with_session_run. destruct (m (set_attached [] w)) as [r1 w1].
  cbn [fst snd]. intros [= <- <-]. exists w1. split; reflexivity.
Qed.

Lemma succeeds_3_shape w :
  succeeds 3 w = true ->
  succeeds 1 w = true
  /\ (forall what fs, faults w <> None :: Some what :: fs)
  /\ (forall what fs, faults w <> None :: None :: Some what :: fs).
Proof.
  unfold succeeds.
  destruct (faults w) as [|[a|] [|[b|] [|[c|] fs]]]; cbn;
    intros H; try discriminate H; repeat split; intros ? ?; discriminate.
Qed.

Lemma fails_shape w what fs :
  (faults w = None :: Some what :: fs
   \/ faults w = None :: None :: Some what :: fs) ->
  succeeds 1 w = true /\ succeeds 3 w = false.
Proof. unfold succeeds. intros [-> | ->]; split; reflexivity. Qed.

Lemma get_ticket_found ticket_id w x :
  succeeds 1 w = true ->
  find_ticket ticket_id (tickets_table w) = Some x ->
  fst (with_session (get_ticket ticket_id) w) = Ok x.
Proof.
  intros Hs Hx. rewrite with_session_run. cbn [fst].
  set (w0 := set_attached [] w).
  unfold get_ticket. erewrite bind_ok by reflexivity.
  match goal with |- context [set_log ?l w0] => set (wa := set_log l w0) end.
  destruct (session_get_Tickets_succeeds 0 ticket_id wa Hs) as [Eg _].
  change (tickets_table wa) with (tickets_table w) in Eg. rewrite Hx in Eg.
  eapply try_except_fst_ok. erewrite bind_ok by exact Eg. cbn beta iota.
  erewrite bind_ok by apply getattr_loaded. reflexivity.
Qed.

(** A successful [update_ticket_status], read backwards. *)
Lemma update_ticket_status_ok id req w r w' :
  attached w = [] ->
  update_ticket_status id req w = (Ok r, w') ->
  let s := UpdateTicketStatusRequest.status req in
  exists x,
    find_ticket id (tickets_table w) = Some x
    /\ ticket r = Tickets.set_updated_at (clock w 0%nat) (Tickets.set_status s x)
    /\ tickets_table w' = replace_rows id (ticket r) (tickets_table w).
Proof.
  intros Hatt E s.
  destruct (decide (s ∈ valid_statuses)) as [Hv|Hn].
  2:{ destruct (update_ticket_status_invalid id req w Hn)
        as (e & w1 & E1 & _).
      rewrite E1 in E. discriminate. }
  destruct (update_ticket_status_valid id req w Hatt Hv)
    as [(e & w1 & E1)|(x & w1 & Hx & E1 & Ht & _)];
    rewrite E1 in E; [discriminate|].
  injection E as <- <-. exists x. split; [exact Hx|].
  split; [reflexivity|exact Ht].
Qed.

(** A successful [create_ticket], read backwards. *)
Lemma create_ticket_ok req w r w' :
  attached w = [] ->
  find_ticket (tickets_seq w) (tickets_table w) = None ->
  create_ticket req w = (Ok r, w') ->
  ticket r = created_ticket req w
  /\ tickets_table w' = (tickets_table w ++ [created_ticket req w])%list
  /\ tickets_seq w' = tickets_seq w + 1.
Proof.
  intros Hatt Hseq E.
  destruct (succeeds_or_fails w) as [Hs|(what & fs & Hf)].
  2:{ destruct (create_ticket_lookup_fails req what fs w Hf) as (w1 & E1 & _).
      rewrite E1 in E. discriminate. }
  destruct (find_order (CreateTicketRequest.order_id req) (orders_table w))
    as [order|] eqn:Hord.
  2:{ destruct (create_ticket_order_absent req w Hord) as (e & w1 & E1 & _).
      rewrite E1 in E. discriminate. }
  destruct (create_ticket_paths req w order Hatt Hseq Hs Hord)
    as (w1 & _ & [(what & fs & _ & E1 & _)
                 |[(what & fs & _ & E1 & _)|(_ & E1 & Ht & Hq)]]);
    rewrite E1 in E; try discriminate E.
  injection E as <- <-. split; [reflexivity|]. split; assumption.
Qed.

Lemma replace_rows_ids k x' rows :
  Tickets.id x' = Some k ->
  map Tickets.id (replace_rows k x' rows) = map Tickets.id rows.
Proof.
  intros Hid. unfold replace_rows. rewrite map_map. apply map_ext.
  intros row. case_bool_decide; congruence.
Qed.



Lemma find_ticket_elem k rows x : find_ticket k rows = Some x -> x ∈ rows.
Proof.
  unfold find_ticket. intros H. apply find_some in H as [H _].
  apply list_elem_of_In. exact H.
Qed.

(** Every change the write endpoints make keeps ticket ids distinct and
    below the next value of the sequence. *)
Lemma tickets_change_wf w w' : tickets_change w w' -> tickets_wf w -> tickets_wf w'.
Proof.
  intros Hc [Hall Hnd]. destruct Hc as [Ht Hq|k x x' Hx Hid Ht Hq|x Hid Ht Hq];
    unfold tickets_wf; rewrite Ht, Hq.
  - split; assumption.
  - split; [|rewrite replace_rows_ids by exact Hid; exact Hnd].
    unfold replace_rows. apply Forall_map.
    assert (Hk : k < tickets_seq w).
    { rewrite Forall_forall in Hall.
      destruct (Hall x (find_ticket_elem _ _ _ Hx)) as (k0 & Hk0 & Hlt).
      rewrite (find_ticket_id _ _ _ Hx) in Hk0. injection Hk0 as <-.
      exact Hlt. }
    eapply Forall_impl; [exact Hall|]. intros row Hrow. cbn beta.
    case_bool_decide; [exists k; split; assumption|exact Hrow].
  - split.
    + apply Forall_app. split.
      * eapply Forall_impl; [exact Hall|].
        intros row (k & Hk & Hlt). exists k. split; [exact Hk|lia].
      * apply Forall_singleton. exists (tickets_seq w). split; [exact Hid|lia].
    + rewrite map_app. cbn [map]. apply NoDup_app. split; [exact Hnd|].
      split; [|apply NoDup_singleton].
      intros i Hi Hin. apply list_elem_of_singleton in Hin. subst i.
      apply elem_of_map in Hi as (row & Hrow & Hin).
      rewrite Forall_forall in Hall.
      destruct (Hall row Hin) as (k & Hk & Hlt).
      rewrite Hid in Hrow. rewrite Hrow in Hk. injection Hk as <-. lia.
Qed.

(** *** [update_ticket_status] *)

(** [update_ticket_status] succeeds whenever the ticket is in the table,
    the status is one of the four and the database answers its three
    requests, whatever the status of the ticket was: it returns the
    ticket with the new status and the time of the update, and has
    written it at the ticket's place. *)
Theorem update_ticket_status_succeeds ticket_id status_request w x :
  succeeds 3 w = true ->
  find_ticket ticket_id (tickets_table w) = Some x ->
  let s := UpdateTicketStatusRequest.status status_request in
  s ∈ valid_statuses ->
  let x' := Tickets.set_updated_at (clock w 0%nat) (Tickets.set_status s x) in
  exists w',
    with_session (update_ticket_status ticket_id status_request) w
    = (Ok {| message := "Ticket status updated successfully"; ticket := x' |},
       w')
    /\ tickets_table w' = replace_rows ticket_id x' (tickets_table w)
    /\ find_ticket ticket_id (tickets_table w') = Some x'.
Proof.
  intros Hs Hx s Hv x'.
  destruct (succeeds_3_shape w Hs) as (Hs1 & Hn2 & Hn3).
  rewrite with_session_run. set (w0 := set_attached [] w).
  destruct (update_ticket_status_paths ticket_id status_request w0 x
              eq_refl Hs1 Hx Hv)
    as (w1 & _ & _ & [(what & fs & Hf & _)
                     |[(what & fs & Hf & _)|(_ & E & Ht)]]).
  - destruct (Hn2 what fs Hf).
  - destruct (Hn3 what fs Hf).
  - rewrite E. cbn [fst snd]. eexists. split; [reflexivity|].
    split; [exact Ht|]. proj. rewrite Ht.
    apply (find_ticket_replace_rows _ x); [exact Hx|].
    exact (find_ticket_id _ _ _ Hx).
Qed.

Lemma update_ticket_status_succeeds_witness :
  exists w',
    with_session (update_ticket_status 1 closed) (world0 "closed" frozen [])
    = (Ok {| message := "Ticket status updated successfully";
             ticket := Tickets.set_updated_at (at_second 5 10)
                         (ticket1 "closed") |}, w')
    /\ tickets_table w'
       = [Tickets.set_updated_at (at_second 5 10) (ticket1 "closed"); ticket2]
    /\ find_ticket 1 (tickets_table w')
       = Some (Tickets.set_updated_at (at_second 5 10) (ticket1 "closed")).
Proof.
  apply (update_ticket_status_succeeds 1 closed (world0 "closed" frozen [])
           (ticket1 "closed")).
  - reflexivity.
  - reflexivity.
  - apply list_elem_of_In. cbn. auto.
Defined.

(** When the database fails under [update_ticket_status] for a ticket it
    holds and a valid status, the endpoint raises the 500 "Failed to
    update ticket status" error.  A failure of the lookup or of the
    commit leaves the database as it was; a failure of the refresh comes
    after the commit, and the new status is in the table although the
    endpoint reports failure. *)
Theorem update_ticket_status_store_failures ticket_id status_request w x :
  find_ticket ticket_id (tickets_table w) = Some x ->
  let s := UpdateTicketStatusRequest.status status_request in
  s ∈ valid_statuses ->
  let x' := Tickets.set_updated_at (clock w 0%nat) (Tickets.set_status s x) in
  let run := with_session (update_ticket_status ticket_id status_request) w in
  let failed := Raise (HTTPException 500 "Failed to update ticket status") in
  (forall what fs,
     faults w = Some what :: fs -> fst run = failed /\ same_db w (snd run))
  /\ (forall what fs,
        faults w = None :: Some what :: fs ->
        fst run = failed /\ same_db w (snd run))
  /\ (forall what fs,
        faults w = None :: None :: Some what :: fs ->
        fst run = failed
        /\ tickets_table (snd run) = replace_rows ticket_id x' (tickets_table w)
        /\ orders_table (snd run) = orders_table w).
Proof.
  intros Hx s Hv x' run failed. unfold run.
  rewrite with_session_run. cbn [fst snd]. set (w0 := set_attached [] w).
  split; [|split]; intros what fs Hf.
  - destruct (update_ticket_status_lookup_fails ticket_id status_request
                what fs w0 Hf) as (w1 & -> & Hdb).
    split; [reflexivity|exact Hdb].
  - destruct (fails_shape w what fs (or_introl Hf)) as [Hs1 Hs3].
    destruct (update_ticket_status_paths ticket_id status_request w0 x
                eq_refl Hs1 Hx Hv)
      as (w1 & Ho & Hq & [(what1 & fs1 & _ & -> & Ht)
                         |[(what1 & fs1 & Hf1 & _)|(Hs & _)]]).
    + split; [reflexivity|]. split; [exact Ho|]. split; [exact Ht|exact Hq].
    + change (faults w0) with (faults w) in Hf1. congruence.
    + change (succeeds 3 w0) with (succeeds 3 w) in Hs. congruence.
  - destruct (fails_shape w what fs (or_intror Hf)) as [Hs1 Hs3].
    destruct (update_ticket_status_paths ticket_id status_request w0 x
                eq_refl Hs1 Hx Hv)
      as (w1 & Ho & Hq & [(what1 & fs1 & Hf1 & _)
                         |[(what1 & fs1 & _ & -> & Ht)|(Hs & _)]]).
    + change (faults w0) with (faults w) in Hf1. congruence.
    + split; [reflexivity|]. split; [exact Ht|exact Ho].
    + change (succeeds 3 w0) with (succeeds 3 w) in Hs. congruence.
Qed.

Lemma update_ticket_status_store_failures_witness :
  let commit_fails := world0 "open" frozen [None; Some "disk full"] in
  let refresh_fails := world0 "open" frozen [None; None; Some "timeout"] in
  let failed := Raise (HTTPException 500 "Failed to update ticket status") in
  (fst (with_session (update_ticket_status 1 closed) commit_fails) = failed
   /\ same_db commit_fails
        (snd (with_session (update_ticket_status 1 closed) commit_fails)))
  /\ (fst (with_session (update_ticket_status 1 closed) refresh_fails) = failed
      /\ tickets_table
           (snd (with_session (update_ticket_status 1 closed) refresh_fails))
         = [Tickets.set_updated_at (at_second 5 10) (ticket1 "closed");
            ticket2]
      /\ orders_table
           (snd (with_session (update_ticket_status 1 closed) refresh_fails))
         = [order7]).
Proof.
  intros commit_fails refresh_fails failed.
  assert (Hv : UpdateTicketStatusRequest.status closed ∈ valid_statuses)
    by (apply list_elem_of_In; cbn; auto).
  split.
  - eapply (update_ticket_status_store_failures 1 closed commit_fails
              (ticket1 "open") eq_refl Hv).
    reflexivity.
  - eapply (update_ticket_status_store_failures 1 closed refresh_fails
              (ticket1 "open") eq_refl Hv).
    reflexivity.
Defined.


(** *** [create_ticket] *)

(** [create_ticket] succeeds whenever the order is in the table and the
    database answers its three requests: the new ticket takes the next id
    of the sequence, is open, and is added at the end of the table. *)
Theorem create_ticket_succeeds ticket_request w order :
  tickets_wf w ->
  succeeds 3 w = true ->
  find_order (CreateTicketRequest.order_id ticket_request) (orders_table w)
  = Some order ->
  let new_ticket := created_ticket ticket_request w in
  exists w',
    with_session (create_ticket ticket_request) w
    = (Ok {| message := "Ticket created successfully";
             ticket := new_ticket |}, w')
    /\ Tickets.id new_ticket = Some (tickets_seq w)
    /\ tickets_table w' = (tickets_table w ++ [new_ticket])%list
    /\ tickets_seq w' = tickets_seq w + 1.
Proof.
  intros Hwf Hs Ho new_ticket.
  destruct (succeeds_3_shape w Hs) as (Hs1 & Hn2 & Hn3).
  rewrite with_session_run. set (w0 := set_attached [] w).
  destruct (create_ticket_paths ticket_request w0 order eq_refl
              (tickets_wf_fresh w Hwf) Hs1 Ho)
    as (w1 & _ & [(what & fs & Hf & _)
                 |[(what & fs & Hf & _)|(_ & E & Ht & Hq)]]).
  - destruct (Hn2 what fs Hf).
  - destruct (Hn3 what fs Hf).
  - rewrite E. cbn [fst snd]. eexists. split; [reflexivity|].
    split; [reflexivity|]. split; [exact Ht|exact Hq].
Qed.

Lemma create_ticket_succeeds_witness :
  exists w',
    with_session (create_ticket request7) (world0 "open" ticking [])
    = (Ok {| message := "Ticket created successfully";
             ticket := created_ticket request7 (world0 "open" ticking []) |},
       w')
    /\ Tickets.id (created_ticket request7 (world0 "open" ticking []))
       = Some 3
    /\ tickets_table w'
       = [ticket1 "open"; ticket2;
          created_ticket request7 (world0 "open" ticking [])]
    /\ tickets_seq w' = 4.
Proof.
  apply (create_ticket_succeeds request7 (world0 "open" ticking []) order7).
  - split.
    + repeat (apply Forall_cons_2;
              [eexists; split; [reflexivity|reflexivity]|]).
      apply Forall_nil_2.
    + compute_done.
  - reflexivity.
  - reflexivity.
Defined.

(** When the database fails under [create_ticket] for an order it holds,
    the endpoint raises the 500 "Failed to create ticket" error.  A
    failure of the lookup or of the commit leaves the database as it was;
    a failure of the refresh comes after the commit, and the ticket is in
    the table although the endpoint reports failure. *)
Theorem create_ticket_store_failures ticket_request w order :
  tickets_wf w ->
  find_order (CreateTicketRequest.order_id ticket_request) (orders_table w)
  = Some order ->
  let run := with_session (create_ticket ticket_request) w in
  let failed := Raise (HTTPException 500 "Failed to create ticket") in
  (forall what fs,
     faults w = Some what :: fs -> fst run = failed /\ same_db w (snd run))
  /\ (forall what fs,
        faults w = None :: Some what :: fs ->
        fst run = failed /\ same_db w (snd run))
  /\ (forall what fs,
        faults w = None :: None :: Some what :: fs ->
        fst run = failed
        /\ tickets_table (snd run)
           = (tickets_table w ++ [created_ticket ticket_request w])%list
        /\ tickets_seq (snd run) = tickets_seq w + 1).
Proof.
  intros Hwf Ho run failed. unfold run.
  pose proof (tickets_wf_fresh w Hwf) as Hseq.
  rewrite with_session_run. cbn [fst snd]. set (w0 := set_attached [] w).
  split; [|split]; intros what fs Hf.
  - destruct (create_ticket_lookup_fails ticket_request what fs w0 Hf)
      as (w1 & -> & Hdb).
    split; [reflexivity|exact Hdb].
  - destruct (fails_shape w what fs (or_introl Hf)) as [Hs1 Hs3].
    destruct (create_ticket_paths ticket_request w0 order eq_refl Hseq Hs1 Ho)
      as (w1 & Hot & [(what1 & fs1 & _ & -> & Ht & Hq)
                     |[(what1 & fs1 & Hf1 & _)|(Hs & _)]]).
    + split; [reflexivity|]. split; [exact Hot|]. split; [exact Ht|exact Hq].
    + change (faults w0) with (faults w) in Hf1. congruence.
    + change (succeeds 3 w0) with (succeeds 3 w) in Hs. congruence.
  - destruct (fails_shape w what fs (or_intror Hf)) as [Hs1 Hs3].
    destruct (create_ticket_paths ticket_request w0 order eq_refl Hseq Hs1 Ho)
      as (w1 & Hot & [(what1 & fs1 & Hf1 & _)
                     |[(what1 & fs1 & _ & -> & Ht & Hq)|(Hs & _)]]).
    + change (faults w0) with (faults w) in Hf1. congruence.
    + split; [reflexivity|]. split; [exact Ht|exact Hq].
    + change (succeeds 3 w0) with (succeeds 3 w) in Hs. congruence.
Qed.

Lemma create_ticket_store_failures_witness :
  let commit_fails := world0 "open" ticking [None; Some "disk full"] in
  let refresh_fails := world0 "open" ticking [None; None; Some "timeout"] in
  let failed := Raise (HTTPException 500 "Failed to create ticket") in
  (fst (with_session (create_ticket request7) commit_fails) = failed
   /\ same_db commit_fails
        (snd (with_session (create_ticket request7) commit_fails)))
  /\ (fst (with_session (create_ticket request7) refresh_fails) = failed
      /\ tickets_table
           (snd (with_session (create_ticket request7) refresh_fails))
         = [ticket1 "open"; ticket2; created_ticket request7 refresh_fails]
      /\ tickets_seq
           (snd (with_session (create_ticket request7) refresh_fails))
         = 4).
Proof.
  intros commit_fails refresh_fails failed.
  assert (Hwf : forall fs, tickets_wf (world0 "open" ticking fs)).
  { intros fs. split.
    - repeat (apply Forall_cons_2;
              [eexists; split; [reflexivity|reflexivity]|]).
      apply Forall_nil_2.
    - compute_done. }
  split.
  - eapply (create_ticket_store_failures request7 commit_fails order7
              (Hwf _) eq_refl).
    reflexivity.
  - eapply (create_ticket_store_failures request7 refresh_fails order7
              (Hwf _) eq_refl).
    reflexivity.
Defined.

(** *** The table of tickets across requests *)

(** Both write endpoints, whatever their outcome, keep the ids of the
    tickets distinct and below the next value of the sequence. *)
Theorem write_endpoints_keep_ids_distinct ticket_request ticket_id status_request w :
  tickets_wf w ->
  tickets_wf (snd (with_session (create_ticket ticket_request) w))
  /\ tickets_wf
       (snd (with_session
               (update_ticket_status ticket_id status_request) w)).
Proof.
  intros Hwf. rewrite !with_session_run. cbn [snd].
  set (w0 := set_attached [] w).
  assert (Hwf0 : tickets_wf w0) by exact Hwf.
  split.
  - destruct (create_ticket_changes ticket_request w0 eq_refl Hwf0)
      as [_ Hc].
    exact (tickets_change_wf w0 _ Hc Hwf0).
  - destruct (update_ticket_status_changes ticket_id status_request w0 eq_refl)
      as (_ & Hq & [Ht|(x & x' & Hx & Hid & Ht)]).
    + refine (tickets_change_wf w0 _ _ Hwf0).
      apply tickets_unchanged; assumption.
    + refine (tickets_change_wf w0 _ _ Hwf0).
      eapply tickets_updated; eassumption.
Qed.

Lemma write_endpoints_keep_ids_distinct_witness :
  tickets_wf
    (snd (with_session (create_ticket request7) (world0 "open" ticking [])))
  /\ tickets_wf
       (snd (with_session (update_ticket_status 1 closed)
               (world0 "open" ticking []))).
Proof.
  apply (write_endpoints_keep_ids_distinct request7 1 closed
           (world0 "open" ticking [])).
  split.
  - repeat (apply Forall_cons_2;
            [eexists; split; [reflexivity|reflexivity]|]).
    apply Forall_nil_2.
  - compute_done.
Defined.

(** The ticket a successful [create_ticket] returns is the row stored
    under its id, and [get_ticket] with that id, on the database as the
    creation left it, returns it. *)
Theorem created_ticket_can_be_fetched ticket_request w r w' :
  tickets_wf w ->
  with_session (create_ticket ticket_request) w = (Ok r, w') ->
  Tickets.id (ticket r) = Some (tickets_seq w)
  /\ find_ticket (tickets_seq w) (tickets_table w') = Some (ticket r)
  /\ (succeeds 1 w' = true ->
      fst (with_session (get_ticket (tickets_seq w)) w') = Ok (ticket r)).
Proof.
  intros Hwf E. pose proof (tickets_wf_fresh w Hwf) as Hseq.
  apply with_session_inv in E as (w1 & E & ->).
  apply create_ticket_ok in E as (Hr & Ht & _); [|reflexivity|exact Hseq].
  assert (Hfind : find_ticket (tickets_seq w)
                    (tickets_table (set_attached [] w1)) = Some (ticket r)).
  { proj. rewrite Ht, Hr.
    apply find_ticket_app_new; [exact Hseq|reflexivity]. }
  split; [rewrite Hr; reflexivity|]. split; [exact Hfind|].
  intros Hs. apply get_ticket_found; assumption.
Qed.

Lemma created_ticket_can_be_fetched_witness :
  let w := world0 "open" ticking [] in
  let run := with_session (create_ticket request7) w in
  exists r,
    fst run = Ok r
    /\ Tickets.id (ticket r) = Some 3
    /\ fst (with_session (get_ticket 3) (snd run)) = Ok (ticket r).
Proof.
  intros w run.
  assert (Hwf : tickets_wf w).
  { split.
    - repeat (apply Forall_cons_2;
              [eexists; split; [reflexivity|reflexivity]|]).
      apply Forall_nil_2.
    - compute_done. }
  assert (E : run = (Ok {| message := "Ticket created successfully";
                           ticket := created_ticket request7 w |}, snd run))
    by (vm_compute; reflexivity).
  eexists. split; [rewrite E; reflexivity|].
  destruct (created_ticket_can_be_fetched request7 w _ _ Hwf E)
    as (Hid & _ & Hget).
  split; [exact Hid|]. apply Hget. reflexivity.
Defined.

(** The ticket a successful [update_ticket_status] returns has the
    requested status and is the row stored under the ticket's id, and
    [get_ticket], on the database as the update left it, returns it. *)
Theorem updated_ticket_can_be_fetched ticket_id status_request w r w' :
  with_session (update_ticket_status ticket_id status_request) w = (Ok r, w') ->
  Tickets.status (ticket r) = UpdateTicketStatusRequest.status status_request
  /\ find_ticket ticket_id (tickets_table w') = Some (ticket r)
  /\ (succeeds 1 w' = true ->
      fst (with_session (get_ticket ticket_id) w') = Ok (ticket r)).
Proof.
  intros E. apply with_session_inv in E as (w1 & E & ->).
  apply update_ticket_status_ok in E as (x & Hx & Hr & Ht); [|reflexivity].
  assert (Hfind : find_ticket ticket_id (tickets_table (set_attached [] w1))
                  = Some (ticket r)).
  { proj. rewrite Ht. apply (find_ticket_replace_rows _ x); [exact Hx|].
    rewrite Hr. exact (find_ticket_id _ _ _ Hx). }
  split; [rewrite Hr; reflexivity|]. split; [exact Hfind|].
  intros Hs. apply get_ticket_found; assumption.
Qed.

Lemma updated_ticket_can_be_fetched_witness :
  exists r w',
    with_session (update_ticket_status 1 closed) (world0 "open" ticking [])
    = (Ok r, w')
    /\ Tickets.status (ticket r) = "closed"
    /\ fst (with_session (get_ticket 1) w') = Ok (ticket r).
Proof.
  destruct (with_session (update_ticket_status 1 closed)
              (world0 "open" ticking [])) as [res w'] eqn:E.
  assert (Hres : res = fst (with_session (update_ticket_status 1 closed)
                              (world0 "open" ticking [])))
    by (rewrite E; reflexivity).
  assert (Hw : w' = snd (with_session (update_ticket_status 1 closed)
                           (world0 "open" ticking [])))
    by (rewrite E; reflexivity).
  vm_compute in Hres. subst res.
  eexists _, w'. split; [reflexivity|].
  destruct (updated_ticket_can_be_fetched 1 closed _ _ _ E)
    as (Hst & _ & Hget).
  split; [exact Hst|]. apply Hget. rewrite Hw. reflexivity.
Defined.

(** Two tickets created one after the other get different ids: the
    second gets the id after the first. *)
Theorem successive_tickets_get_successive_ids first second w a w1 b w2 :
  tickets_wf w ->
  with_session (create_ticket first) w = (Ok a, w1) ->
  with_session (create_ticket second) w1 = (Ok b, w2) ->
  exists k,
    Tickets.id (ticket a) = Some k /\ Tickets.id (ticket b) = Some (k + 1).
Proof.
  intros Hwf Ea Eb.
  assert (Hwf1 : tickets_wf w1).
  { pose proof (create_ticket_changes first (set_attached [] w) eq_refl Hwf)
      as [_ Hc].
    apply with_session_inv in Ea as (w1' & Ea & ->).
    rewrite Ea in Hc. exact (tickets_change_wf _ _ Hc Hwf). }
  pose proof (tickets_wf_fresh w Hwf) as Hseq.
  pose proof (tickets_wf_fresh w1 Hwf1) as Hseq1.
  apply with_session_inv in Ea as (w1' & Ea & ->).
  apply with_session_inv in Eb as (w2' & Eb & ->).
  apply create_ticket_ok in Ea as (Ha & _ & Hq); [|reflexivity|exact Hseq].
  apply create_ticket_ok in Eb as (Hb & _ & _); [|reflexivity|exact Hseq1].
  exists (tickets_seq w). rewrite Ha, Hb. split; [reflexivity|].
  cbn [Tickets.id created_ticket]. proj. rewrite Hq. reflexivity.
Qed.

Lemma successive_tickets_get_successive_ids_witness :
  exists a w1 b w2 k,
    with_session (create_ticket request7) (world0 "open" ticking [])
    = (Ok a, w1)
    /\ with_session (create_ticket request7) w1 = (Ok b, w2)
    /\ Tickets.id (ticket a) = Some k /\ Tickets.id (ticket b) = Some (k + 1).
Proof.
  set (w := world0 "open" ticking []).
  assert (Hwf : tickets_wf w).
  { split.
    - repeat (apply Forall_cons_2;
              [eexists; split; [reflexivity|reflexivity]|]).
      apply Forall_nil_2.
    - compute_done. }
  destruct (with_session (create_ticket request7) w) as [ra w1] eqn:E1.
  assert (Ha : ra = fst (with_session (create_ticket request7) w))
    by (rewrite E1; reflexivity).
  assert (Hw : w1 = snd (with_session (create_ticket request7) w))
    by (rewrite E1; reflexivity).
  destruct (with_session (create_ticket request7) w1) as [rb w2] eqn:E2.
  assert (Hb : rb = fst (with_session (create_ticket request7) w1))
    by (rewrite E2; reflexivity).
  rewrite Hw in Hb. vm_compute in Ha, Hb. subst ra rb.
  destruct (successive_tickets_get_successive_ids request7 request7 w
              _ _ _ _ Hwf E1 E2) as (k & Hka & Hkb).
  eexists _, w1, _, w2, k. split; [reflexivity|]. split; [exact E2|].
  split; assumption.
Defined.
